(** * CropCast: crop overlay geometry, encoder command line, conversion
      outcome and persisted settings

    A shallow embedding of [cropcast.py].  Python integers are [Z], Python
    floats are IEEE 754 binary64 values (section [Float64]), strings are
    [string].  Qt widgets are records holding the part of their state the
    program reads back (spin box range and value, combo box items and
    current index, the painter's list of drawing primitives).  An [int]
    handed to Qt is converted to a C int, which raises [OverflowError] when
    it does not fit. *)

From Stdlib Require Import ZArith QArith Qround Qpower Qabs Lia Lqa.
From Stdlib Require Import List String Ascii Bool DecimalString.
From Stdlib Require Import SpecFloat.
From Stdlib Require Import DecimalPos.
Import ListNotations.

Local Open Scope Z_scope.

(** ** Python floats

    A Python [float] is a binary64 number.  A finite one is written
    [mant * 2 ^ expo]; every operation of the program on floats
    ([int / int], [int * float], [int(float)]) is the exact rational result
    rounded to 53 significant bits, ties to even.  The exponent is not
    bounded here: the model coincides with binary64 as long as no result
    overflows or is subnormal, which is the case for the 32-bit integers
    that Qt hands to the overlay (see [truediv_int32_normal] and
    [offset_int32_normal]). *)

Module Float64.

Record float : Type := mkFloat { mant : Z; expo : Z }.

Definition prec : Z := 53.

(** Powers of two as rationals, and the rational value of a float. *)
Definition pow2 (e : Z) : Q := (2 ^ e)%Q.
Definition F2Q (f : float) : Q := (inject_Z (mant f) * pow2 (expo f))%Q.

Definition zero : float := mkFloat 0 0.
Definition fneg (f : float) : float := mkFloat (- mant f) (expo f).

(** [n / d / 2 ^ e] as a ratio of two integers. *)
Definition scaled (n d e : Z) : Z * Z :=
  if 0 <=? e then (n, d * 2 ^ e) else (n * 2 ^ (- e), d).

(** Nearest integer to [num / den], ties to even ([den > 0]). *)
Definition rne (num den : Z) : Z :=
  let q := num / den in
  let r := num mod den in
  match 2 * r ?= den with
  | Lt => q
  | Gt => q + 1
  | Eq => if Z.even q then q else q + 1
  end.

(** The exponent [e] with [2^52 <= (n/d) / 2^e < 2^53], for [n, d > 0]. *)
Definition exponent (n d : Z) : Z :=
  let e1 := Z.log2 n - Z.log2 d - (prec - 1) in
  let '(num1, den1) := scaled n d e1 in
  if 2 ^ (prec - 1) * den1 <=? num1 then e1 else e1 - 1.

(** Rounding of the positive rational [n / d]. *)
Definition round_pos (n d : Z) : float :=
  let e := exponent n d in
  let '(num, den) := scaled n d e in
  mkFloat (rne num den) e.

(** Rounding of the rational [n / d], [d > 0]. *)
Definition round (n d : Z) : float :=
  match n with
  | 0 => zero
  | Zpos _ => round_pos n d
  | Zneg _ => fneg (round_pos (- n) d)
  end.

(** [float(z)] *)
Definition of_int (z : Z) : float := round z 1.

(** [a / b] on two Python ints, [b <> 0]: the correctly rounded quotient. *)
Definition truediv (a b : Z) : float :=
  if 0 <? b then round a b else round (- a) (- b).

(** The exact value [m * 2 ^ e] as a ratio. *)
Definition ratio_of (f : float) : Z * Z :=
  if 0 <=? expo f then (mant f * 2 ^ expo f, 1) else (mant f, 2 ^ (- expo f)).

(** [x * y] on two floats. *)
Definition mul (x y : float) : float :=
  let '(n, d) := ratio_of (mkFloat (mant x * mant y) (expo x + expo y)) in
  round n d.

(** [int(x)]: truncation toward zero. *)
Definition trunc (f : float) : Z :=
  let '(n, d) := ratio_of f in Z.quot n d.

(** The rational [n / d]. *)
Definition Qratio (n d : Z) : Q := (inject_Z n / inject_Z d)%Q.

(** [rounds_to x f]: [f] is the rational [x > 0] rounded to nearest, ties to
    even, with 53 significant bits. *)
Definition rounds_to (x : Q) (f : float) : Prop :=
  let y := (x * pow2 (- expo f))%Q in
  let m := inject_Z (mant f) in
  (pow2 52 <= y /\ y < pow2 53 /\
   - (1 # 2) <= y - m /\ y - m <= 1 # 2 /\
   (y - m == 1 # 2 \/ y - m == - (1 # 2) -> Z.even (mant f) = true))%Q.

(** The same value as a Standard Library [spec_float], used to compare the
    model with the reference binary64 operations on examples. *)
Definition to_spec (f : float) : spec_float :=
  match mant f with
  | 0 => S754_zero false
  | Zpos m => binary_normalize 53 1024 (Zpos m) (expo f) false
  | Zneg m => SFopp (binary_normalize 53 1024 (Zpos m) (expo f) false)
  end.

End Float64.


(** ** Python numbers, exceptions and effects *)

(** An arithmetic value is an [int] or a [float]; [scale_x] in
    [CropOverlay.paintEvent] is one or the other. *)
Inductive pynum : Type :=
| PyInt (z : Z)
| PyFloat (f : Float64.float).

(** The exception classes the modelled code can meet.  All of them derive
    from [Exception]. *)
Inductive exn : Type :=
| ZeroDivisionError
| TypeError
| AttributeError
| OverflowError
| JSONDecodeError
| OSError.

Inductive result (A : Type) : Type :=
| Ok (a : A)
| Raise (e : exn).
Arguments Ok {A} a.
Arguments Raise {A} e.

(** Stateful code that may raise: a method of an object of state [S]. *)
Definition M (S A : Type) : Type := S -> result A * S.

Definition ret {S A} (a : A) : M S A := fun s => (Ok a, s).
Definition raise {S A} (e : exn) : M S A := fun s => (Raise e, s).
Definition bind {S A B} (m : M S A) (k : A -> M S B) : M S B :=
  fun s => match m s with
           | (Ok a, s') => k a s'
           | (Raise e, s') => (Raise e, s')
           end.
Definition get {S} : M S S := fun s => (Ok s, s).
Definition modify {S} (f : S -> S) : M S unit := fun s => (Ok tt, f s).
Definition lift {S A} (r : result A) : M S A := fun s => (r, s).

(** [try: body except Exception as e: handler e] *)
Definition try_except {S A} (body : M S A) (handler : exn -> M S A) : M S A :=
  fun s => match body s with
           | (Ok a, s') => (Ok a, s')
           | (Raise e, s') => handler e s'
           end.

Declare Scope py_scope.
Delimit Scope py_scope with py.
Notation "x <- m ;; k" := (bind m (fun x => k))
  (at level 61, m at next level, right associativity) : py_scope.
Notation "m ;; k" := (bind m (fun _ => k))
  (at level 61, right associativity) : py_scope.

(** [a / b] on ints. *)
Definition py_truediv (a b : Z) : result pynum :=
  if b =? 0 then Raise ZeroDivisionError else Ok (PyFloat (Float64.truediv a b)).

(** [d * s] for an int [d]. *)
Definition py_mul (d : Z) (s : pynum) : pynum :=
  match s with
  | PyInt z => PyInt (d * z)
  | PyFloat f => PyFloat (Float64.mul (Float64.of_int d) f)
  end.

(** [int(x)] *)
Definition py_int (x : pynum) : Z :=
  match x with
  | PyInt z => z
  | PyFloat f => Float64.trunc f
  end.

(** ** The crop overlay ([class CropOverlay]) *)

Record QColor : Type := mkColor { red : Z; green : Z; blue : Z; alpha : Z }.
Record QPen : Type := mkPen { pen_color : QColor; pen_width : Z }.

(** What a [QPainter] has drawn, in order. *)
Inductive paint_op : Type :=
| DrawRect (pen : QPen) (x y w h : Z)
| DrawLine (pen : QPen) (x1 y1 x2 y2 : Z)
| FillRect (x y w h : Z) (c : QColor).

Record QPainter : Type := mkPainter { current_pen : QPen; painted : list paint_op }.

(** [QPainter(self)]: black pen of width 1, nothing drawn. *)
Definition new_painter : QPainter := mkPainter (mkPen (mkColor 0 0 0 255) 1) [].

(** The Python int fits a C int, the type of the coordinates of the drawing
    calls used here. *)
Definition c_int (z : Z) : bool := (- 2 ^ 31 <=? z) && (z <? 2 ^ 31).

Definition setPen (p : QPen) : M QPainter unit :=
  modify (fun q => mkPainter p (painted q)).

(** A drawing call with the [int] arguments [args]: PyQt converts them to
    C ints and raises [OverflowError] when one does not fit; nothing is
    drawn then. *)
Definition paint (args : list Z) (op : QPen -> paint_op) : M QPainter unit :=
  if forallb c_int args
  then modify (fun q => mkPainter (current_pen q) (painted q ++ [op (current_pen q)]))
  else raise OverflowError.
Definition drawRect (x y w h : Z) : M QPainter unit :=
  paint [x; y; w; h] (fun pen => DrawRect pen x y w h).
Definition drawLine (x1 y1 x2 y2 : Z) : M QPainter unit :=
  paint [x1; y1; x2; y2] (fun pen => DrawLine pen x1 y1 x2 y2).
Definition fillRect (x y w h : Z) (c : QColor) : M QPainter unit :=
  paint [x; y; w; h] (fun _ => FillRect x y w h c).

(** The overlay widget: the crop distances and the original resolution set by
    [setCrop], and the widget's own size ([self.width()], [self.height()]). *)
Record CropOverlay : Type := mkOverlay {
  crop_top : Z;
  crop_bottom : Z;
  crop_left : Z;
  crop_right : Z;
  original_width : Z;
  original_height : Z;
  width : Z;
  height : Z
}.

(** [CropOverlay.__init__] for a widget of the given size. *)
Definition CropOverlay_init (w h : Z) : CropOverlay := mkOverlay 0 0 0 0 1 1 w h.

Definition setCrop (top bottom left right : Z)
    (original_width' original_height' : option Z) (self : CropOverlay) : CropOverlay :=
  mkOverlay top bottom left right
    (match original_width' with Some v => v | None => original_width self end)
    (match original_height' with Some v => v | None => original_height self end)
    (width self) (height self).

(** [preview / original if original > 0 else 1] *)
Definition scale_factor (preview original : Z) : result pynum :=
  if 0 <? original then py_truediv preview original else Ok (PyInt 1).

(** [int(crop * scale)] *)
Definition offset (crop : Z) (scale : pynum) : Z := py_int (py_mul crop scale).

(** The positions computed in [paintEvent]; the occlusion of the left and
    right sides uses [0] and the full extent for a side that is not cropped. *)
Definition top_pos (crop_top : Z) (scale_y : pynum) : Z := offset crop_top scale_y.
Definition bottom_pos (h crop_bottom : Z) (scale_y : pynum) : Z := h - offset crop_bottom scale_y.
Definition left_pos (crop_left : Z) (scale_x : pynum) : Z := offset crop_left scale_x.
Definition right_pos (w crop_right : Z) (scale_x : pynum) : Z := w - offset crop_right scale_x.

Definition top_edge (self : CropOverlay) (scale_y : pynum) : Z :=
  if 0 <? crop_top self then top_pos (crop_top self) scale_y else 0.
Definition bottom_edge (self : CropOverlay) (scale_y : pynum) : Z :=
  if 0 <? crop_bottom self then bottom_pos (height self) (crop_bottom self) scale_y
  else height self.

Definition when {S} (b : bool) (m : M S unit) : M S unit := if b then m else ret tt.

Definition border_pen : QPen := mkPen (mkColor 100 100 100 150) 1.
Definition line_pen : QPen := mkPen (mkColor 255 0 0 200) 2.
Definition shade : QColor := mkColor 0 0 0 100.

Local Open Scope py_scope.

Definition paintEvent (self : CropOverlay) : M QPainter unit :=
  let w := width self in
  let h := height self in
  scale_x <- lift (scale_factor w (original_width self)) ;;
  scale_y <- lift (scale_factor h (original_height self)) ;;
  setPen border_pen ;;
  drawRect 0 0 (w - 1) (h - 1) ;;
  setPen line_pen ;;
  when (0 <? crop_top self)
    (let top_pos := top_pos (crop_top self) scale_y in
     drawLine 0 top_pos w top_pos) ;;
  when (0 <? crop_bottom self)
    (let bottom_pos := bottom_pos h (crop_bottom self) scale_y in
     drawLine 0 bottom_pos w bottom_pos) ;;
  when (0 <? crop_left self)
    (let left_pos := left_pos (crop_left self) scale_x in
     drawLine left_pos 0 left_pos h) ;;
  when (0 <? crop_right self)
    (let right_pos := right_pos w (crop_right self) scale_x in
     drawLine right_pos 0 right_pos h) ;;
  when (0 <? crop_top self)
    (let top_pos := top_pos (crop_top self) scale_y in
     fillRect 0 0 w top_pos shade) ;;
  when (0 <? crop_bottom self)
    (let bottom_pos := bottom_pos h (crop_bottom self) scale_y in
     fillRect 0 bottom_pos w (h - bottom_pos) shade) ;;
  when (0 <? crop_left self)
    (let left_pos := left_pos (crop_left self) scale_x in
     let top_pos := top_edge self scale_y in
     let bottom_pos := bottom_edge self scale_y in
     fillRect 0 top_pos left_pos (bottom_pos - top_pos) shade) ;;
  when (0 <? crop_right self)
    (let right_pos := right_pos w (crop_right self) scale_x in
     let top_pos := top_edge self scale_y in
     let bottom_pos := bottom_edge self scale_y in
     fillRect right_pos top_pos (w - right_pos) (bottom_pos - top_pos) shade).

(** What one repaint draws on a fresh painter. *)
Definition repaint (self : CropOverlay) : result (list paint_op) :=
  match paintEvent self new_painter with
  | (Ok _, q) => Ok (painted q)
  | (Raise e, _) => Raise e
  end.

(** Guide lines and occlusion rectangles among the drawn primitives. *)
Record line : Type := mkLine { lx1 : Z; ly1 : Z; lx2 : Z; ly2 : Z }.
Record rect : Type := mkRect { rx : Z; ry : Z; rw : Z; rh : Z }.

Definition guide_lines (ops : list paint_op) : list line :=
  flat_map (fun op => match op with
                      | DrawLine _ x1 y1 x2 y2 => [mkLine x1 y1 x2 y2]
                      | _ => []
                      end) ops.

Definition occlusions (ops : list paint_op) : list rect :=
  flat_map (fun op => match op with
                      | FillRect x y w h _ => [mkRect x y w h]
                      | _ => []
                      end) ops.

(** The pixel [(px, py)] lies in the rectangle. *)
Definition covers (r : rect) (px py : Z) : bool :=
  (rx r <=? px) && (px <? rx r + rw r) && (ry r <=? py) && (py <? ry r + rh r).

Definition cover_count (rs : list rect) (px py : Z) : nat :=
  List.length (filter (fun r => covers r px py) rs).

(** The part of the preview that stays visible: between the mapped left and
    right lines and between the mapped top and bottom lines. *)
Definition center_tile (self : CropOverlay) (scale_x scale_y : pynum) : rect :=
  let l := if 0 <? crop_left self then left_pos (crop_left self) scale_x else 0 in
  let r := if 0 <? crop_right self
           then right_pos (width self) (crop_right self) scale_x else width self in
  let t := top_edge self scale_y in
  let b := bottom_edge self scale_y in
  mkRect l t (r - l) (b - t).

(** Qt's [int] is a 32-bit C int. *)
Definition qt_int (z : Z) : Prop := - 2 ^ 31 <= z < 2 ^ 31.

(** The [int] arguments of a drawing call, and the calls of one repaint in
    order, for the given scale factors. *)
Definition coordinates (op : paint_op) : list Z :=
  match op with
  | DrawRect _ x y w h => [x; y; w; h]
  | DrawLine _ x1 y1 x2 y2 => [x1; y1; x2; y2]
  | FillRect x y w h _ => [x; y; w; h]
  end.

Definition accepted (op : paint_op) : bool := forallb c_int (coordinates op).

Definition paint_calls (self : CropOverlay) (sx sy : pynum) : list paint_op :=
  let w := width self in
  let h := height self in
  [DrawRect border_pen 0 0 (w - 1) (h - 1)]
  ++ (if 0 <? crop_top self
      then [DrawLine line_pen 0 (top_pos (crop_top self) sy) w (top_pos (crop_top self) sy)]
      else [])
  ++ (if 0 <? crop_bottom self
      then [DrawLine line_pen 0 (bottom_pos h (crop_bottom self) sy)
                              w (bottom_pos h (crop_bottom self) sy)]
      else [])
  ++ (if 0 <? crop_left self
      then [DrawLine line_pen (left_pos (crop_left self) sx) 0 (left_pos (crop_left self) sx) h]
      else [])
  ++ (if 0 <? crop_right self
      then [DrawLine line_pen (right_pos w (crop_right self) sx) 0
                              (right_pos w (crop_right self) sx) h]
      else [])
  ++ (if 0 <? crop_top self
      then [FillRect 0 0 w (top_pos (crop_top self) sy) shade]
      else [])
  ++ (if 0 <? crop_bottom self
      then [FillRect 0 (bottom_pos h (crop_bottom self) sy)
                     w (h - bottom_pos h (crop_bottom self) sy) shade]
      else [])
  ++ (if 0 <? crop_left self
      then [FillRect 0 (top_edge self sy) (left_pos (crop_left self) sx)
                     (bottom_edge self sy - top_edge self sy) shade]
      else [])
  ++ (if 0 <? crop_right self
      then [FillRect (right_pos w (crop_right self) sx) (top_edge self sy)
                     (w - right_pos w (crop_right self) sx)
                     (bottom_edge self sy - top_edge self sy) shade]
      else []).

Local Close Scope py_scope.

(** ** Strings and JSON values *)

Local Open Scope string_scope.
Local Open Scope list_scope.
Local Open Scope Z_scope.

(** [s.startswith(p)] *)
Definition startswith (s p : string) : bool := String.prefix p s.

(** [str(z)] and the [{z}] of an f-string, for an int. *)
Definition str_of_int (z : Z) : string := NilZero.string_of_int (Z.to_int z).

Definition lower_ascii (c : ascii) : ascii :=
  let n := nat_of_ascii c in
  if ((65 <=? n) && (n <=? 90))%nat then ascii_of_nat (n + 32) else c.

(** [s.lower()] on ASCII text. *)
Fixpoint lower (s : string) : string :=
  match s with
  | EmptyString => EmptyString
  | String c s' => String (lower_ascii c) (lower s')
  end.

(** A value read by [json.load]; also the dynamic type of the attributes that
    are assigned from the settings document without a check. *)
#[warnings="-register-all"]
Inductive json : Type :=
| JNull
| JBool (b : bool)
| JInt (z : Z)
| JFloat (f : Float64.float)
| JStr (s : string)
| JList (l : list json)
| JObj (items : list (string * json)).

Fixpoint assoc (key : string) (items : list (string * json)) : option json :=
  match items with
  | [] => None
  | (k, v) :: rest => if (k =? key)%string then Some v else assoc key rest
  end.

(** [d.get(key, default)]; anything but a dict has no [get]. *)
Definition dict_get (d : json) (key : string) (default : json) : result json :=
  match d with
  | JObj items => Ok (match assoc key items with Some v => v | None => default end)
  | _ => Raise AttributeError
  end.

(** Truth value of [if v:]. *)
Definition truthy (v : json) : bool :=
  match v with
  | JNull => false
  | JBool b => b
  | JInt z => negb (z =? 0)
  | JFloat f => negb (Float64.mant f =? 0)
  | JStr s => negb (s =? "")%string
  | JList l => match l with [] => false | _ => true end
  | JObj items => match items with [] => false | _ => true end
  end.

(** [any(zs)] on ints. *)
Definition any (zs : list Z) : bool := existsb (fun z => negb (z =? 0)) zs.

(** The conversion PyQt applies to an argument declared [int]: an [int]
    (or [bool]) that fits a C int, [OverflowError] if it does not fit,
    [TypeError] for anything else. *)
Definition as_c_int (v : json) : result Z :=
  match v with
  | JInt z => if (- 2 ^ 31 <=? z) && (z <? 2 ^ 31) then Ok z else Raise OverflowError
  | JBool b => Ok (if b then 1 else 0)
  | _ => Raise TypeError
  end.

(** ** Widgets *)

Record QSpinBox : Type := mkSpin { minimum : Z; maximum : Z; value : Z }.

(** What [QSpinBox.setValue] and [setRange] store: the value brought into the
    range. *)
Definition bound (sb : QSpinBox) (v : Z) : Z :=
  if v <? minimum sb then minimum sb
  else if maximum sb <? v then maximum sb else v.

(** [QSpinBox()]: range 0..99, value 0. *)
Definition new_spin : QSpinBox := mkSpin 0 99 0.

Definition setRange (mn mx : Z) (sb : QSpinBox) : QSpinBox :=
  let r := mkSpin mn (Z.max mn mx) (value sb) in
  mkSpin mn (Z.max mn mx) (bound r (value sb)).

Definition spin_set (v : Z) (sb : QSpinBox) : QSpinBox :=
  mkSpin (minimum sb) (maximum sb) (bound sb v).

(** A combo box: the text and user data of each item, and the current index
    ([-1] when there is none). *)
Record QComboBox : Type := mkCombo {
  items : list (string * option string);
  currentIndex : Z
}.

Definition new_combo : QComboBox := mkCombo [] (-1).

(** [addItems(texts)]: the first item added to an empty box becomes current. *)
Definition addItems (texts : list string) (c : QComboBox) : QComboBox :=
  let its := items c ++ map (fun t => (t, None)) texts in
  mkCombo its (match items c, texts with
               | [], _ :: _ => 0
               | _, _ => currentIndex c
               end).

Definition count (c : QComboBox) : Z := Z.of_nat (List.length (items c)).

Definition item_at (c : QComboBox) (i : Z) : option (string * option string) :=
  if i <? 0 then None else nth_error (items c) (Z.to_nat i).

Definition itemData (c : QComboBox) (i : Z) : option string :=
  match item_at c i with Some (_, d) => d | None => None end.

Definition currentText (c : QComboBox) : string :=
  match item_at c (currentIndex c) with Some (t, _) => t | None => "" end.

Fixpoint update_nth {A} (n : nat) (f : A -> A) (l : list A) : list A :=
  match l, n with
  | [], _ => []
  | x :: l', O => f x :: l'
  | x :: l', S n' => x :: update_nth n' f l'
  end.

Definition update_item (i : Z) (f : string * option string -> string * option string)
    (c : QComboBox) : QComboBox :=
  if i <? 0 then c
  else mkCombo (update_nth (Z.to_nat i) f (items c)) (currentIndex c).

Definition setItemText (i : Z) (text : string) (c : QComboBox) : QComboBox :=
  update_item i (fun it => (text, snd it)) c.

Definition setItemData (i : Z) (data : string) (c : QComboBox) : QComboBox :=
  update_item i (fun it => (fst it, Some data)) c.

Definition setCurrentIndex (i : Z) (c : QComboBox) : QComboBox :=
  mkCombo (items c) (if (0 <=? i) && (i <? count c) then i else -1).

(** ** The environment of the application

    What the Python standard library and the operating system answer.
    [Path(p).exists()] returns [False] for a missing file and raises the
    [OSError] of any other failure of [stat] (a name that is too long, a
    directory that may not be searched).  A save of the settings succeeds
    as a whole, or it fails: [open] raises and the file is untouched, or
    the write or the close raises after [open] has truncated the file. *)

(** The settings file on disk. *)
Inductive file_content : Type :=
| Unreadable
| Unparsable
| Document (j : json).

(** How a save of the settings fails. *)
Inductive failed_save : Type :=
| NotOpened                         (* open(SETTINGS_FILE, 'w') raises *)
| Torn (content : file_content).    (* json.dump or the close raises; the file holds [content] *)

Record Env : Type := mkEnv {
  sys_platform : string;                     (* sys.platform *)
  path_exists : string -> result bool;       (* Path(p).exists() *)
  path_stem : string -> string;              (* Path(p).stem *)
  path_name : string -> string;              (* Path(p).name *)
  path_join : string -> string -> string;    (* str(Path(a) / b) *)
  home : string;                             (* str(Path.home()) *)
  exn_str : exn -> string;                   (* str(e) *)
  str_strip : string -> string;              (* s.strip() *)
  settings_writable : bool;                  (* the with block of save_settings succeeds *)
  settings_failure : failed_save;            (* how it fails when it does not *)
  preview_width : Z;                         (* preview_label.size() in init_ui *)
  preview_height : Z
}.

(** ** The main window ([class CropCastApp])

    The widgets and attributes the modelled methods read or write, and the
    settings file [cropcast_settings.json] ([None] when it does not exist).
    [current_source] is [None] while no source is selected; [output_path] is
    a [str] unless the settings document said otherwise; [conversion_thread]
    is the command of the started [ConversionThread];
    [source_signals_blocked] is [source_combo.signalsBlocked()]. *)
Record App : Type := mkApp {
  crop_top_spin : QSpinBox;
  crop_bottom_spin : QSpinBox;
  crop_left_spin : QSpinBox;
  crop_right_spin : QSpinBox;
  quality_spin : QSpinBox;
  bitrate_spin : QSpinBox;
  source_combo : QComboBox;
  video_codec_combo : QComboBox;
  audio_codec_combo : QComboBox;
  current_source : option string;
  output_path : json;
  is_device_source : bool;
  original_video_width : Z;
  original_video_height : Z;
  crop_overlay : CropOverlay;
  console_output : list string;
  is_converting : bool;
  conversion_thread : option (list string);
  settings_file : option file_content;
  source_signals_blocked : bool
}.

Definition set_crop_top_spin (v : QSpinBox) (a : App) : App :=
  mkApp v (crop_bottom_spin a) (crop_left_spin a) (crop_right_spin a) (quality_spin a)
    (bitrate_spin a) (source_combo a) (video_codec_combo a) (audio_codec_combo a)
    (current_source a) (output_path a) (is_device_source a) (original_video_width a)
    (original_video_height a) (crop_overlay a) (console_output a) (is_converting a)
    (conversion_thread a) (settings_file a)
    (source_signals_blocked a).

Definition set_crop_bottom_spin (v : QSpinBox) (a : App) : App :=
  mkApp (crop_top_spin a) v (crop_left_spin a) (crop_right_spin a) (quality_spin a)
    (bitrate_spin a) (source_combo a) (video_codec_combo a) (audio_codec_combo a)
    (current_source a) (output_path a) (is_device_source a) (original_video_width a)
    (original_video_height a) (crop_overlay a) (console_output a) (is_converting a)
    (conversion_thread a) (settings_file a)
    (source_signals_blocked a).

Definition set_crop_left_spin (v : QSpinBox) (a : App) : App :=
  mkApp (crop_top_spin a) (crop_bottom_spin a) v (crop_right_spin a) (quality_spin a)
    (bitrate_spin a) (source_combo a) (video_codec_combo a) (audio_codec_combo a)
    (current_source a) (output_path a) (is_device_source a) (original_video_width a)
    (original_video_height a) (crop_overlay a) (console_output a) (is_converting a)
    (conversion_thread a) (settings_file a)
    (source_signals_blocked a).

Definition set_crop_right_spin (v : QSpinBox) (a : App) : App :=
  mkApp (crop_top_spin a) (crop_bottom_spin a) (crop_left_spin a) v (quality_spin a)
    (bitrate_spin a) (source_combo a) (video_codec_combo a) (audio_codec_combo a)
    (current_source a) (output_path a) (is_device_source a) (original_video_width a)
    (original_video_height a) (crop_overlay a) (console_output a) (is_converting a)
    (conversion_thread a) (settings_file a)
    (source_signals_blocked a).

Definition set_quality_spin (v : QSpinBox) (a : App) : App :=
  mkApp (crop_top_spin a) (crop_bottom_spin a) (crop_left_spin a) (crop_right_spin a) v
    (bitrate_spin a) (source_combo a) (video_codec_combo a) (audio_codec_combo a)
    (current_source a) (output_path a) (is_device_source a) (original_video_width a)
    (original_video_height a) (crop_overlay a) (console_output a) (is_converting a)
    (conversion_thread a) (settings_file a)
    (source_signals_blocked a).

Definition set_bitrate_spin (v : QSpinBox) (a : App) : App :=
  mkApp (crop_top_spin a) (crop_bottom_spin a) (crop_left_spin a) (crop_right_spin a)
    (quality_spin a) v (source_combo a) (video_codec_combo a) (audio_codec_combo a)
    (current_source a) (output_path a) (is_device_source a) (original_video_width a)
    (original_video_height a) (crop_overlay a) (console_output a) (is_converting a)
    (conversion_thread a) (settings_file a)
    (source_signals_blocked a).

Definition set_source_combo (v : QComboBox) (a : App) : App :=
  mkApp (crop_top_spin a) (crop_bottom_spin a) (crop_left_spin a) (crop_right_spin a)
    (quality_spin a) (bitrate_spin a) v (video_codec_combo a) (audio_codec_combo a)
    (current_source a) (output_path a) (is_device_source a) (original_video_width a)
    (original_video_height a) (crop_overlay a) (console_output a) (is_converting a)
    (conversion_thread a) (settings_file a)
    (source_signals_blocked a).

Definition set_current_source (v : option string) (a : App) : App :=
  mkApp (crop_top_spin a) (crop_bottom_spin a) (crop_left_spin a) (crop_right_spin a)
    (quality_spin a) (bitrate_spin a) (source_combo a) (video_codec_combo a)
    (audio_codec_combo a) v (output_path a) (is_device_source a)
    (original_video_width a) (original_video_height a) (crop_overlay a)
    (console_output a) (is_converting a) (conversion_thread a) (settings_file a)
    (source_signals_blocked a).

Definition set_output_path (v : json) (a : App) : App :=
  mkApp (crop_top_spin a) (crop_bottom_spin a) (crop_left_spin a) (crop_right_spin a)
    (quality_spin a) (bitrate_spin a) (source_combo a) (video_codec_combo a)
    (audio_codec_combo a) (current_source a) v (is_device_source a)
    (original_video_width a) (original_video_height a) (crop_overlay a)
    (console_output a) (is_converting a) (conversion_thread a) (settings_file a)
    (source_signals_blocked a).

Definition set_is_device_source (v : bool) (a : App) : App :=
  mkApp (crop_top_spin a) (crop_bottom_spin a) (crop_left_spin a) (crop_right_spin a)
    (quality_spin a) (bitrate_spin a) (source_combo a) (video_codec_combo a)
    (audio_codec_combo a) (current_source a) (output_path a) v (original_video_width a)
    (original_video_height a) (crop_overlay a) (console_output a) (is_converting a)
    (conversion_thread a) (settings_file a)
    (source_signals_blocked a).

Definition set_crop_overlay (v : CropOverlay) (a : App) : App :=
  mkApp (crop_top_spin a) (crop_bottom_spin a) (crop_left_spin a) (crop_right_spin a)
    (quality_spin a) (bitrate_spin a) (source_combo a) (video_codec_combo a)
    (audio_codec_combo a) (current_source a) (output_path a) (is_device_source a)
    (original_video_width a) (original_video_height a) v (console_output a)
    (is_converting a) (conversion_thread a) (settings_file a)
    (source_signals_blocked a).

Definition set_console_output (v : list string) (a : App) : App :=
  mkApp (crop_top_spin a) (crop_bottom_spin a) (crop_left_spin a) (crop_right_spin a)
    (quality_spin a) (bitrate_spin a) (source_combo a) (video_codec_combo a)
    (audio_codec_combo a) (current_source a) (output_path a) (is_device_source a)
    (original_video_width a) (original_video_height a) (crop_overlay a) v
    (is_converting a) (conversion_thread a) (settings_file a)
    (source_signals_blocked a).

Definition set_is_converting (v : bool) (a : App) : App :=
  mkApp (crop_top_spin a) (crop_bottom_spin a) (crop_left_spin a) (crop_right_spin a)
    (quality_spin a) (bitrate_spin a) (source_combo a) (video_codec_combo a)
    (audio_codec_combo a) (current_source a) (output_path a) (is_device_source a)
    (original_video_width a) (original_video_height a) (crop_overlay a)
    (console_output a) v (conversion_thread a) (settings_file a)
    (source_signals_blocked a).

Definition set_conversion_thread (v : option (list string)) (a : App) : App :=
  mkApp (crop_top_spin a) (crop_bottom_spin a) (crop_left_spin a) (crop_right_spin a)
    (quality_spin a) (bitrate_spin a) (source_combo a) (video_codec_combo a)
    (audio_codec_combo a) (current_source a) (output_path a) (is_device_source a)
    (original_video_width a) (original_video_height a) (crop_overlay a)
    (console_output a) (is_converting a) v (settings_file a)
    (source_signals_blocked a).

Definition set_settings_file (v : option file_content) (a : App) : App :=
  mkApp (crop_top_spin a) (crop_bottom_spin a) (crop_left_spin a) (crop_right_spin a)
    (quality_spin a) (bitrate_spin a) (source_combo a) (video_codec_combo a)
    (audio_codec_combo a) (current_source a) (output_path a) (is_device_source a)
    (original_video_width a) (original_video_height a) (crop_overlay a)
    (console_output a) (is_converting a) (conversion_thread a) v
    (source_signals_blocked a).

Definition set_source_signals_blocked (v : bool) (a : App) : App :=
  mkApp (crop_top_spin a) (crop_bottom_spin a) (crop_left_spin a) (crop_right_spin a)
    (quality_spin a) (bitrate_spin a) (source_combo a) (video_codec_combo a)
    (audio_codec_combo a) (current_source a) (output_path a) (is_device_source a)
    (original_video_width a) (original_video_height a) (crop_overlay a)
    (console_output a) (is_converting a) (conversion_thread a) (settings_file a) v.

Local Open Scope py_scope.

(** [log_console]: append the message to the console. *)
Definition log_console (message : string) : M App unit :=
  modify (fun a => set_console_output (console_output a ++ [message]) a).

(** [update_crop_overlay]: hand the spin box values and the original
    resolution to the overlay. *)
Definition update_crop_overlay : M App unit :=
  modify (fun a =>
    set_crop_overlay
      (setCrop (value (crop_top_spin a)) (value (crop_bottom_spin a))
               (value (crop_left_spin a)) (value (crop_right_spin a))
               (Some (original_video_width a)) (Some (original_video_height a))
               (crop_overlay a)) a).

(** [spin.setValue(v)] from Python: the argument is converted to a C int, the
    value is brought into the range, and [valueChanged] runs the connected
    slot when the value changed. *)
Definition setValue (spin : App -> QSpinBox) (set_spin : QSpinBox -> App -> App)
    (valueChanged : M App unit) (v : json) : M App unit :=
  z <- lift (as_c_int v) ;;
  a <- get ;;
  let old := value (spin a) in
  modify (fun a => set_spin (spin_set z (spin a)) a) ;;
  a' <- get ;;
  if value (spin a') =? old then ret tt else valueChanged.

Definition crop_top_spin_setValue := setValue crop_top_spin set_crop_top_spin update_crop_overlay.
Definition crop_bottom_spin_setValue :=
  setValue crop_bottom_spin set_crop_bottom_spin update_crop_overlay.
Definition crop_left_spin_setValue := setValue crop_left_spin set_crop_left_spin update_crop_overlay.
Definition crop_right_spin_setValue :=
  setValue crop_right_spin set_crop_right_spin update_crop_overlay.
Definition quality_spin_setValue := setValue quality_spin set_quality_spin (ret tt).
Definition bitrate_spin_setValue := setValue bitrate_spin set_bitrate_spin (ret tt).

(** The state after the attribute assignments of [__init__] and [init_ui],
    with the given settings file on disk. *)
Definition init_ui (env : Env) (disk : option file_content) : App :=
  mkApp (setRange 0 4000 new_spin) (setRange 0 4000 new_spin)
        (setRange 0 4000 new_spin) (setRange 0 4000 new_spin)
        (spin_set 30 (setRange 0 63 new_spin))
        (spin_set 0 (setRange 0 50000 new_spin))
        new_combo
        (addItems ["VP9"; "VP8"] new_combo)
        (addItems ["Opus"; "Vorbis"] new_combo)
        None (JStr (home env)) false 640 480
        (CropOverlay_init (preview_width env) (preview_height env)) [] false None disk
        false.

(** ** The command builder ([build_ffmpeg_command]) *)

Section Builder.
Context (env : Env).

(** [source.startswith(('video=', '/dev/'))] *)
Definition is_device (source : string) : bool :=
  startswith source "video=" || startswith source "/dev/".

Definition crop_filter (crop_top crop_bottom crop_left crop_right : Z) : string :=
  ("crop=iw-" ++ str_of_int crop_left ++ "-" ++ str_of_int crop_right
   ++ ":ih-" ++ str_of_int crop_top ++ "-" ++ str_of_int crop_bottom
   ++ ":" ++ str_of_int crop_left ++ ":" ++ str_of_int crop_top)%string.

(** The body of [build_ffmpeg_command] after the input arguments. *)
Definition build_after_input (source : string) (is_device : bool) (cmd : list string)
  : M App (option (list string)) :=
  self <- get ;;
  (* Crop filter *)
  let crop_top := value (crop_top_spin self) in
  let crop_bottom := value (crop_bottom_spin self) in
  let crop_left := value (crop_left_spin self) in
  let crop_right := value (crop_right_spin self) in
  let cmd :=
    if any [crop_top; crop_bottom; crop_left; crop_right]
    then cmd ++ ["-vf"; crop_filter crop_top crop_bottom crop_left crop_right]
    else cmd in
  (* Video codec *)
  let video_codec := lower (currentText (video_codec_combo self)) in
  let cmd :=
    if (video_codec =? "vp9")%string
    then ((cmd ++ ["-c:v"; "libvpx-vp9"]) ++ ["-row-mt"; "1"]) ++ ["-tile-columns"; "2"]
    else cmd ++ ["-c:v"; "libvpx"] in
  (* Quality/Bitrate *)
  let cmd :=
    if 0 <? value (bitrate_spin self)
    then cmd ++ ["-b:v"; (str_of_int (value (bitrate_spin self)) ++ "k")%string]
    else
      let cmd := cmd ++ ["-crf"; str_of_int (value (quality_spin self))] in
      if (video_codec =? "vp9")%string then cmd ++ ["-b:v"; "0"] else cmd in
  (* Audio codec *)
  let audio_codec := lower (currentText (audio_codec_combo self)) in
  let cmd :=
    if (audio_codec =? "opus")%string
    then cmd ++ ["-c:a"; "libopus"; "-b:a"; "128k"]
    else cmd ++ ["-c:a"; "libvorbis"; "-b:a"; "128k"] in
  (* WebM container format *)
  let cmd := cmd ++ ["-f"; "webm"] in
  (* For device capture, limit to 30 seconds *)
  cmd <- (if is_device
          then log_console "Note: Device recording limited to 30 seconds" ;;
               ret (cmd ++ ["-t"; "30"])
          else ret cmd) ;;
  (* Output file *)
  let input_name := if negb is_device then path_stem env source else "capture" in
  folder <- (match output_path self with
             | JStr folder => ret folder
             | _ => raise TypeError
             end) ;;
  let output_file := path_join env folder (input_name ++ "_cropped.webm")%string in
  (* Check if file exists and warn *)
  output_exists <- lift (path_exists env output_file) ;;
  when output_exists
    (log_console ("Warning: Output file will be overwritten: " ++ output_file)%string) ;;
  ret (Some (cmd ++ [output_file])).

Definition build_ffmpeg_command : M App (option (list string)) :=
  self <- get ;;
  let cmd := ["ffmpeg"; "-y"] in
  source <- (match current_source self with
             | Some source => ret source
             | None => raise AttributeError
             end) ;;
  let is_device := is_device source in
  (* Input *)
  if startswith (sys_platform env) "linux" && startswith source "/dev/"
  then build_after_input source is_device (cmd ++ ["-f"; "v4l2"; "-i"; source])
  else if startswith (sys_platform env) "win" && startswith source "video="
  then build_after_input source is_device (cmd ++ ["-f"; "dshow"; "-i"; source])
  else
    (* File input - check if exists *)
    source_exists <- lift (path_exists env source) ;;
    if negb source_exists
    then log_console ("Error: File not found: " ++ source)%string ;; ret None
    else build_after_input source is_device (cmd ++ ["-i"; source]).

(** [start_conversion]: the guard on the source, the builder, and the start
    of the conversion thread with the built command. *)
Definition start_conversion : M App unit :=
  self <- get ;;
  match current_source self with
  | None | Some "" => log_console "Error: No source selected"
  | Some _ =>
      cmd <- build_ffmpeg_command ;;
      match cmd with
      | None | Some [] => ret tt
      | Some cmd =>
          log_console "Starting conversion..." ;;
          log_console ("Command: " ++ String.concat " " cmd)%string ;;
          modify (set_is_converting true) ;;
          modify (set_conversion_thread (Some cmd))
      end
  end.

(** The segments of the built argument list, in order: input, crop filter,
    video codec, rate control, audio codec, container, duration cap.  There
    is no input for a file that is not found to exist. *)
Definition input_args (source : string) : option (list string) :=
  if startswith (sys_platform env) "linux" && startswith source "/dev/"
  then Some ["-f"; "v4l2"; "-i"; source]
  else if startswith (sys_platform env) "win" && startswith source "video="
  then Some ["-f"; "dshow"; "-i"; source]
  else match path_exists env source with
       | Ok true => Some ["-i"; source]
       | _ => None
       end.

Definition crop_args (self : App) : list string :=
  let crop_top := value (crop_top_spin self) in
  let crop_bottom := value (crop_bottom_spin self) in
  let crop_left := value (crop_left_spin self) in
  let crop_right := value (crop_right_spin self) in
  if any [crop_top; crop_bottom; crop_left; crop_right]
  then ["-vf"; crop_filter crop_top crop_bottom crop_left crop_right]
  else [].

Definition is_vp9 (self : App) : bool :=
  (lower (currentText (video_codec_combo self)) =? "vp9")%string.

Definition video_args (self : App) : list string :=
  if is_vp9 self
  then ["-c:v"; "libvpx-vp9"; "-row-mt"; "1"; "-tile-columns"; "2"]
  else ["-c:v"; "libvpx"].

Definition rate_args (self : App) : list string :=
  if 0 <? value (bitrate_spin self)
  then ["-b:v"; (str_of_int (value (bitrate_spin self)) ++ "k")%string]
  else ["-crf"; str_of_int (value (quality_spin self))]
       ++ (if is_vp9 self then ["-b:v"; "0"] else []).

Definition audio_args (self : App) : list string :=
  if (lower (currentText (audio_codec_combo self)) =? "opus")%string
  then ["-c:a"; "libopus"; "-b:a"; "128k"]
  else ["-c:a"; "libvorbis"; "-b:a"; "128k"].

Definition duration_args (device : bool) : list string :=
  if device then ["-t"; "30"] else [].

(** Everything between the input and the output file. *)
Definition options (self : App) (device : bool) : list string :=
  crop_args self ++ video_args self ++ rate_args self ++ audio_args self
  ++ ["-f"; "webm"] ++ duration_args device.

Definition output_file (self : App) (source : string) (folder : string) : string :=
  path_join env folder
    ((if negb (is_device source) then path_stem env source else "capture")
     ++ "_cropped.webm")%string.

End Builder.

(** The values that follow an occurrence of [flag] in an argument list. *)
Fixpoint values_of (flag : string) (args : list string) : list string :=
  match args with
  | [] => []
  | a :: rest =>
      match rest with
      | [] => []
      | b :: _ => if (a =? flag)%string then b :: values_of flag rest
                  else values_of flag rest
      end
  end.

(** Strings made of decimal digits and minus signs only. *)
Definition digit_or_minus (c : ascii) : bool :=
  let n := nat_of_ascii c in
  ((48 <=? n) && (n <=? 57) || (n =? 45))%nat.

Fixpoint numeric (s : string) : bool :=
  match s with
  | EmptyString => true
  | String c s' => digit_or_minus c && numeric s'
  end.

Fixpoint last_char (s : string) : option ascii :=
  match s with
  | EmptyString => None
  | String c EmptyString => Some c
  | String _ s' => last_char s'
  end.

(** ** The conversion runner ([ConversionThread.run]) *)

(** What happens to the encoder process: it cannot be started (or reading its
    output fails), or it prints lines and exits with a return code. *)
Inductive process : Type :=
| Fails (output : list string) (e : exn)
| Exits (output : list string) (returncode : Z).

(** The signals a thread emits. *)
Inductive signal : Type :=
| progress (line : string)
| finished (success : bool) (message : string).

Definition report (returncode : Z) : signal :=
  if returncode =? 0 then finished true "Conversion completed successfully"
  else if returncode =? -15 then finished false "Conversion stopped by user"
  else finished false ("Conversion failed with code " ++ str_of_int returncode)%string.

Definition ConversionThread_run (env : Env) (p : process) : list signal :=
  match p with
  | Exits output returncode =>
      map (fun line => progress (str_strip env line)) output ++ [report returncode]
  | Fails output e =>
      map (fun line => progress (str_strip env line)) output
      ++ [finished false ("Error: " ++ exn_str env e)%string]
  end.

(** ** The settings store ([load_settings], [save_settings]) *)

Section Settings.
Context (env : Env).

(** The index of the first item at or after [i] whose data is [data]. *)
Fixpoint find_data (data : string) (its : list (string * option string)) (i : Z)
  : option Z :=
  match its with
  | [] => None
  | (_, d) :: rest =>
      match d with
      | Some d' => if (d' =? data)%string then Some i else find_data data rest (i + 1)
      | None => find_data data rest (i + 1)
      end
  end.

(** The part of [load_settings] that restores the source.  The signals of
    the source combo box are blocked meanwhile, and stay blocked when the
    existence check raises. *)
Definition restore_source (saved_source : json) : M App unit :=
  if truthy saved_source then
    saved <- (match saved_source with
              | JStr saved => ret saved
              | _ => raise AttributeError
              end) ;;
    (* Check if it's a file or device *)
    let is_device := is_device saved in
    (* Temporarily block signals to prevent auto-loading *)
    modify (set_source_signals_blocked true) ;;
    (if is_device then
       (* Find device in combo box *)
       self <- get ;;
       match find_data saved (items (source_combo self)) 0 with
       | Some i =>
           modify (fun a => set_source_combo (setCurrentIndex i (source_combo a)) a) ;;
           modify (set_current_source (Some saved)) ;;
           modify (set_is_device_source true)
       | None => ret tt
       end
     else
       (* File source - add to combo box if exists *)
       saved_exists <- lift (path_exists env saved) ;;
       if saved_exists then
         modify (fun a => set_source_combo
                            (setItemText 0 (path_name env saved) (source_combo a)) a) ;;
         modify (fun a => set_source_combo (setItemData 0 saved (source_combo a)) a) ;;
         modify (fun a => set_source_combo (setCurrentIndex 0 (source_combo a)) a) ;;
         modify (set_current_source (Some saved)) ;;
         modify (set_is_device_source false)
       else ret tt) ;;
    modify (set_source_signals_blocked false)
  else ret tt.

Definition load_settings_body : M App unit :=
  self <- get ;;
  match settings_file self with
  | None => ret tt
  | Some content =>
      settings <- (match content with
                   | Unreadable => raise OSError
                   | Unparsable => raise JSONDecodeError
                   | Document settings => ret settings
                   end) ;;
      v <- lift (dict_get settings "crop_top" (JInt 0)) ;;
      crop_top_spin_setValue v ;;
      v <- lift (dict_get settings "crop_bottom" (JInt 0)) ;;
      crop_bottom_spin_setValue v ;;
      v <- lift (dict_get settings "crop_left" (JInt 0)) ;;
      crop_left_spin_setValue v ;;
      v <- lift (dict_get settings "crop_right" (JInt 0)) ;;
      crop_right_spin_setValue v ;;
      v <- lift (dict_get settings "output_path" (JStr (home env))) ;;
      modify (set_output_path v) ;;
      v <- lift (dict_get settings "quality" (JInt 30)) ;;
      quality_spin_setValue v ;;
      v <- lift (dict_get settings "bitrate" (JInt 0)) ;;
      bitrate_spin_setValue v ;;
      (* Restore source if available *)
      saved_source <- lift (dict_get settings "source" JNull) ;;
      restore_source saved_source ;;
      log_console "Settings loaded"
  end.

Definition load_settings : M App unit :=
  try_except load_settings_body
    (fun e => log_console ("Error loading settings: " ++ exn_str env e)%string).

(** The dict written by [save_settings]. *)
Definition settings_dict (self : App) : json :=
  JObj [("crop_top", JInt (value (crop_top_spin self)));
        ("crop_bottom", JInt (value (crop_bottom_spin self)));
        ("crop_left", JInt (value (crop_left_spin self)));
        ("crop_right", JInt (value (crop_right_spin self)));
        ("output_path", output_path self);
        ("source", match current_source self with Some s => JStr s | None => JNull end);
        ("quality", JInt (value (quality_spin self)));
        ("bitrate", JInt (value (bitrate_spin self)))].

Definition save_settings_body : M App unit :=
  self <- get ;;
  let settings := settings_dict self in
  (if settings_writable env
   then modify (set_settings_file (Some (Document settings)))
   else
     match settings_failure env with
     | NotOpened => raise OSError
     | Torn content => modify (set_settings_file (Some content)) ;; raise OSError
     end) ;;
  log_console "Settings saved".

Definition save_settings : M App unit :=
  try_except save_settings_body
    (fun e => log_console ("Error saving settings: " ++ exn_str env e)%string).

End Settings.

Local Close Scope py_scope.

(** The ranges configured in [init_ui], and a value inside them. *)
Definition spin_ok (mn mx : Z) (sb : QSpinBox) : Prop :=
  minimum sb = mn /\ maximum sb = mx /\ mn <= value sb <= mx.

Definition widget_bounds (a : App) : Prop :=
  spin_ok 0 4000 (crop_top_spin a) /\ spin_ok 0 4000 (crop_bottom_spin a) /\
  spin_ok 0 4000 (crop_left_spin a) /\ spin_ok 0 4000 (crop_right_spin a) /\
  spin_ok 0 63 (quality_spin a) /\ spin_ok 0 50000 (bitrate_spin a).

(** [m] keeps the property [P] of the state, whether it returns or raises. *)
Definition preserves {S A} (P : S -> Prop) (m : M S A) : Prop :=
  forall s, P s -> P (snd (m s)).

(** The value of a key of the settings document, or its default. *)
Definition field (items : list (string * json)) (key : string) (default : json) : json :=
  match assoc key items with Some v => v | None => default end.

(** The key is missing from the settings document, or no document can be
    read. *)
Definition absent (key : string) (disk : option file_content) : Prop :=
  match disk with
  | Some (Document (JObj doc)) => assoc key doc = None
  | _ => True
  end.

(** The source that [load_settings] would restore into the state [a]. *)
Definition restorable (env : Env) (a : App) (saved : string) : bool :=
  negb (saved =? "")%string
  && (if is_device saved
      then match find_data saved (items (source_combo a)) 0 with
           | Some _ => true
           | None => false
           end
      else match path_exists env saved with
           | Ok found => found
           | Raise _ => false
           end).

(** The value of a scale factor as a rational. *)
Definition num_value (s : pynum) : Q :=
  match s with PyInt z => inject_Z z | PyFloat f => Float64.F2Q f end.

(** A float in the normal range of binary64: 53 significant bits and an
    exponent that the format can hold. *)
Definition binary64_normal (f : Float64.float) : Prop :=
  2 ^ 52 <= Z.abs (Float64.mant f) <= 2 ^ 53 /\ - 1074 <= Float64.expo f <= 970.

(** The overlay after a crop spin box went from [old] to the value in [s1]. *)
Definition overlay_after (old new : Z) (s1 : App) : CropOverlay :=
  if new =? old then crop_overlay s1
  else setCrop (value (crop_top_spin s1)) (value (crop_bottom_spin s1))
               (value (crop_left_spin s1)) (value (crop_right_spin s1))
               (Some (original_video_width s1)) (Some (original_video_height s1))
               (crop_overlay s1).

(** The window after the values of a well-typed document are loaded and
    before the source is restored. *)
Definition values_loaded (env : Env) (items : list (string * json))
    (t b l r q br : Z) (a : App) : App :=
  let s1 := set_crop_top_spin (spin_set t (crop_top_spin a)) a in
  let s1 := set_crop_overlay
              (overlay_after (value (crop_top_spin a)) (value (crop_top_spin s1)) s1) s1 in
  let s2 := set_crop_bottom_spin (spin_set b (crop_bottom_spin s1)) s1 in
  let s2 := set_crop_overlay
              (overlay_after (value (crop_bottom_spin s1)) (value (crop_bottom_spin s2)) s2) s2 in
  let s3 := set_crop_left_spin (spin_set l (crop_left_spin s2)) s2 in
  let s3 := set_crop_overlay
              (overlay_after (value (crop_left_spin s2)) (value (crop_left_spin s3)) s3) s3 in
  let s4 := set_crop_right_spin (spin_set r (crop_right_spin s3)) s3 in
  let s4 := set_crop_overlay
              (overlay_after (value (crop_right_spin s3)) (value (crop_right_spin s4)) s4) s4 in
  let s5 := set_output_path (field items "output_path" (JStr (home env))) s4 in
  let s6 := set_quality_spin (spin_set q (quality_spin s5)) s5 in
  set_bitrate_spin (spin_set br (bitrate_spin s6)) s6.


(** ** A concrete session

    A Linux machine with one video file, and the window after the user chose
    that file and a crop of 10 pixels from the top and 20 from the left. *)
Definition example_env : Env :=
  mkEnv "linux" (fun p => Ok (p =? "/videos/in.mp4")%string)
        (fun _ => "in") (fun _ => "in.mp4")
        (fun a b => (a ++ "/" ++ b)%string) "/home/user"
        (fun _ => "error") (fun s => s) true NotOpened 800 450.

Definition example_app : App :=
  let a := init_ui example_env None in
  set_current_source (Some "/videos/in.mp4")
    (set_crop_left_spin (spin_set 20 (crop_left_spin a))
       (set_crop_top_spin (spin_set 10 (crop_top_spin a)) a)).

Definition example_cmd : list string :=
  ["ffmpeg"; "-y"; "-i"; "/videos/in.mp4";
   "-vf"; "crop=iw-20-0:ih-10-0:20:10";
   "-c:v"; "libvpx-vp9"; "-row-mt"; "1"; "-tile-columns"; "2";
   "-crf"; "30"; "-b:v"; "0";
   "-c:a"; "libopus"; "-b:a"; "128k"; "-f"; "webm";
   "/home/user/in_cropped.webm"].

(** ** The time label ([update_time_label]) *)

(** [f"{z:02d}"]: the decimal digits with their sign, padded with zeros to
    two characters. *)
Definition format_02d (z : Z) : string :=
  if (0 <=? z) && (z <? 10) then ("0" ++ str_of_int z)%string else str_of_int z.

(** The nested [format_time(ms)]; [//] and [%] round toward minus
    infinity, as [Z.div] and [Z.modulo] do. *)
Definition format_time (ms : Z) : string :=
  let s := ms / 1000 in
  let m := s / 60 in
  let s := s mod 60 in
  (format_02d m ++ ":" ++ format_02d s)%string.

(** The text that [update_time_label] puts on the time label. *)
Definition update_time_label (position duration : Z) : string :=
  (format_time position ++ " / " ++ format_time duration)%string.

(** The characters of a formatted time: digits, the minus sign, the colon. *)
Definition time_char (c : ascii) : bool :=
  digit_or_minus c || (nat_of_ascii c =? 58)%nat.

Fixpoint time_text (s : string) : bool :=
  match s with
  | EmptyString => true
  | String c s' => time_char c && time_text s'
  end.

(** ** The end of a conversion ([conversion_finished], [reset_conversion_ui]) *)

Local Open Scope py_scope.

(** [reset_conversion_ui]; the caption and the style of the convert button
    are never read back and are left out. *)
Definition reset_conversion_ui : M App unit := modify (set_is_converting false).

Definition conversion_finished (success : bool) (message : string) : M App unit :=
  log_console message ;;
  reset_conversion_ui.

(** The slots that [start_conversion] connects to the two signals of the
    conversion thread. *)
Definition deliver (s : signal) : M App unit :=
  match s with
  | progress line => log_console line
  | finished success message => conversion_finished success message
  end.

Fixpoint deliver_all (ss : list signal) : M App unit :=
  match ss with
  | [] => ret tt
  | s :: rest => deliver s ;; deliver_all rest
  end.

(** ** The device preview thread ([class DevicePreviewThread]) *)

(** An image or a pixmap, by its size; a null one has no pixel. *)
Record QImage : Type := mkImage { image_width : Z; image_height : Z }.

Definition isNull (i : QImage) : bool := (image_width i <=? 0) || (image_height i <=? 0).

Inductive preview_signal : Type :=
| frameReady (image : QImage)
| error (message : string).

(** The command that [run] starts. *)
Definition preview_cmd (device_path : string) (is_windows : bool) : list string :=
  (["ffmpeg"]
   ++ (if is_windows then ["-f"; "dshow"; "-i"; device_path]
       else ["-f"; "v4l2"; "-i"; device_path]))
  ++ ["-f"; "rawvideo"; "-pix_fmt"; "rgb24"; "-s"; "640x480"; "-r"; "15"; "pipe:1"].

Definition frame_size : Z := 640 * 480 * 3.

(** What the capture process does: it cannot be started, or the successive
    calls of [read(frame_size)] return byte strings of these lengths until
    the thread is stopped. *)
Inductive capture : Type :=
| CannotStart (e : exn)
| Reads (lengths : list Z).

(** The loop of [run]: a read of another length ends it. *)
Fixpoint capture_loop (lengths : list Z) : list preview_signal :=
  match lengths with
  | [] => []
  | n :: rest =>
      if negb (n =? frame_size) then []
      else frameReady (mkImage 640 480) :: capture_loop rest
  end.

Definition DevicePreviewThread_run (env : Env) (c : capture) : list preview_signal :=
  match c with
  | CannotStart e => [error ("Preview error: " ++ exn_str env e)%string]
  | Reads lengths => capture_loop lengths
  end.

(** ** The window with its preview and its source list

    [App] extended with the attributes that the preview and the source
    selection read back: the preview thread, the pixmap and the size of the
    preview label, and what [isRunning()] answers for the two threads (the
    threads end on their own, so these two answers belong to the
    environment).  The media player is outside the state: calls of its
    methods are left out. *)

Record QVideoFrame : Type := mkFrame { isValid : bool; toImage : QImage }.

Record DevicePreviewThread : Type := mkPreviewThread {
  device_path : string;
  is_windows : bool
}.

Record Window : Type := mkWindow {
  base : App;
  preview_thread : option DevicePreviewThread;
  preview_isRunning : bool;
  conversion_isRunning : bool;
  preview_pixmap : QImage;
  preview_label_size : Z * Z
}.

Definition set_base (v : App) (w : Window) : Window :=
  mkWindow v (preview_thread w) (preview_isRunning w) (conversion_isRunning w)
    (preview_pixmap w) (preview_label_size w).

Definition set_preview_thread (v : option DevicePreviewThread) (w : Window) : Window :=
  mkWindow (base w) v (preview_isRunning w) (conversion_isRunning w)
    (preview_pixmap w) (preview_label_size w).

Definition set_isRunning (preview conversion : bool) (w : Window) : Window :=
  mkWindow (base w) (preview_thread w) preview conversion
    (preview_pixmap w) (preview_label_size w).

Definition set_preview_pixmap (v : QImage) (w : Window) : Window :=
  mkWindow (base w) (preview_thread w) (preview_isRunning w) (conversion_isRunning w)
    v (preview_label_size w).

Definition set_preview_label_size (v : Z * Z) (w : Window) : Window :=
  mkWindow (base w) (preview_thread w) (preview_isRunning w) (conversion_isRunning w)
    (preview_pixmap w) v.

Definition set_video_codec_combo (v : QComboBox) (a : App) : App :=
  mkApp (crop_top_spin a) (crop_bottom_spin a) (crop_left_spin a) (crop_right_spin a)
    (quality_spin a) (bitrate_spin a) (source_combo a) v (audio_codec_combo a)
    (current_source a) (output_path a) (is_device_source a) (original_video_width a)
    (original_video_height a) (crop_overlay a) (console_output a) (is_converting a)
    (conversion_thread a) (settings_file a)
    (source_signals_blocked a).

Definition set_audio_codec_combo (v : QComboBox) (a : App) : App :=
  mkApp (crop_top_spin a) (crop_bottom_spin a) (crop_left_spin a) (crop_right_spin a)
    (quality_spin a) (bitrate_spin a) (source_combo a) (video_codec_combo a) v
    (current_source a) (output_path a) (is_device_source a) (original_video_width a)
    (original_video_height a) (crop_overlay a) (console_output a) (is_converting a)
    (conversion_thread a) (settings_file a)
    (source_signals_blocked a).

Definition set_original_video_width (v : Z) (a : App) : App :=
  mkApp (crop_top_spin a) (crop_bottom_spin a) (crop_left_spin a) (crop_right_spin a)
    (quality_spin a) (bitrate_spin a) (source_combo a) (video_codec_combo a)
    (audio_codec_combo a) (current_source a) (output_path a) (is_device_source a) v
    (original_video_height a) (crop_overlay a) (console_output a) (is_converting a)
    (conversion_thread a) (settings_file a)
    (source_signals_blocked a).

Definition set_original_video_height (v : Z) (a : App) : App :=
  mkApp (crop_top_spin a) (crop_bottom_spin a) (crop_left_spin a) (crop_right_spin a)
    (quality_spin a) (bitrate_spin a) (source_combo a) (video_codec_combo a)
    (audio_codec_combo a) (current_source a) (output_path a) (is_device_source a)
    (original_video_width a) v (crop_overlay a) (console_output a) (is_converting a)
    (conversion_thread a) (settings_file a)
    (source_signals_blocked a).

(** A method of the window that only touches the attributes of [App]. *)
Definition in_app {A} (m : M App A) : M Window A :=
  fun w => let '(r, a) := m (base w) in (r, set_base a w).

(** [widget.setGeometry(rect)], as far as the widget's own size goes. *)
Definition setGeometry (w h : Z) (self : CropOverlay) : CropOverlay :=
  mkOverlay (crop_top self) (crop_bottom self) (crop_left self) (crop_right self)
    (original_width self) (original_height self) w h.

(** [combo.addItem(text, data)]: the first item of an empty box becomes
    current. *)
Definition addItem (text : string) (data : option string) (c : QComboBox) : QComboBox :=
  mkCombo (items c ++ [(text, data)])
          (match items c with [] => 0 | _ :: _ => currentIndex c end).

(** A spin box edited by the user: the value is brought into the range and
    [valueChanged] runs the connected slot when the value changed. *)
Definition editValue (spin : App -> QSpinBox) (set_spin : QSpinBox -> App -> App)
    (valueChanged : M App unit) (z : Z) : M App unit :=
  a <- get ;;
  let old := value (spin a) in
  modify (fun a => set_spin (spin_set z (spin a)) a) ;;
  a' <- get ;;
  if value (spin a') =? old then ret tt else valueChanged.

(** [subprocess] and [re] in the device detection, and [QImage.scaled]. *)
Record Probe : Type := mkProbe {
  (* the names of sorted(Path('/dev').glob('video*')) *)
  dev_video : result (list string);
  (* the stdout of v4l2-ctl --device p --info *)
  v4l2_ctl_info : string -> result string;
  (* re.search(r'Card type\s*:\s*(.+)', out).group(1).strip() *)
  card_type : string -> option string;
  (* the stderr of ffmpeg -list_devices true -f dshow -i dummy *)
  ffmpeg_list_devices : result string;
  (* image.scaled(size, KeepAspectRatio, FastTransformation) *)
  image_scaled : QImage -> Z * Z -> QImage
}.

(** [s.split('\n')] *)
Fixpoint split_lines (s : string) : list string :=
  match s with
  | EmptyString => [EmptyString]
  | String c s' =>
      if (nat_of_ascii c =? 10)%nat then EmptyString :: split_lines s'
      else match split_lines s' with
           | l :: rest => String c l :: rest
           | [] => [String c EmptyString]
           end
  end.

(** [sub in s] *)
Fixpoint contains (sub s : string) : bool :=
  String.prefix sub s
  || match s with
     | EmptyString => false
     | String _ s' => contains sub s'
     end.

Definition is_quote (c : ascii) : bool := (nat_of_ascii c =? 34)%nat.

(** The characters before the next double quote, if there is one. *)
Fixpoint until_quote (s : string) : option string :=
  match s with
  | EmptyString => None
  | String c s' =>
      if is_quote c then Some EmptyString
      else match until_quote s' with
           | Some t => Some (String c t)
           | None => None
           end
  end.

(** Group 1 of the leftmost match of a double quote, one or more characters
    that are no double quote, and a double quote. *)
Fixpoint search_quoted (s : string) : option string :=
  match s with
  | EmptyString => None
  | String c s' =>
      if is_quote c then
        match until_quote s' with
        | Some (String d t) => Some (String d t)
        | _ => search_quoted s'
        end
      else search_quoted s'
  end.

Section Window.
Context (env : Env) (probe : Probe).

Definition update_overlay_geometry : M Window unit :=
  self <- get ;;
  let pixmap := preview_pixmap self in
  if isNull pixmap then ret tt
  else
    (* video_rect has the size of the pixmap; moveCenter keeps it *)
    in_app (modify (fun a =>
      set_crop_overlay
        (setGeometry (image_width pixmap) (image_height pixmap) (crop_overlay a)) a)).

Definition resizeEvent : M Window unit := update_overlay_geometry.

(** The end of [on_video_frame] and of [update_preview_frame]. *)
Definition show_image (image : QImage) : M Window unit :=
  self <- get ;;
  let scaled_image := image_scaled probe image (preview_label_size self) in
  modify (set_preview_pixmap scaled_image) ;;
  update_overlay_geometry.

(** The resolution detection of the two frame handlers. *)
Definition detect_resolution (label : string) (image : QImage) : M App unit :=
  self <- get ;;
  if negb (image_width image =? original_video_width self)
     || negb (image_height image =? original_video_height self)
  then
    modify (set_original_video_width (image_width image)) ;;
    modify (set_original_video_height (image_height image)) ;;
    self <- get ;;
    log_console (label ++ " resolution: " ++ str_of_int (original_video_width self)
                 ++ "x" ++ str_of_int (original_video_height self))%string ;;
    update_crop_overlay
  else ret tt.

Definition on_video_frame (frame : QVideoFrame) : M Window unit :=
  if isValid frame then
    let image := toImage frame in
    if isNull image then ret tt
    else
      self <- get ;;
      when (negb (is_device_source (base self)))
        (in_app (detect_resolution "Video" image)) ;;
      show_image image
  else ret tt.

Definition update_preview_frame (image : QImage) : M Window unit :=
  self <- get ;;
  when (is_device_source (base self))
    (in_app (detect_resolution "Device" image)) ;;
  show_image image.

Definition stop_device_preview : M Window unit :=
  self <- get ;;
  match preview_thread self with
  | Some _ =>
      if preview_isRunning self then
        modify (set_preview_thread None) ;;
        in_app (log_console "Device preview stopped")
      else ret tt
  | None => ret tt
  end.

Definition start_device_preview (device_path : string) : M Window unit :=
  let is_windows := startswith device_path "video=" in
  modify (set_preview_thread (Some (mkPreviewThread device_path is_windows))) ;;
  in_app (log_console "Starting device preview...").

Definition load_video (file_path : string) : M Window unit :=
  in_app (log_console ("Loading video: " ++ file_path)%string).

Definition on_source_changed (index : Z) : M Window unit :=
  stop_device_preview ;;
  self <- get ;;
  match itemData (source_combo (base self)) index with
  | Some source =>
      if negb (source =? "")%string then
        in_app (modify (set_current_source (Some source))) ;;
        (* Check if it's a device or file *)
        let is_device := startswith source "video=" || startswith source "/dev/" in
        in_app (modify (set_is_device_source is_device)) ;;
        if is_device then
          self <- get ;;
          in_app (log_console
                    ("Selected device: " ++ currentText (source_combo (base self)))%string) ;;
          start_device_preview source
        else
          (* File source *)
          source_exists <- lift (path_exists env source) ;;
          if source_exists then load_video source else ret tt
      else ret tt
  | None => ret tt
  end.

(** [currentIndexChanged] of the source combo box, connected to
    [on_source_changed] in [init_ui]: nothing is emitted while the signals
    of the box are blocked. *)
Definition currentIndexChanged (index : Z) : M Window unit :=
  self <- get ;;
  if source_signals_blocked (base self) then ret tt else on_source_changed index.

(** The operations on the source combo box, which emit the signal when the
    current index changes. *)
Definition source_combo_setCurrentIndex (i : Z) : M Window unit :=
  self <- get ;;
  let old := currentIndex (source_combo (base self)) in
  in_app (modify (fun a => set_source_combo (setCurrentIndex i (source_combo a)) a)) ;;
  self <- get ;;
  let index := currentIndex (source_combo (base self)) in
  if index =? old then ret tt else currentIndexChanged index.

Definition source_combo_clear : M Window unit :=
  self <- get ;;
  let old := currentIndex (source_combo (base self)) in
  in_app (modify (set_source_combo new_combo)) ;;
  if old =? -1 then ret tt else currentIndexChanged (-1).

Definition source_combo_addItem (text : string) (data : option string) : M Window unit :=
  self <- get ;;
  let old := currentIndex (source_combo (base self)) in
  in_app (modify (fun a => set_source_combo (addItem text data (source_combo a)) a)) ;;
  self <- get ;;
  let index := currentIndex (source_combo (base self)) in
  if index =? old then ret tt else currentIndexChanged index.

Fixpoint detect_linux_loop (video_devices : list string) : M Window unit :=
  match video_devices with
  | [] => ret tt
  | device_name :: rest =>
      let device_path := ("/dev/" ++ device_name)%string in
      let name :=
        match v4l2_ctl_info probe device_path with
        | Ok stdout =>
            match card_type probe stdout with
            | Some name => name
            | None => device_name
            end
        | Raise _ => device_name
        end in
      source_combo_addItem (name ++ " (" ++ device_name ++ ")")%string (Some device_path) ;;
      in_app (log_console ("Found device: " ++ name)%string) ;;
      detect_linux_loop rest
  end.

Definition detect_linux_devices : M Window unit :=
  try_except
    (video_devices <- lift (dev_video probe) ;;
     detect_linux_loop video_devices)
    (fun e => in_app (log_console
                        ("Error detecting Linux devices: " ++ exn_str env e)%string)).

Fixpoint detect_windows_loop (lines : list string) : M Window unit :=
  match lines with
  | [] => ret tt
  | line :: rest =>
      (if contains "DirectShow video devices" line then ret tt
       else
         match search_quoted line with
         | Some device_name =>
             if contains "video" (lower line) then
               source_combo_addItem device_name (Some ("video=" ++ device_name)%string) ;;
               in_app (log_console ("Found device: " ++ device_name)%string)
             else ret tt
         | None => ret tt
         end) ;;
      detect_windows_loop rest
  end.

Definition detect_windows_devices : M Window unit :=
  try_except
    (stderr <- lift (ffmpeg_list_devices probe) ;;
     detect_windows_loop (split_lines stderr))
    (fun e => in_app (log_console
                        ("Error detecting Windows devices: " ++ exn_str env e)%string)).

Definition detect_sources : M Window unit :=
  source_combo_clear ;;
  in_app (log_console "Detecting video sources...") ;;
  (* Add file option *)
  source_combo_addItem "Select a file..." None ;;
  if startswith (sys_platform env) "linux" then detect_linux_devices
  else if startswith (sys_platform env) "win" then detect_windows_devices
  else ret tt.

(** [browse_file], for the path that the file dialog returns. *)
Definition browse_file (file_path : string) : M Window unit :=
  if negb (file_path =? "")%string then
    in_app (modify (set_current_source (Some file_path))) ;;
    in_app (modify (fun a =>
      set_source_combo (setItemText 0 (path_name env file_path) (source_combo a)) a)) ;;
    in_app (modify (fun a =>
      set_source_combo (setItemData 0 file_path (source_combo a)) a)) ;;
    source_combo_setCurrentIndex 0 ;;
    load_video file_path
  else ret tt.

(** [select_output_path], for the folder that the dialog returns; the
    dialog takes the current output folder, which must be a [str]. *)
Definition select_output_path (folder : string) : M Window unit :=
  self <- get ;;
  match output_path (base self) with
  | JStr _ =>
      if negb (folder =? "")%string then
        in_app (modify (set_output_path (JStr folder))) ;;
        in_app (log_console ("Output folder: " ++ folder)%string)
      else ret tt
  | _ => raise TypeError
  end.

Definition toggle_playback : M Window unit :=
  self <- get ;;
  if is_device_source (base self) then
    (* For devices, stop/start preview *)
    match preview_thread self with
    | Some _ =>
        if preview_isRunning self then stop_device_preview
        else
          match current_source (base self) with
          | Some source => start_device_preview source
          | None => raise AttributeError
          end
    | None =>
        match current_source (base self) with
        | Some source => start_device_preview source
        | None => raise AttributeError
        end
    end
  else ret tt.

Definition stop_conversion : M Window unit :=
  self <- get ;;
  match conversion_thread (base self) with
  | Some _ =>
      if conversion_isRunning self then
        in_app (log_console "Stopping conversion...") ;;
        in_app (log_console "Conversion stopped by user") ;;
        in_app reset_conversion_ui
      else ret tt
  | None => ret tt
  end.

Definition toggle_conversion : M Window unit :=
  self <- get ;;
  if is_converting (base self) then stop_conversion
  else in_app (start_conversion env).

Definition closeEvent : M Window unit :=
  in_app (save_settings env) ;;
  stop_device_preview.

(** The window when [__init__] reaches [load_settings], and the rest of
    [__init__]. *)
Definition new_window (disk : option file_content) : Window :=
  mkWindow (init_ui env disk) None false false (mkImage 0 0)
    (preview_width env, preview_height env).

Definition CropCastApp_init : M Window unit :=
  in_app (load_settings env) ;;
  detect_sources.

(** What happens to the window once it is shown: the user acts on a widget,
    a thread or the media player delivers a signal, or the environment
    changes what the window can observe. *)
Inductive event : Type :=
| CropTopEdited (z : Z)
| CropBottomEdited (z : Z)
| CropLeftEdited (z : Z)
| CropRightEdited (z : Z)
| QualityEdited (z : Z)
| BitrateEdited (z : Z)
| VideoCodecActivated (i : Z)
| AudioCodecActivated (i : Z)
| SourceActivated (i : Z)
| BrowseClicked (file_path : string)
| OutputClicked (folder : string)
| ConvertClicked
| PlayClicked
| VideoFrameChanged (frame : QVideoFrame)
| FrameReady (image : QImage)
| PreviewError (message : string)
| ConversionSignal (s : signal)
| WindowResized
| LabelResized (size : Z * Z)
| ThreadsRun (preview conversion : bool)
| CloseRequested.

Definition handle (e : event) : M Window unit :=
  match e with
  | CropTopEdited z =>
      in_app (editValue crop_top_spin set_crop_top_spin update_crop_overlay z)
  | CropBottomEdited z =>
      in_app (editValue crop_bottom_spin set_crop_bottom_spin update_crop_overlay z)
  | CropLeftEdited z =>
      in_app (editValue crop_left_spin set_crop_left_spin update_crop_overlay z)
  | CropRightEdited z =>
      in_app (editValue crop_right_spin set_crop_right_spin update_crop_overlay z)
  | QualityEdited z => in_app (editValue quality_spin set_quality_spin (ret tt) z)
  | BitrateEdited z => in_app (editValue bitrate_spin set_bitrate_spin (ret tt) z)
  | VideoCodecActivated i =>
      in_app (modify (fun a =>
        set_video_codec_combo (setCurrentIndex i (video_codec_combo a)) a))
  | AudioCodecActivated i =>
      in_app (modify (fun a =>
        set_audio_codec_combo (setCurrentIndex i (audio_codec_combo a)) a))
  | SourceActivated i => source_combo_setCurrentIndex i
  | BrowseClicked file_path => browse_file file_path
  | OutputClicked folder => select_output_path folder
  | ConvertClicked => toggle_conversion
  | PlayClicked => toggle_playback
  | VideoFrameChanged frame => on_video_frame frame
  | FrameReady image => update_preview_frame image
  | PreviewError message => in_app (log_console message)
  | ConversionSignal s => in_app (deliver s)
  | WindowResized => resizeEvent
  | LabelResized size => modify (set_preview_label_size size)
  | ThreadsRun preview conversion => modify (set_isRunning preview conversion)
  | CloseRequested => closeEvent
  end.

(** The window after [__init__], for the settings file found on disk, and
    after a sequence of events.  An event whose handler raises leaves the
    window as it was when the exception was raised. *)
Definition started (disk : option file_content) : Window :=
  snd (CropCastApp_init (new_window disk)).

Definition replay (events : list event) (w : Window) : Window :=
  fold_left (fun w e => snd (handle e w)) events w.

End Window.

Local Close Scope py_scope.

(** The slots that [start_device_preview] connects to the two signals of
    the preview thread. *)
Definition preview_event (s : preview_signal) : event :=
  match s with
  | frameReady image => FrameReady image
  | error message => PreviewError message
  end.

(** The line that a frame handler logs for a new resolution, and whether
    the image has the detected resolution. *)
Definition resolution_line (label : string) (image : QImage) : string :=
  (label ++ " resolution: " ++ str_of_int (image_width image)
   ++ "x" ++ str_of_int (image_height image))%string.

Definition same_resolution (image : QImage) (a : App) : bool :=
  (image_width image =? original_video_width a)
  && (image_height image =? original_video_height a).

(** The source is captured as a device of the running platform. *)
Definition captured (env : Env) (source : string) : bool :=
  startswith (sys_platform env) "linux" && startswith source "/dev/"
  || startswith (sys_platform env) "win" && startswith source "video=".

(** The overlay shows the crop distances of the spin boxes, at the detected
    resolution as soon as one distance is not zero. *)
Definition overlay_synced (a : App) : Prop :=
  crop_top (crop_overlay a) = value (crop_top_spin a) /\
  crop_bottom (crop_overlay a) = value (crop_bottom_spin a) /\
  crop_left (crop_overlay a) = value (crop_left_spin a) /\
  crop_right (crop_overlay a) = value (crop_right_spin a) /\
  ((original_width (crop_overlay a) = original_video_width a /\
    original_height (crop_overlay a) = original_video_height a)
   \/ (value (crop_top_spin a) = 0 /\ value (crop_bottom_spin a) = 0 /\
       value (crop_left_spin a) = 0 /\ value (crop_right_spin a) = 0)).

(** The overlay that the spin boxes and the detected resolution prescribe. *)
Definition expected_overlay (a : App) : CropOverlay :=
  mkOverlay (value (crop_top_spin a)) (value (crop_bottom_spin a))
            (value (crop_left_spin a)) (value (crop_right_spin a))
            (original_video_width a) (original_video_height a)
            (width (crop_overlay a)) (height (crop_overlay a)).

(** An item of the source combo box that stands for a capture device of the
    running platform. *)
Definition device_item (env : Env) (it : string * option string) : Prop :=
  exists d, snd it = Some d /\ captured env d = true.

(** The settings file cannot give the output folder a value that is no
    string. *)
Definition string_output (env : Env) (disk : option file_content) : Prop :=
  match disk with
  | Some (Document (JObj doc)) =>
      exists folder, field doc "output_path" (JStr (home env)) = JStr folder
  | _ => True
  end.

(** The overlay has the size of the pixmap on the preview label once a
    frame is shown; its size is the one it got in [init_ui] or that of a
    pixmap with pixels. *)
Definition geometry_ok (env : Env) (pixmap : QImage) (a : App) : Prop :=
  (isNull pixmap = false ->
   width (crop_overlay a) = image_width pixmap /\
   height (crop_overlay a) = image_height pixmap) /\
  ((width (crop_overlay a) = preview_width env /\
    height (crop_overlay a) = preview_height env)
   \/ (0 < width (crop_overlay a) /\ 0 < height (crop_overlay a))).

(** What the attributes of the window keep from [init_ui] on. *)
Definition app_ok (a : App) : Prop :=
  widget_bounds a /\ overlay_synced a /\
  (is_converting a = true -> conversion_thread a <> None) /\
  (is_device_source a = true -> current_source a <> None) /\
  current_source a <> Some "".

(** The source combo box holds the file entry followed by capture devices
    of the running platform. *)
Definition source_list_ok (env : Env) (c : QComboBox) : Prop :=
  exists first rest, items c = first :: rest /\ Forall (device_item env) rest.

(** The attributes of a window whose preview label shows [pixmap] and whose
    source combo box and output folder satisfy [R]. *)
Definition attributes_ok (env : Env) (R : QComboBox -> json -> Prop) (pixmap : QImage)
    (a : App) : Prop :=
  app_ok a /\ geometry_ok env pixmap a /\ R (source_combo a) (output_path a).

Definition window_attributes_ok (env : Env) (R : QComboBox -> json -> Prop) (w : Window)
  : Prop :=
  attributes_ok env R (preview_pixmap w) (base w).

Definition window_ok (env : Env) (w : Window) : Prop :=
  window_attributes_ok env (fun c _ => source_list_ok env c) w.

(** The source list right after [detect_sources]: the file entry, current,
    followed by the detected devices. *)
Definition source_list_detected (env : Env) (c : QComboBox) : Prop :=
  exists rest,
    c = mkCombo (("Select a file...", None) :: rest) 0 /\
    Forall (device_item env) rest.

(** The text holds a double quote. *)
Fixpoint has_quote (s : string) : bool :=
  match s with
  | EmptyString => false
  | String c s' => is_quote c || has_quote s'
  end.

(** An entry of the source list as [detect_windows_devices] adds them. *)
Definition dshow_entry (it : string * option string) : Prop :=
  exists name, it = (name, Some ("video=" ++ name)%string) /\
               name <> "" /\ has_quote name = false.

(** The output folder is a string. *)
Definition string_path (w : Window) : Prop :=
  exists folder, output_path (base w) = JStr folder.

(** No existence check raises: no path is too long and every directory may
    be searched. *)
Definition paths_answer (env : Env) : Prop :=
  forall p, exists found, path_exists env p = Ok found.

(** The events whose handler asks whether a path exists: a change of the
    current source ([on_source_changed]), the file dialog ([browse_file]
    selects the first entry) and the convert button
    ([build_ffmpeg_command]). *)
Definition checks_path (e : event) : bool :=
  match e with
  | SourceActivated _ | BrowseClicked _ | ConvertClicked => true
  | _ => false
  end.

(** A method that never raises. *)
Definition never_raises {S A} (m : M S A) : Prop :=
  forall s, exists x, fst (m s) = Ok x.

(** The lines that [build_ffmpeg_command] writes to the console. *)
Definition builder_log (env : Env) (a : App) : list string :=
  match current_source a with
  | None => []
  | Some source =>
      match input_args env source with
      | None =>
          match path_exists env source with
          | Ok _ => [("Error: File not found: " ++ source)%string]
          | Raise _ => []
          end
      | Some _ =>
          (if is_device source
           then ["Note: Device recording limited to 30 seconds"] else [])
          ++ match output_path a with
             | JStr folder =>
                 match path_exists env (output_file env a source folder) with
                 | Ok true => [("Warning: Output file will be overwritten: "
                                ++ output_file env a source folder)%string]
                 | _ => []
                 end
             | _ => []
             end
      end
  end.

(** The text that a signal of the conversion thread carries. *)
Definition signal_text (s : signal) : string :=
  match s with
  | progress line => line
  | finished _ message => message
  end.

(** * Facts about the float model *)

Module Float64Facts.
Import Float64.
Local Open Scope Q_scope.

Lemma pow2_pos e : 0 < pow2 e.
Proof. unfold pow2. apply Qpower_0_lt. reflexivity. Qed.

Lemma pow2_add a b : pow2 (a + b) == pow2 a * pow2 b.
Proof. unfold pow2. apply Qpower_plus. discriminate. Qed.

Lemma pow2_succ e : pow2 (e + 1) == 2 * pow2 e.
Proof. rewrite pow2_add. unfold pow2 at 2. simpl. ring. Qed.

Lemma pow2_pred e : 2 * pow2 (e - 1) == pow2 e.
Proof. rewrite <- pow2_succ. replace (e - 1 + 1)%Z with e by ring. reflexivity. Qed.

Lemma pow2_opp e : pow2 (- e) * pow2 e == 1.
Proof. rewrite <- pow2_add. replace (- e + e)%Z with 0%Z by ring. reflexivity. Qed.

Lemma pow2_inject e : (0 <= e)%Z -> inject_Z (2 ^ e) == pow2 e.
Proof. intros He. unfold pow2. now rewrite Zpower_Qpower. Qed.

Lemma pow2_le a b : (a <= b)%Z -> pow2 a <= pow2 b.
Proof. intros H. unfold pow2. apply Qpower_le_compat_l; [exact H | discriminate]. Qed.

Lemma pow2_lt_inv a b : pow2 a < pow2 b -> (a < b)%Z.
Proof. intros H. unfold pow2 in H. apply Qpower_lt_compat_l_inv in H; [exact H | reflexivity]. Qed.

Lemma scaled_spec n d e :
  (0 < d)%Z ->
  (0 < snd (scaled n d e))%Z /\
  inject_Z (fst (scaled n d e)) * inject_Z d * pow2 e
    == inject_Z n * inject_Z (snd (scaled n d e)).
Proof.
  intros Hd. unfold scaled. destruct (Z.leb_spec 0 e) as [He|He]; cbn [fst snd].
  - split; [ pose proof (Z.pow_pos_nonneg 2 e); nia | ].
    rewrite inject_Z_mult, (pow2_inject e He). ring.
  - split; [ exact Hd | ].
    rewrite inject_Z_mult, (pow2_inject (- e)) by lia.
    transitivity (inject_Z n * inject_Z d * (pow2 (- e) * pow2 e)); [ ring | ].
    rewrite pow2_opp. ring.
Qed.

Lemma log2_bounds n :
  (0 < n)%Z -> pow2 (Z.log2 n) <= inject_Z n /\ inject_Z n < 2 * pow2 (Z.log2 n).
Proof.
  intros Hn. destruct (Z.log2_spec n Hn) as [Hlo Hhi].
  pose proof (Z.log2_nonneg n) as Hl.
  split.
  - rewrite <- pow2_inject by exact Hl. now rewrite <- Zle_Qle.
  - rewrite <- pow2_succ, <- pow2_inject by lia. now rewrite <- Zlt_Qlt.
Qed.

Lemma Qmult_pos_pos a b : 0 < a -> 0 < b -> 0 < a * b.
Proof. intros Ha Hb. nra. Qed.

(** The chosen exponent brackets the scaled value in [[2^52, 2^53)]. *)
Lemma exponent_spec n d :
  (0 < n)%Z -> (0 < d)%Z ->
  pow2 52 * pow2 (exponent n d) * inject_Z d <= inject_Z n /\
  inject_Z n < pow2 53 * pow2 (exponent n d) * inject_Z d.
Proof.
  intros Hn Hd. unfold exponent, prec.
  remember (Z.log2 n - Z.log2 d - (53 - 1))%Z as e1 eqn:He1.
  destruct (log2_bounds n Hn) as [Hn1 Hn2].
  destruct (log2_bounds d Hd) as [Hd1 Hd2].
  assert (Hsplit : pow2 (Z.log2 n) == pow2 e1 * pow2 (Z.log2 d) * pow2 52).
  { rewrite <- !pow2_add. rewrite He1.
    replace (Z.log2 n - Z.log2 d - (53 - 1) + Z.log2 d + 52)%Z with (Z.log2 n) by ring.
    reflexivity. }
  assert (H53 : pow2 53 == 2 * pow2 52) by (rewrite <- (pow2_succ 52); reflexivity).
  destruct (scaled_spec n d e1 Hd) as [Hden Hsc].
  destruct (scaled n d e1) as [num1 den1]; cbn [fst snd] in *.
  pose proof (pow2_pos e1) as HA. pose proof (pow2_pos 52) as Hc.
  pose proof (pow2_pos (Z.log2 d)) as HB.
  assert (HD : 0 < inject_Z d) by (now rewrite (Zlt_Qlt 0 d) in Hd).
  assert (HD1 : 0 < inject_Z den1) by (now rewrite (Zlt_Qlt 0 den1) in Hden).
  assert (HAD : 0 < pow2 e1 * inject_Z d) by (now apply Qmult_pos_pos).
  destruct (Z.leb_spec (2 ^ (53 - 1) * den1) num1) as [Ht|Ht].
  - (* e = e1 *)
    assert (Ht' : pow2 52 * inject_Z den1 <= inject_Z num1).
    { rewrite <- (pow2_inject 52) by lia. rewrite <- inject_Z_mult.
      now rewrite <- Zle_Qle. }
    split.
    + apply Qmult_le_r with (z := inject_Z den1); [ exact HD1 | ].
      assert (0 <= (inject_Z num1 - pow2 52 * inject_Z den1) * (pow2 e1 * inject_Z d))
        by (apply Qmult_le_0_compat; lra).
      lra.
    + rewrite H53.
      assert (0 <= (inject_Z d - pow2 (Z.log2 d)) * (pow2 52 * pow2 e1))
        by (apply Qmult_le_0_compat; [ lra | apply Qlt_le_weak, Qmult_pos_pos; assumption ]).
      lra.
  - (* e = e1 - 1 *)
    assert (Ht' : inject_Z num1 < pow2 52 * inject_Z den1).
    { rewrite <- (pow2_inject 52) by lia. rewrite <- inject_Z_mult.
      now rewrite <- Zlt_Qlt. }
    pose proof (pow2_pred e1) as Hp. pose proof (pow2_pos (e1 - 1)) as HA'.
    split.
    + assert (0 <= (2 * pow2 (Z.log2 d) - inject_Z d) * (pow2 52 * pow2 (e1 - 1)))
        by (apply Qmult_le_0_compat; [ lra | apply Qlt_le_weak, Qmult_pos_pos; assumption ]).
      assert (pow2 52 * pow2 (e1 - 1) * (2 * pow2 (Z.log2 d)) == pow2 (Z.log2 n))
        by (rewrite Hsplit, <- Hp; ring).
      lra.
    + rewrite H53.
      apply Qmult_lt_r with (z := inject_Z den1); [ exact HD1 | ].
      assert (0 < (pow2 52 * inject_Z den1 - inject_Z num1) * (pow2 e1 * inject_Z d))
        by (apply Qmult_pos_pos; lra).
      rewrite <- Hp in *. lra.
Qed.

Lemma rne_spec num den :
  (0 < den)%Z ->
  (- den <= 2 * (num + - (rne num den * den)) <= den)%Z /\
  ((2 * (num + - (rne num den * den)) = den \/
    2 * (num + - (rne num den * den)) = - den)%Z -> Z.even (rne num den) = true).
Proof.
  intros Hden. unfold rne.
  pose proof (Z.div_mod num den ltac:(lia)) as Hdm.
  pose proof (Z.mod_pos_bound num den Hden) as Hr.
  destruct (Z.compare_spec (2 * (num mod den)) den) as [Heq|Hlt|Hgt].
  - destruct (Z.even (num / den)) eqn:Hev.
    + split; [ nia | intros _; exact Hev ].
    + split; [ nia | intros _ ].
      replace (num / den + 1)%Z with (Z.succ (num / den)) by lia.
      rewrite Z.even_succ, <- Z.negb_even, Hev. reflexivity.
  - split; [ nia | intros [H|H]; exfalso; nia ].
  - split; [ nia | intros [H|H]; exfalso; nia ].
Qed.

Lemma inject_Z_pos z : (0 < z)%Z -> 0 < inject_Z z.
Proof. intros H. now rewrite (Zlt_Qlt 0 z) in H. Qed.

Lemma round_pos_rounds n d :
  (0 < n)%Z -> (0 < d)%Z -> rounds_to (inject_Z n / inject_Z d) (round_pos n d).
Proof.
  intros Hn Hd. unfold round_pos.
  destruct (exponent_spec n d Hn Hd) as [Hlo Hhi].
  destruct (scaled_spec n d (exponent n d) Hd) as [Hden Hsc].
  destruct (scaled n d (exponent n d)) as [num den]; cbn [fst snd] in *.
  destruct (rne_spec num den Hden) as [[Hr1 Hr2] Htie].
  unfold rounds_to; cbn [mant expo].
  set (e := exponent n d) in *. set (m := rne num den) in *.
  pose proof (inject_Z_pos d Hd) as HD. pose proof (inject_Z_pos den Hden) as HD1.
  pose proof (pow2_pos e) as HE.
  assert (HP : 0 < pow2 e * inject_Z d) by (now apply Qmult_pos_pos).
  remember (inject_Z n / inject_Z d * pow2 (- e)) as y eqn:Hy.
  assert (Hyn : y * (pow2 e * inject_Z d) == inject_Z n).
  { rewrite Hy.
    transitivity (inject_Z n * (pow2 (- e) * pow2 e) * (inject_Z d / inject_Z d));
      [ field; lra | ].
    rewrite pow2_opp. field. lra. }
  assert (Hynum : y * inject_Z den == inject_Z num).
  { apply Qmult_inj_r with (z := pow2 e * inject_Z d); [ lra | ].
    transitivity (inject_Z num * inject_Z d * pow2 e); [ | ring ].
    rewrite Hsc, <- Hyn. ring. }
  rewrite Zle_Qle in Hr1, Hr2.
  repeat rewrite ?inject_Z_mult, ?inject_Z_plus, ?inject_Z_opp in Hr1.
  repeat rewrite ?inject_Z_mult, ?inject_Z_plus, ?inject_Z_opp in Hr2.
  change (inject_Z 2) with 2 in *.
  assert (Hdiff : (y - inject_Z m) * inject_Z den
                  == inject_Z num + - (inject_Z m * inject_Z den))
    by (rewrite <- Hynum; ring).
  split; [ | split; [ | split; [ | split ] ] ].
  - apply Qmult_le_r with (z := pow2 e * inject_Z d); [ exact HP | ].
    rewrite Hyn. lra.
  - apply Qmult_lt_r with (z := pow2 e * inject_Z d); [ exact HP | ].
    rewrite Hyn. lra.
  - apply Qmult_le_r with (z := inject_Z den); [ exact HD1 | ].
    rewrite Hdiff. lra.
  - apply Qmult_le_r with (z := inject_Z den); [ exact HD1 | ].
    rewrite Hdiff. lra.
  - intros Ht. apply Htie.
    assert (Ht' : 2 * (inject_Z num + - (inject_Z m * inject_Z den)) == inject_Z den \/
                  2 * (inject_Z num + - (inject_Z m * inject_Z den)) == - inject_Z den).
    { rewrite <- Hdiff. destruct Ht as [Ht|Ht]; [ left | right ]; rewrite Ht; ring. }
    change 2 with (inject_Z 2) in Ht'.
    destruct Ht' as [Ht'|Ht']; [ left | right ]; apply inject_Z_injective;
      repeat rewrite ?inject_Z_mult, ?inject_Z_plus, ?inject_Z_opp; exact Ht'.
Qed.

Lemma pow2_52 : pow2 52 == 4503599627370496.
Proof. reflexivity. Qed.

Lemma pow2_53 : pow2 53 == 9007199254740992.
Proof. reflexivity. Qed.

Lemma pow2_cancel x e : x * pow2 (- e) * pow2 e == x.
Proof. rewrite <- Qmult_assoc, pow2_opp. ring. Qed.

(** A correctly rounded mantissa has 53 bits. *)
Lemma rounds_mant x f :
  rounds_to x f -> (4503599627370496 <= mant f <= 9007199254740992)%Z.
Proof.
  unfold rounds_to. rewrite pow2_52, pow2_53.
  intros (Hlo & Hhi & Hd1 & Hd2 & _).
  split.
  - assert (H : inject_Z 4503599627370495 < inject_Z (mant f))
      by (change (inject_Z 4503599627370495) with 4503599627370495%Q; lra).
    rewrite <- Zlt_Qlt in H. lia.
  - assert (H : inject_Z (mant f) < inject_Z 9007199254740993)
      by (change (inject_Z 9007199254740993) with 9007199254740993%Q; lra).
    rewrite <- Zlt_Qlt in H. lia.
Qed.

Lemma rounds_pos x f : rounds_to x f -> 0 < x /\ 0 < F2Q f.
Proof.
  intros H. pose proof (rounds_mant x f H) as [Hm _].
  destruct H as (Hlo & _). rewrite pow2_52 in Hlo.
  pose proof (pow2_pos (expo f)) as He.
  split.
  - rewrite <- (pow2_cancel x (expo f)). apply Qmult_pos_pos; [ lra | exact He ].
  - unfold F2Q. apply Qmult_pos_pos; [ | exact He ].
    apply inject_Z_pos. lia.
Qed.

(** Relative error of rounding: at most one half unit in the last place. *)
Lemma rounds_upper x f :
  rounds_to x f -> F2Q f <= x * (1 + (1 # 9007199254740992)).
Proof.
  intros H. destruct H as (Hlo & Hhi & Hd1 & Hd2 & _).
  rewrite pow2_52 in Hlo. pose proof (pow2_pos (expo f)) as He.
  rewrite <- (pow2_cancel x (expo f)) at 1. unfold F2Q.
  set (y := x * pow2 (- expo f)) in *.
  assert (Hm : inject_Z (mant f) <= y * (1 + (1 # 9007199254740992))) by lra.
  apply (Qmult_le_compat_r _ _ (pow2 (expo f))) in Hm; [ | lra ].
  lra.
Qed.

Lemma rounds_lower x f :
  rounds_to x f -> x * (1 - (1 # 9007199254740992)) <= F2Q f.
Proof.
  intros H. destruct H as (Hlo & Hhi & Hd1 & Hd2 & _).
  rewrite pow2_52 in Hlo. pose proof (pow2_pos (expo f)) as He.
  rewrite <- (pow2_cancel x (expo f)) at 1. unfold F2Q.
  set (y := x * pow2 (- expo f)) in *.
  assert (Hm : y * (1 - (1 # 9007199254740992)) <= inject_Z (mant f)) by lra.
  apply (Qmult_le_compat_r _ _ (pow2 (expo f))) in Hm; [ | lra ].
  lra.
Qed.

(** Rounding is monotone. *)
Lemma rounds_mono x f x' f' :
  rounds_to x f -> rounds_to x' f' -> x <= x' -> F2Q f <= F2Q f'.
Proof.
  intros H H' Hxx.
  pose proof (rounds_mant _ _ H) as [Hm1 Hm2].
  pose proof (rounds_mant _ _ H') as [Hm1' Hm2'].
  destruct H as (Hlo & Hhi & Hd1 & Hd2 & Htie).
  destruct H' as (Hlo' & Hhi' & Hd1' & Hd2' & Htie').
  rewrite pow2_52 in Hlo, Hlo'. rewrite pow2_53 in Hhi, Hhi'.
  pose proof (pow2_pos (expo f)) as He. pose proof (pow2_pos (expo f')) as He'.
  pose proof (pow2_cancel x (expo f)) as Hx.
  pose proof (pow2_cancel x' (expo f')) as Hx'.
  set (y := x * pow2 (- expo f)) in *. set (y' := x' * pow2 (- expo f')) in *.
  unfold F2Q.
  rewrite Zle_Qle in Hm1, Hm2, Hm1', Hm2'.
  change (inject_Z 4503599627370496) with 4503599627370496%Q in *.
  change (inject_Z 9007199254740992) with 9007199254740992%Q in *.
  destruct (Z.lt_trichotomy (expo f) (expo f')) as [Hlt|[Heq|Hgt]].
  - (* the smaller exponent gives the smaller value *)
    assert (Hp : 2 * pow2 (expo f) <= pow2 (expo f')).
    { rewrite <- pow2_succ. apply pow2_le. lia. }
    apply Qle_trans with (9007199254740992 * pow2 (expo f)).
    + apply Qmult_le_compat_r; lra.
    + apply Qle_trans with (4503599627370496 * pow2 (expo f')); [ lra | ].
      apply Qmult_le_compat_r; lra.
  - (* same exponent: nearest-even is monotone on the scaled values *)
    rewrite <- Heq in *.
    assert (Hyy : y <= y').
    { apply Qmult_le_r with (z := pow2 (expo f)); [ exact He | ]. lra. }
    apply Qmult_le_compat_r; [ | lra ].
    rewrite <- Zle_Qle.
    destruct (Z_le_gt_dec (mant f) (mant f')) as [Hle|Hgt]; [ exact Hle | exfalso ].
    assert (Hs : (mant f' + 1 <= mant f)%Z) by lia.
    rewrite Zle_Qle, inject_Z_plus in Hs. change (inject_Z 1) with 1 in Hs.
    assert (Ht : y - inject_Z (mant f) == - (1 # 2)) by lra.
    assert (Ht' : y' - inject_Z (mant f') == 1 # 2) by lra.
    assert (Hmm : mant f = (mant f' + 1)%Z).
    { apply inject_Z_injective. rewrite inject_Z_plus. change (inject_Z 1) with 1. lra. }
    specialize (Htie (or_intror Ht)). specialize (Htie' (or_introl Ht')).
    rewrite Hmm in Htie.
    replace (mant f' + 1)%Z with (Z.succ (mant f')) in Htie by lia.
    rewrite Z.even_succ, <- Z.negb_even, Htie' in Htie. discriminate.
  - (* a larger exponent would contradict [x <= x'] *)
    exfalso.
    assert (Hp : 2 * pow2 (expo f') <= pow2 (expo f)).
    { rewrite <- pow2_succ. apply pow2_le. lia. }
    assert (H1 : 4503599627370496 * pow2 (expo f) <= y * pow2 (expo f))
      by (apply Qmult_le_compat_r; lra).
    assert (H2 : y' * pow2 (expo f') < 9007199254740992 * pow2 (expo f'))
      by (apply Qmult_lt_compat_r; lra).
    lra.
Qed.

Lemma F2Q_zero : F2Q zero == 0.
Proof. reflexivity. Qed.

Lemma F2Q_fneg f : F2Q (fneg f) == - F2Q f.
Proof. unfold F2Q, fneg; cbn [mant expo]. rewrite inject_Z_opp. ring. Qed.

Lemma Qratio_pos n d : (0 < d)%Z -> (0 < n)%Z -> 0 < Qratio n d.
Proof.
  intros Hd Hn. unfold Qratio. apply Qlt_shift_div_l.
  - now apply inject_Z_pos.
  - rewrite Qmult_0_l. now apply inject_Z_pos.
Qed.

Lemma Qratio_opp n d : Qratio (- n) d == - Qratio n d.
Proof.
  unfold Qratio, Qdiv. rewrite inject_Z_opp. ring.
Qed.

Lemma Qratio_0 d : Qratio 0 d == 0.
Proof. unfold Qratio, Qdiv. change (inject_Z 0) with 0. ring. Qed.

Lemma Qratio_neg n d : (0 < d)%Z -> (n < 0)%Z -> Qratio n d < 0.
Proof.
  intros Hd Hn. pose proof (Qratio_pos (- n) d Hd ltac:(lia)) as H.
  rewrite Qratio_opp in H. lra.
Qed.

(** What [round] returns, by the sign of the numerator. *)
Lemma round_cases n d :
  (0 < d)%Z ->
  (n = 0%Z /\ round n d = zero) \/
  ((0 < n)%Z /\ rounds_to (Qratio n d) (round n d)) \/
  ((n < 0)%Z /\ exists g, round n d = fneg g /\ rounds_to (- Qratio n d) g).
Proof.
  intros Hd. destruct n as [|p|p]; cbn [round].
  - left. split; reflexivity.
  - right; left. split; [ lia | ]. apply round_pos_rounds; [ lia | exact Hd ].
  - right; right. split; [ lia | ].
    exists (round_pos (- Z.neg p) d). split; [ reflexivity | ].
    pose proof (round_pos_rounds (- Z.neg p) d ltac:(lia) Hd) as H.
    unfold rounds_to in *. fold (Qratio (- Z.neg p) d) in H.
    rewrite Qratio_opp in H. exact H.
Qed.

Lemma round_mono n1 d1 n2 d2 :
  (0 < d1)%Z -> (0 < d2)%Z -> Qratio n1 d1 <= Qratio n2 d2 ->
  F2Q (round n1 d1) <= F2Q (round n2 d2).
Proof.
  intros Hd1 Hd2 Hle.
  destruct (round_cases n1 d1 Hd1) as [[Hn1 R1]|[[Hn1 R1]|[Hn1 [g1 [E1 R1]]]]];
  destruct (round_cases n2 d2 Hd2) as [[Hn2 R2]|[[Hn2 R2]|[Hn2 [g2 [E2 R2]]]]];
  try rewrite R1; try rewrite R2; try rewrite E1; try rewrite E2;
  rewrite ?F2Q_fneg, ?F2Q_zero;
  try (pose proof (rounds_pos _ _ R1) as [P1 Q1]);
  try (pose proof (rounds_pos _ _ R2) as [P2 Q2]);
  try subst n1; try subst n2; rewrite ?Qratio_0 in *;
  try lra.
  - exact (rounds_mono _ _ _ _ R1 R2 Hle).
  - assert (H : F2Q g2 <= F2Q g1) by (apply (rounds_mono _ _ _ _ R2 R1); lra).
    lra.
Qed.

Lemma round_nonneg n d : (0 < d)%Z -> (0 <= n)%Z -> 0 <= F2Q (round n d).
Proof.
  intros Hd Hn.
  destruct (round_cases n d Hd) as [[Hn1 R1]|[[Hn1 R1]|[Hn1 _]]]; [ | | lia ].
  - rewrite R1, F2Q_zero. lra.
  - pose proof (rounds_pos _ _ R1) as [_ P]. lra.
Qed.

Lemma round_upper n d :
  (0 < d)%Z -> (0 <= n)%Z ->
  F2Q (round n d) <= Qratio n d * (1 + (1 # 9007199254740992)).
Proof.
  intros Hd Hn.
  destruct (round_cases n d Hd) as [[Hn1 R1]|[[Hn1 R1]|[Hn1 _]]]; [ | | lia ].
  - subst n. rewrite R1, F2Q_zero, Qratio_0. lra.
  - exact (rounds_upper _ _ R1).
Qed.

Lemma mant_sign_nonneg f : (0 <= mant f)%Z <-> 0 <= F2Q f.
Proof.
  unfold F2Q. pose proof (pow2_pos (expo f)) as He. split; intros H.
  - apply Qmult_le_0_compat; [ | lra ]. now rewrite Zle_Qle in H.
  - destruct (Z_le_gt_dec 0 (mant f)) as [Hle|Hgt]; [ exact Hle | exfalso ].
    assert (Hn : 0 < inject_Z (- mant f)) by (apply inject_Z_pos; lia).
    rewrite inject_Z_opp in Hn.
    assert (0 < (- inject_Z (mant f)) * pow2 (expo f)) by (now apply Qmult_pos_pos).
    lra.
Qed.

(** [ratio_of f] is the value of [f] as a fraction with a positive
    denominator. *)
Lemma ratio_of_spec f :
  (0 < snd (ratio_of f))%Z /\ Qratio (fst (ratio_of f)) (snd (ratio_of f)) == F2Q f.
Proof.
  unfold ratio_of, Qratio, F2Q. destruct (Z.leb_spec 0 (expo f)) as [He|He]; cbn [fst snd].
  - split; [ lia | ]. rewrite inject_Z_mult, pow2_inject by exact He.
    change (inject_Z 1) with 1. field.
  - pose proof (Z.pow_pos_nonneg 2 (- expo f) ltac:(lia) ltac:(lia)) as Hp.
    split; [ exact Hp | ].
    rewrite pow2_inject by lia.
    pose proof (pow2_opp (expo f)) as Ho. pose proof (pow2_pos (- expo f)).
    transitivity (inject_Z (mant f) * (pow2 (- expo f) * pow2 (expo f)) / pow2 (- expo f)).
    + rewrite Ho. field. lra.
    + field. lra.
Qed.

Lemma Qratio_1 z : Qratio z 1 == inject_Z z.
Proof. unfold Qratio. change (inject_Z 1) with 1. field. Qed.

Lemma of_int_mono z1 z2 : (z1 <= z2)%Z -> F2Q (of_int z1) <= F2Q (of_int z2).
Proof.
  intros H. unfold of_int. apply round_mono; try lia.
  rewrite !Qratio_1. now rewrite <- Zle_Qle.
Qed.

Lemma of_int_nonneg z : (0 <= z)%Z -> 0 <= F2Q (of_int z).
Proof. intros H. unfold of_int. apply round_nonneg; lia. Qed.

Lemma of_int_upper z :
  (0 <= z)%Z -> F2Q (of_int z) <= inject_Z z * (1 + (1 # 9007199254740992)).
Proof.
  intros H. unfold of_int. rewrite <- Qratio_1. apply round_upper; lia.
Qed.

Lemma mul_ratio x y :
  let r := ratio_of (mkFloat (mant x * mant y) (expo x + expo y)) in
  (0 < snd r)%Z /\ Qratio (fst r) (snd r) == F2Q x * F2Q y /\ mul x y = round (fst r) (snd r).
Proof.
  intros r. destruct (ratio_of_spec (mkFloat (mant x * mant y) (expo x + expo y))) as [Hd Hv].
  fold r in Hd, Hv. split; [ exact Hd | split ].
  - rewrite Hv. unfold F2Q; cbn [mant expo]. rewrite inject_Z_mult, pow2_add. ring.
  - unfold mul. fold r. destruct r; reflexivity.
Qed.

Lemma mul_mono a b c d :
  F2Q a * F2Q b <= F2Q c * F2Q d -> F2Q (mul a b) <= F2Q (mul c d).
Proof.
  intros H.
  destruct (mul_ratio a b) as (Hd1 & Hv1 & E1).
  destruct (mul_ratio c d) as (Hd2 & Hv2 & E2).
  rewrite E1, E2. apply round_mono; [ exact Hd1 | exact Hd2 | ].
  rewrite Hv1, Hv2. exact H.
Qed.

Lemma Qratio_nonneg_num n d : (0 < d)%Z -> 0 <= Qratio n d -> (0 <= n)%Z.
Proof.
  intros Hd H. destruct (Z_le_gt_dec 0 n) as [Hle|Hgt]; [ exact Hle | exfalso ].
  pose proof (Qratio_neg n d Hd ltac:(lia)). lra.
Qed.

Lemma mul_nonneg x y : 0 <= F2Q x -> 0 <= F2Q y -> 0 <= F2Q (mul x y).
Proof.
  intros Hx Hy. destruct (mul_ratio x y) as (Hd & Hv & E). rewrite E.
  apply round_nonneg; [ exact Hd | ].
  apply (Qratio_nonneg_num _ _ Hd). rewrite Hv. now apply Qmult_le_0_compat.
Qed.

Lemma mul_upper x y :
  0 <= F2Q x -> 0 <= F2Q y ->
  F2Q (mul x y) <= F2Q x * F2Q y * (1 + (1 # 9007199254740992)).
Proof.
  intros Hx Hy. destruct (mul_ratio x y) as (Hd & Hv & E). rewrite E, <- Hv.
  apply round_upper; [ exact Hd | ].
  apply (Qratio_nonneg_num _ _ Hd). rewrite Hv. now apply Qmult_le_0_compat.
Qed.

(** Truncation toward zero is monotone in the value of the fraction. *)
Lemma quot_mono n1 d1 n2 d2 :
  (0 < d1)%Z -> (0 < d2)%Z -> Qratio n1 d1 <= Qratio n2 d2 ->
  (n1 ÷ d1 <= n2 ÷ d2)%Z.
Proof.
  intros Hd1 Hd2 Hle.
  assert (Hfloor : forall a b c d, (0 < b)%Z -> (0 < d)%Z ->
            Qratio a b <= Qratio c d -> (a / b <= c / d)%Z).
  { intros a b c d _ _ H. rewrite (Zdiv_Qdiv a b), (Zdiv_Qdiv c d).
    apply Qfloor_resp_le. exact H. }
  destruct (Z_le_gt_dec 0 n1) as [Hn1|Hn1].
  - assert (Hn2 : (0 <= n2)%Z).
    { apply (Qratio_nonneg_num _ _ Hd2).
      destruct (Z.eq_dec n1 0) as [->|Hnz].
      - rewrite Qratio_0 in Hle. exact Hle.
      - pose proof (Qratio_pos n1 d1 Hd1 ltac:(lia)). lra. }
    rewrite !Z.quot_div_nonneg by lia. now apply Hfloor.
  - destruct (Z_le_gt_dec 0 n2) as [Hn2|Hn2].
    + pose proof (Z.quot_pos n2 d2 Hn2 Hd2).
      pose proof (Z.quot_pos (- n1) d1 ltac:(lia) Hd1) as H1.
      rewrite Z.quot_opp_l in H1 by lia. lia.
    + pose proof (Hfloor (- n2)%Z d2 (- n1)%Z d1 Hd2 Hd1) as H.
      rewrite !Qratio_opp in H. specialize (H ltac:(lra)).
      rewrite <- !Z.quot_div_nonneg in H by lia.
      rewrite !Z.quot_opp_l in H by lia. lia.
Qed.

Lemma trunc_mono f g : F2Q f <= F2Q g -> (trunc f <= trunc g)%Z.
Proof.
  intros H. unfold trunc.
  destruct (ratio_of_spec f) as [Hd1 Hv1]. destruct (ratio_of_spec g) as [Hd2 Hv2].
  destruct (ratio_of f) as [n1 d1], (ratio_of g) as [n2 d2]; cbn [fst snd] in *.
  apply quot_mono; [ exact Hd1 | exact Hd2 | ]. rewrite Hv1, Hv2. exact H.
Qed.

(** On a non-negative float, truncation is the floor of the value. *)
Lemma trunc_floor f :
  0 <= F2Q f -> (0 <= trunc f)%Z /\ inject_Z (trunc f) <= F2Q f.
Proof.
  intros H. unfold trunc.
  destruct (ratio_of_spec f) as [Hd Hv].
  destruct (ratio_of f) as [n d]; cbn [fst snd] in *.
  assert (Hn : (0 <= n)%Z) by (apply (Qratio_nonneg_num _ _ Hd); rewrite Hv; exact H).
  split; [ now apply Z.quot_pos | ].
  rewrite Z.quot_div_nonneg by lia. rewrite (Zdiv_Qdiv n d).
  fold (Qratio n d). rewrite <- Hv. apply Qfloor_le.
Qed.

End Float64Facts.

(** * The crop overlay *)

Module OverlayFacts.
Import Float64 Float64Facts.

Lemma truediv_pos_den a b : 0 < b -> truediv a b = round a b.
Proof. intros H. unfold truediv. destruct (Z.ltb_spec 0 b); [ reflexivity | lia ]. Qed.

Lemma truediv_nonneg a b : 0 < b -> 0 <= a -> (0 <= F2Q (truediv a b))%Q.
Proof. intros Hb Ha. rewrite truediv_pos_den by exact Hb. now apply round_nonneg. Qed.

(** The scale factor never raises: the division is guarded. *)
Lemma scale_factor_ok preview original :
  scale_factor preview original
  = Ok (if 0 <? original then PyFloat (truediv preview original) else PyInt 1).
Proof.
  unfold scale_factor, py_truediv.
  destruct (Z.ltb_spec 0 original) as [H|H]; [ | reflexivity ].
  destruct (Z.eqb_spec original 0); [ lia | reflexivity ].
Qed.

Lemma offset_mono s d1 d2 :
  (0 <= num_value s)%Q -> d1 <= d2 -> offset d1 s <= offset d2 s.
Proof.
  intros Hs Hd. unfold offset. destruct s as [z|f]; cbn [py_mul py_int num_value] in *.
  - change 0%Q with (inject_Z 0) in Hs. rewrite <- Zle_Qle in Hs. nia.
  - apply trunc_mono, mul_mono.
    apply Qmult_le_compat_r; [ now apply of_int_mono | exact Hs ].
Qed.

Lemma scale_nonneg preview original :
  0 <= preview ->
  (0 <= num_value (if 0 <? original then PyFloat (truediv preview original) else PyInt 1))%Q.
Proof.
  intros Hp. destruct (Z.ltb_spec 0 original) as [H|H]; cbn [num_value].
  - now apply truediv_nonneg.
  - discriminate.
Qed.

(** Two opposite crop distances that leave part of the original frame map to
    offsets that leave part of the preview: the rounding errors of the three
    float operations are far below one original pixel. *)
Lemma offsets_fit t b p o :
  0 <= t -> 0 <= b -> t + b < o -> o < 2 ^ 31 -> 0 <= p ->
  let s := PyFloat (truediv p o) in
  0 <= offset t s /\ 0 <= offset b s /\ offset t s + offset b s <= p.
Proof.
  intros Ht Hb Hsum Ho Hp s. subst s. unfold offset; cbn [py_mul py_int].
  assert (Hopos : 0 < o) by lia.
  set (c1 := (1 + (1 # 9007199254740992))%Q).
  assert (Hc1 : (0 <= c1)%Q) by (unfold c1; lra).
  set (S := F2Q (truediv p o)).
  set (X := Qratio p o).
  assert (HS0 : (0 <= S)%Q) by (now apply truediv_nonneg).
  assert (HS : (S <= X * c1)%Q).
  { unfold S. rewrite truediv_pos_den by exact Hopos. now apply round_upper. }
  assert (HX0 : (0 <= X)%Q).
  { destruct (Z.eq_dec p 0) as [->|Hnz]; unfold X.
    - rewrite Qratio_0. lra.
    - apply Qlt_le_weak, Qratio_pos; lia. }
  assert (HXo : (X * inject_Z o == inject_Z p)%Q).
  { unfold X, Qratio. field. pose proof (inject_Z_pos o Hopos). lra. }
  assert (Hone : forall d, 0 <= d ->
            0 <= trunc (mul (of_int d) (truediv p o)) /\
            (inject_Z (trunc (mul (of_int d) (truediv p o))) <= inject_Z d * (X * (c1 * c1 * c1)))%Q).
  { intros d Hd.
    pose proof (of_int_nonneg d Hd) as HF0. pose proof (of_int_upper d Hd) as HF.
    fold c1 in HF.
    pose proof (mul_nonneg (of_int d) (truediv p o) HF0 HS0) as HT0.
    pose proof (mul_upper (of_int d) (truediv p o) HF0 HS0) as HT. fold c1 S in HT.
    destruct (trunc_floor _ HT0) as [Hz Hfl].
    split; [ exact Hz | ].
    assert (Hprod : (F2Q (of_int d) * S <= (inject_Z d * c1) * (X * c1))%Q)
      by (apply Qmult_le_compat_nonneg; split; assumption).
    assert (Hprod' : (F2Q (of_int d) * S * c1 <= (inject_Z d * c1) * (X * c1) * c1)%Q)
      by (apply Qmult_le_compat_r; assumption).
    eapply Qle_trans; [ exact Hfl | ]. eapply Qle_trans; [ exact HT | ].
    eapply Qle_trans; [ exact Hprod' | ]. apply Qle_lteq; right; ring. }
  destruct (Hone t Ht) as [Ht0 Htu]. destruct (Hone b Hb) as [Hb0 Hbu].
  split; [ exact Ht0 | split; [ exact Hb0 | ] ].
  rewrite Zle_Qle, inject_Z_plus.
  set (K := (X * (c1 * c1 * c1))%Q) in *.
  assert (HK0 : (0 <= K)%Q).
  { unfold K. apply Qmult_le_0_compat; [ exact HX0 | ]. unfold c1. lra. }
  assert (Htb : (inject_Z t + inject_Z b <= inject_Z o - 1)%Q).
  { assert (H : t + b <= o - 1) by lia.
    rewrite Zle_Qle in H. unfold Z.sub in H. rewrite !inject_Z_plus in H.
    exact H. }
  assert (Hobound : (inject_Z o <= 2147483648)%Q).
  { assert (H : o <= 2147483648) by lia. now rewrite Zle_Qle in H. }
  assert (H1 : ((inject_Z t + inject_Z b) * K <= (inject_Z o - 1) * K)%Q)
    by (apply Qmult_le_compat_r; assumption).
  assert (H2 : ((inject_Z o - 1) * (c1 * c1 * c1) * X <= inject_Z o * X)%Q).
  { apply Qmult_le_compat_r; [ | exact HX0 ]. unfold c1. lra. }
  assert (H3 : ((inject_Z o - 1) * K == (inject_Z o - 1) * (c1 * c1 * c1) * X)%Q)
    by (unfold K; ring).
  lra.
Qed.

(** The exponent of a rounded value, from the magnitude of the value. *)
Lemma rounds_exponent x f lo hi :
  rounds_to x f -> (pow2 lo <= x)%Q -> (x < pow2 hi)%Q ->
  lo - 53 < expo f < hi - 52.
Proof.
  intros (Hlo & Hhi & _) Hx1 Hx2.
  pose proof (pow2_cancel x (expo f)) as Hc.
  pose proof (pow2_pos (expo f)) as He.
  set (y := (x * pow2 (- expo f))%Q) in *.
  split.
  - assert (H : (pow2 lo < pow2 (53 + expo f))%Q).
    { rewrite pow2_add.
      assert (y * pow2 (expo f) < pow2 53 * pow2 (expo f))%Q
        by (apply Qmult_lt_compat_r; assumption).
      lra. }
    apply pow2_lt_inv in H. lia.
  - assert (H : (pow2 (52 + expo f) < pow2 hi)%Q).
    { rewrite pow2_add.
      assert (pow2 52 * pow2 (expo f) <= y * pow2 (expo f))%Q
        by (apply Qmult_le_compat_r; [ assumption | lra ]).
      lra. }
    apply pow2_lt_inv in H. lia.
Qed.

(** On positive 32-bit integers the quotient is a normal binary64 number, so
    the unbounded exponent of the model is the exponent of the machine. *)
Lemma truediv_int32_normal a b :
  0 < a < 2 ^ 31 -> 0 < b < 2 ^ 31 -> binary64_normal (truediv a b).
Proof.
  intros Ha Hb. rewrite truediv_pos_den by lia.
  destruct (round_cases a b ltac:(lia)) as [[Hn _]|[[_ R]|[Hn _]]]; try lia.
  pose proof (rounds_mant _ _ R) as Hm.
  assert (Hx1 : (pow2 (-31) <= Qratio a b)%Q).
  { unfold Qratio. apply Qle_shift_div_l; [ apply inject_Z_pos; lia | ].
    assert (H1 : (inject_Z b <= inject_Z 2147483648)%Q) by (rewrite <- Zle_Qle; lia).
    assert (H2 : (inject_Z 1 <= inject_Z a)%Q) by (rewrite <- Zle_Qle; lia).
    change (inject_Z 2147483648) with 2147483648%Q in H1.
    change (inject_Z 1) with 1%Q in H2.
    assert (H3 : (pow2 (-31) == 1 # 2147483648)%Q) by reflexivity.
    rewrite H3. lra. }
  assert (Hx2 : (Qratio a b < pow2 31)%Q).
  { unfold Qratio. apply Qlt_shift_div_r; [ apply inject_Z_pos; lia | ].
    assert (H1 : (inject_Z 1 <= inject_Z b)%Q) by (rewrite <- Zle_Qle; lia).
    assert (H2 : (inject_Z a < inject_Z 2147483648)%Q) by (rewrite <- Zlt_Qlt; lia).
    change (inject_Z 2147483648) with 2147483648%Q in H2.
    change (inject_Z 1) with 1%Q in H1.
    assert (H3 : (pow2 31 == 2147483648)%Q) by reflexivity.
    rewrite H3. nra. }
  pose proof (rounds_exponent _ _ _ _ R Hx1 Hx2) as He.
  unfold binary64_normal. split; [ lia | lia ].
Qed.

Lemma rounds_within x f :
  rounds_to x f -> (x * (1 # 2) <= F2Q f)%Q /\ (F2Q f <= x * 2)%Q.
Proof.
  intros R. pose proof (rounds_lower _ _ R). pose proof (rounds_upper _ _ R).
  pose proof (rounds_pos _ _ R) as [Hx _]. split; lra.
Qed.

(** So is the product of a positive 32-bit crop distance with such a
    quotient: every float that [paintEvent] computes from Qt's integers is
    normal. *)
Lemma offset_int32_normal d a b :
  0 < d < 2 ^ 31 -> 0 < a < 2 ^ 31 -> 0 < b < 2 ^ 31 ->
  binary64_normal (of_int d) /\ binary64_normal (mul (of_int d) (truediv a b)).
Proof.
  intros Hd Ha Hb.
  assert (Hq31 : (pow2 31 == 2147483648)%Q) by reflexivity.
  assert (Hqm31 : (pow2 (-31) == 1 # 2147483648)%Q) by reflexivity.
  assert (Hd1 : (1 <= inject_Z d)%Q).
  { assert (H : (inject_Z 1 <= inject_Z d)%Q) by (rewrite <- Zle_Qle; lia). exact H. }
  assert (Hd2 : (inject_Z d < 2147483648)%Q).
  { assert (H : (inject_Z d < inject_Z 2147483648)%Q) by (rewrite <- Zlt_Qlt; lia).
    exact H. }
  (* the converted distance *)
  destruct (round_cases d 1 ltac:(lia)) as [[Hn _]|[[_ Rd]|[Hn _]]]; try lia.
  fold (of_int d) in Rd.
  pose proof (rounds_mant _ _ Rd) as Hmd.
  assert (Hed : -53 < expo (of_int d) < -21).
  { apply (rounds_exponent _ _ 0 31 Rd); rewrite Qratio_1;
      [ exact Hd1 | rewrite Hq31; exact Hd2 ]. }
  split; [ unfold binary64_normal; lia | ].
  (* the quotient *)
  rewrite truediv_pos_den by lia.
  destruct (round_cases a b ltac:(lia)) as [[Hn _]|[[_ Rq]|[Hn _]]]; try lia.
  assert (Hx1 : (pow2 (-31) <= Qratio a b)%Q).
  { unfold Qratio. apply Qle_shift_div_l; [ apply inject_Z_pos; lia | ].
    assert (H1 : (inject_Z b <= inject_Z 2147483648)%Q) by (rewrite <- Zle_Qle; lia).
    assert (H2 : (inject_Z 1 <= inject_Z a)%Q) by (rewrite <- Zle_Qle; lia).
    change (inject_Z 2147483648) with 2147483648%Q in H1.
    change (inject_Z 1) with 1%Q in H2. rewrite Hqm31. lra. }
  assert (Hx2 : (Qratio a b < pow2 31)%Q).
  { unfold Qratio. apply Qlt_shift_div_r; [ apply inject_Z_pos; lia | ].
    assert (H1 : (inject_Z 1 <= inject_Z b)%Q) by (rewrite <- Zle_Qle; lia).
    assert (H2 : (inject_Z a < inject_Z 2147483648)%Q) by (rewrite <- Zlt_Qlt; lia).
    change (inject_Z 2147483648) with 2147483648%Q in H2.
    change (inject_Z 1) with 1%Q in H1. rewrite Hq31. nra. }
  rewrite Hq31 in Hx2. rewrite Hqm31 in Hx1.
  destruct (rounds_within _ _ Rd) as [Wd1 Wd2]. rewrite Qratio_1 in Wd1, Wd2.
  destruct (rounds_within _ _ Rq) as [Wq1 Wq2].
  (* the product *)
  destruct (mul_ratio (of_int d) (round a b)) as (Hden & Hv & E). rewrite E.
  set (n := fst (ratio_of (mkFloat (mant (of_int d) * mant (round a b))
                                   (expo (of_int d) + expo (round a b))))) in *.
  set (dn := snd (ratio_of (mkFloat (mant (of_int d) * mant (round a b))
                                    (expo (of_int d) + expo (round a b))))) in *.
  assert (Hlow : (1 # 8589934592 <= F2Q (of_int d) * F2Q (round a b))%Q).
  { assert (H : ((1 # 2) * (1 # 4294967296) <= F2Q (of_int d) * F2Q (round a b))%Q)
      by (apply Qmult_le_compat_nonneg; split; lra).
    assert (Hc : ((1 # 2) * (1 # 4294967296) == 1 # 8589934592)%Q) by reflexivity.
    rewrite Hc in H. exact H. }
  assert (Hhigh : (F2Q (of_int d) * F2Q (round a b) <= 4294967296 * 4294967296)%Q)
    by (apply Qmult_le_compat_nonneg; split; lra).
  destruct (round_cases n dn Hden) as [[Hn Hz]|[[_ Rp]|[Hn _]]].
  - exfalso. subst n. rewrite Hn, Qratio_0 in Hv. lra.
  - pose proof (rounds_mant _ _ Rp) as Hmp.
    assert (Hep : -33 - 53 < expo (round n dn) < 65 - 52).
    { apply (rounds_exponent _ _ (-33) 65 Rp); rewrite Hv.
      - assert (Hc : (pow2 (-33) == 1 # 8589934592)%Q) by reflexivity.
        rewrite Hc. exact Hlow.
      - assert (Hc : (pow2 65 == 36893488147419103232)%Q) by reflexivity.
        rewrite Hc. lra. }
    unfold binary64_normal. lia.
  - exfalso. pose proof (Qratio_neg n dn Hden Hn). rewrite Hv in H. lra.
Qed.

(** The model agrees with the reference binary64 operations of the Standard
    Library on sample inputs, among them a quotient that is not exact and a
    product that falls just below an integer. *)
Example division_agrees_with_binary64 :
  to_spec (truediv 1 49) = SFdiv 53 1024 (to_spec (of_int 1)) (to_spec (of_int 49)) /\
  to_spec (truediv 799 1920)
    = SFdiv 53 1024 (to_spec (of_int 799)) (to_spec (of_int 1920)) /\
  to_spec (truediv 240 480) = SFdiv 53 1024 (to_spec (of_int 240)) (to_spec (of_int 480)).
Proof. vm_compute. repeat split; reflexivity. Qed.

Example product_agrees_with_binary64 :
  to_spec (mul (of_int 49) (truediv 1 49))
    = SFmul 53 1024 (to_spec (of_int 49)) (to_spec (truediv 1 49)) /\
  to_spec (mul (of_int 1333) (truediv 799 1920))
    = SFmul 53 1024 (to_spec (of_int 1333)) (to_spec (truediv 799 1920)) /\
  trunc (mul (of_int 49) (truediv 1 49)) = 0 /\
  trunc (mul (of_int 10) (truediv 240 480)) = 5.
Proof. vm_compute. repeat split; reflexivity. Qed.

Lemma c_int_spec z : c_int z = true <-> qt_int z.
Proof. unfold c_int, qt_int. rewrite andb_true_iff, Z.leb_le, Z.ltb_lt. tauto. Qed.

Lemma c_int_fits z : - 2 ^ 31 <= z < 2 ^ 31 -> c_int z = true.
Proof. intros H. now apply c_int_spec. Qed.

(** One repaint, call by call: the calls are made in order until the painter
    rejects one. *)
Lemma repaint_eq self sx sy :
  scale_factor (width self) (original_width self) = Ok sx ->
  scale_factor (height self) (original_height self) = Ok sy ->
  repaint self
  = if forallb accepted (paint_calls self sx sy)
    then Ok (paint_calls self sx sy) else Raise OverflowError.
Proof.
  intros Hx Hy. unfold repaint, paintEvent. rewrite Hx, Hy.
  unfold bind, lift, when, setPen, drawRect, drawLine, fillRect, paint, paint_calls,
    accepted, modify, ret, raise.
  destruct (0 <? crop_top self), (0 <? crop_bottom self),
           (0 <? crop_left self), (0 <? crop_right self);
    cbn [new_painter painted current_pen app forallb coordinates fst snd];
    repeat match goal with
           | |- context [c_int ?a && (c_int ?b && (c_int ?c && (c_int ?d && true)))] =>
               destruct (c_int a && (c_int b && (c_int c && (c_int d && true))));
               cbn [andb painted current_pen app fst snd]; try reflexivity
           end.
Qed.

(** A repaint returns the calls, or the painter rejects a coordinate. *)
Lemma repaint_cases self :
  exists sx sy,
    scale_factor (width self) (original_width self) = Ok sx /\
    scale_factor (height self) (original_height self) = Ok sy /\
    (repaint self = Ok (paint_calls self sx sy)
     /\ forallb accepted (paint_calls self sx sy) = true
     \/ repaint self = Raise OverflowError
        /\ forallb accepted (paint_calls self sx sy) = false).
Proof.
  eexists _, _.
  split; [ apply scale_factor_ok | split; [ apply scale_factor_ok | ] ].
  rewrite (repaint_eq self _ _ (scale_factor_ok _ _) (scale_factor_ok _ _)).
  destruct (forallb accepted _); [ left | right ]; split; reflexivity.
Qed.

(** The painter accepts every call when the widget has the size of a Qt
    widget and each mapped offset of a positive crop distance lies between
    zero and the extent of its axis. *)
Lemma paint_calls_accepted self sx sy :
  0 <= width self < 2 ^ 31 -> 0 <= height self < 2 ^ 31 ->
  (0 < crop_top self -> 0 <= offset (crop_top self) sy <= height self) ->
  (0 < crop_bottom self -> 0 <= offset (crop_bottom self) sy <= height self) ->
  (0 < crop_left self -> 0 <= offset (crop_left self) sx <= width self) ->
  (0 < crop_right self -> 0 <= offset (crop_right self) sx <= width self) ->
  forallb accepted (paint_calls self sx sy) = true.
Proof.
  intros Hw Hh Ht Hb Hl Hr.
  unfold paint_calls, accepted, top_edge, bottom_edge, top_pos, bottom_pos, left_pos,
    right_pos.
  assert (P : 2 ^ 31 = 2147483648) by reflexivity.
  destruct (Z.ltb_spec 0 (crop_top self)) as [Ct|Ct];
    [ specialize (Ht Ct) | clear Ht ];
    (destruct (Z.ltb_spec 0 (crop_bottom self)) as [Cb|Cb];
       [ specialize (Hb Cb) | clear Hb ]);
    (destruct (Z.ltb_spec 0 (crop_left self)) as [Cl|Cl];
       [ specialize (Hl Cl) | clear Hl ]);
    (destruct (Z.ltb_spec 0 (crop_right self)) as [Cr|Cr];
       [ specialize (Hr Cr) | clear Hr ]);
    cbn [app forallb coordinates andb];
    repeat (rewrite c_int_fits by lia); reflexivity.
Qed.

Lemma offset_zero s : offset 0 s = 0.
Proof.
  destruct s as [z|f]; [ reflexivity | ].
  unfold offset, py_mul, py_int, mul, ratio_of. cbn [of_int round zero mant expo Z.mul Z.add].
  destruct (0 <=? expo f); reflexivity.
Qed.

Lemma offset_nonneg s d : (0 <= num_value s)%Q -> 0 <= d -> 0 <= offset d s.
Proof. intros Hs Hd. rewrite <- (offset_zero s). now apply offset_mono. Qed.

(** A crop distance below the original extent maps to an offset within the
    preview extent. *)
Lemma offset_within d p o :
  0 <= d < o -> o < 2 ^ 31 -> 0 <= p ->
  0 <= offset d (PyFloat (truediv p o)) <= p.
Proof.
  intros Hd Ho Hp.
  destruct (offsets_fit d 0 p o ltac:(lia) ltac:(lia) ltac:(lia) Ho Hp) as (H1 & _ & H3).
  rewrite offset_zero in H3. lia.
Qed.

End OverlayFacts.

(** * The claims about the overlay *)

Import Float64 Float64Facts OverlayFacts.

Ltac split_bools :=
  repeat match goal with
         | |- context [Z.leb ?a ?b] => destruct (Z.leb_spec a b); try lia
         | |- context [Z.ltb ?a ?b] => destruct (Z.ltb_spec a b); try lia
         end.

(** C1, as stated, fails: the mapped offset is handed to the painter, which
    takes C ints.  With a crop of 4000 rows on an original of height 1 and
    a widget of height 2147483647, all of them C ints, the offset
    [int(4000 * (2147483647 / 1))] is 8589934588000 and [paintEvent] raises
    [OverflowError] instead of drawing the guide line there. *)
Lemma overlay_overflows_for_large_offset :
  let self := mkOverlay 4000 0 0 0 1 1 10 2147483647 in
  0 < original_width self /\ 0 < original_height self /\
  c_int 4000 = true /\ c_int 2147483647 = true /\
  scale_factor (height self) (original_height self)
  = Ok (PyFloat (truediv 2147483647 1)) /\
  py_int (py_mul 4000 (PyFloat (truediv 2147483647 1))) = 8589934588000 /\
  repaint self = Raise OverflowError.
Proof. vm_compute. repeat split; reflexivity. Qed.

(** C1, amended: for crop distances, an original resolution and a widget
    size that are C ints, the scale factor of an axis is the float quotient
    when the original dimension is positive and the integer 1 otherwise (so
    that the offset is the crop distance itself).  A repaint that returns
    has drawn the guide lines at [int(d * (w / W))] horizontally and
    [int(d * (h / H))] vertically, one for each positive distance.  It
    returns whenever no mapped offset exceeds the extent of the widget on
    its axis, which is the case for a distance below a positive original
    extent; otherwise it can only raise [OverflowError].  For crop top=10,
    left=20 on a 640x480 original and a 320x240 preview the only guide
    lines are the top one at y=5 and the left one at x=10. *)
Theorem overlay_maps_crop_to_preview :
  forall top bottom left right W H w h,
    qt_int top -> qt_int bottom -> qt_int left -> qt_int right ->
    qt_int W -> qt_int H -> qt_int w -> qt_int h -> 0 <= w -> 0 <= h ->
    let self := mkOverlay top bottom left right W H w h in
    exists sx sy,
      scale_factor w W = Ok sx /\ scale_factor h H = Ok sy /\
      (0 < W -> sx = PyFloat (truediv w W)) /\ (W <= 0 -> sx = PyInt 1) /\
      (0 < H -> sy = PyFloat (truediv h H)) /\ (H <= 0 -> sy = PyInt 1) /\
      (forall d, py_int (py_mul d (PyInt 1)) = d) /\
      (forall ops, repaint self = Ok ops ->
         guide_lines ops =
           (if 0 <? top
            then [mkLine 0 (py_int (py_mul top sy)) w (py_int (py_mul top sy))] else [])
           ++ (if 0 <? bottom
               then [mkLine 0 (h - py_int (py_mul bottom sy))
                            w (h - py_int (py_mul bottom sy))]
               else [])
           ++ (if 0 <? left
               then [mkLine (py_int (py_mul left sx)) 0 (py_int (py_mul left sx)) h]
               else [])
           ++ (if 0 <? right
               then [mkLine (w - py_int (py_mul right sx)) 0
                            (w - py_int (py_mul right sx)) h]
               else [])) /\
      ((0 < top -> py_int (py_mul top sy) <= h) ->
       (0 < bottom -> py_int (py_mul bottom sy) <= h) ->
       (0 < left -> py_int (py_mul left sx) <= w) ->
       (0 < right -> py_int (py_mul right sx) <= w) ->
       exists ops, repaint self = Ok ops) /\
      (forall d, 0 <= d < H -> py_int (py_mul d sy) <= h) /\
      (forall d, 0 <= d < W -> py_int (py_mul d sx) <= w) /\
      (forall e, repaint self = Raise e -> e = OverflowError) /\
      (repaint (mkOverlay 10 0 20 0 640 480 320 240)
       = Ok [DrawRect border_pen 0 0 319 239;
             DrawLine line_pen 0 5 320 5; DrawLine line_pen 10 0 10 240;
             FillRect 0 0 320 5 shade; FillRect 0 5 10 235 shade]).
Proof.
  intros top bottom left right W H w h Qt Qb Ql Qr QW QH Qw Qh Hw Hh self.
  pose proof (scale_factor_ok w W) as Hx. pose proof (scale_factor_ok h H) as Hy.
  pose proof (scale_nonneg w W Hw) as Nx. pose proof (scale_nonneg h H Hh) as Ny.
  pose proof (repaint_eq self _ _ Hx Hy) as R.
  eexists _, _.
  split; [ exact Hx | split; [ exact Hy | ] ].
  split; [ intros HW; destruct (Z.ltb_spec 0 W); [ reflexivity | lia ] | ].
  split; [ intros HW; destruct (Z.ltb_spec 0 W); [ lia | reflexivity ] | ].
  split; [ intros HH; destruct (Z.ltb_spec 0 H); [ reflexivity | lia ] | ].
  split; [ intros HH; destruct (Z.ltb_spec 0 H); [ lia | reflexivity ] | ].
  split; [ intros d; cbn [py_mul py_int]; lia | ].
  set (sx := if 0 <? W then PyFloat (truediv w W) else PyInt 1) in *.
  set (sy := if 0 <? H then PyFloat (truediv h H) else PyInt 1) in *.
  split; [ | split; [ | split; [ | split; [ | split; [ | vm_compute; reflexivity ] ] ] ] ].
  - intros ops E. rewrite E in R.
    destruct (forallb accepted (paint_calls self sx sy)); [ | discriminate R ].
    injection R as ->.
    unfold paint_calls, self; cbn [crop_top crop_bottom crop_left crop_right width height].
    unfold top_pos, bottom_pos, left_pos, right_pos, offset.
    destruct (0 <? top), (0 <? bottom), (0 <? left), (0 <? right); reflexivity.
  - intros Ft Fb Fl Fr. rewrite R.
    rewrite paint_calls_accepted; [ eexists; reflexivity | .. ];
      unfold self; cbn [crop_top crop_bottom crop_left crop_right width height];
      unfold qt_int in *; try lia.
    + intros C. split; [ apply offset_nonneg; [ exact Ny | lia ] | exact (Ft C) ].
    + intros C. split; [ apply offset_nonneg; [ exact Ny | lia ] | exact (Fb C) ].
    + intros C. split; [ apply offset_nonneg; [ exact Nx | lia ] | exact (Fl C) ].
    + intros C. split; [ apply offset_nonneg; [ exact Nx | lia ] | exact (Fr C) ].
  - intros d Hd. unfold sy. destruct (Z.ltb_spec 0 H); [ | lia ].
    apply (offset_within d h H); unfold qt_int in *; lia.
  - intros d Hd. unfold sx. destruct (Z.ltb_spec 0 W); [ | lia ].
    apply (offset_within d w W); unfold qt_int in *; lia.
  - intros e E. rewrite E in R.
    destruct (forallb accepted (paint_calls self sx sy)); [ discriminate R | ].
    now injection R.
Qed.

Lemma overlay_maps_crop_to_preview_witness :
  exists sx sy,
    scale_factor 320 640 = Ok sx /\ scale_factor 240 480 = Ok sy /\
    guide_lines [DrawRect border_pen 0 0 319 239;
                 DrawLine line_pen 0 5 320 5; DrawLine line_pen 10 0 10 240;
                 FillRect 0 0 320 5 shade; FillRect 0 5 10 235 shade]
    = [mkLine 0 (py_int (py_mul 10 sy)) 320 (py_int (py_mul 10 sy));
       mkLine (py_int (py_mul 20 sx)) 0 (py_int (py_mul 20 sx)) 240].
Proof.
  destruct (overlay_maps_crop_to_preview 10 0 20 0 640 480 320 240)
    as (sx & sy & Hx & Hy & _ & _ & _ & _ & _ & Hlines & _ & _ & _ & _ & Hex);
    try (unfold qt_int; lia).
  exists sx, sy. split; [ exact Hx | split; [ exact Hy | ] ].
  exact (Hlines _ Hex).
Defined.

(** C10: for a positive original resolution and preview size the mapped top
    and left positions do not decrease, and the mapped bottom and right
    positions do not increase, when the crop distance grows. *)
Theorem overlay_positions_monotone :
  forall W H w h d1 d2,
    0 < W -> 0 < H -> 0 < w -> 0 < h -> d1 <= d2 ->
    exists sx sy,
      scale_factor w W = Ok sx /\ scale_factor h H = Ok sy /\
      top_pos d1 sy <= top_pos d2 sy /\
      left_pos d1 sx <= left_pos d2 sx /\
      bottom_pos h d2 sy <= bottom_pos h d1 sy /\
      right_pos w d2 sx <= right_pos w d1 sx.
Proof.
  intros W H w h d1 d2 HW HH Hw Hh Hd.
  eexists _, _.
  split; [ apply scale_factor_ok | split; [ apply scale_factor_ok | ] ].
  pose proof (offset_mono _ d1 d2 (scale_nonneg w W ltac:(lia)) Hd) as Hox.
  pose proof (offset_mono _ d1 d2 (scale_nonneg h H ltac:(lia)) Hd) as Hoy.
  unfold top_pos, left_pos, bottom_pos, right_pos. lia.
Qed.

Lemma overlay_positions_monotone_witness :
  exists sx sy,
    scale_factor 320 640 = Ok sx /\ scale_factor 240 480 = Ok sy /\
    top_pos 10 sy <= top_pos 11 sy /\
    left_pos 10 sx <= left_pos 11 sx /\
    bottom_pos 240 11 sy <= bottom_pos 240 10 sy /\
    right_pos 320 11 sx <= right_pos 320 10 sx.
Proof.
  apply (overlay_positions_monotone 640 480 320 240 10 11); lia.
Defined.

(** C2: when the crop leaves part of the original frame (top+bottom < H,
    left+right < W, distances non-negative; W, H and the widget's w and h
    in Qt's int range, as [width()] and [height()] return them), the
    occlusion rectangles are the full-width top and bottom bands and the left
    and right bands between them, one per non-zero side; with the center
    tile they partition the preview: every pixel of the surface lies in
    exactly one of them and none of them leaves the surface. *)
Theorem occlusions_partition_preview :
  forall top bottom left right W H w h,
    0 <= top -> 0 <= bottom -> 0 <= left -> 0 <= right ->
    top + bottom < H -> left + right < W ->
    qt_int W -> qt_int H -> qt_int w -> qt_int h -> 0 <= w -> 0 <= h ->
    let self := mkOverlay top bottom left right W H w h in
    exists sx sy ops,
      scale_factor w W = Ok sx /\ scale_factor h H = Ok sy /\
      repaint self = Ok ops /\
      occlusions ops =
        (if 0 <? top then [mkRect 0 0 w (top_edge self sy)] else [])
        ++ (if 0 <? bottom
            then [mkRect 0 (bottom_edge self sy) w (h - bottom_edge self sy)] else [])
        ++ (if 0 <? left
            then [mkRect 0 (top_edge self sy) (left_pos left sx)
                         (bottom_edge self sy - top_edge self sy)] else [])
        ++ (if 0 <? right
            then [mkRect (right_pos w right sx) (top_edge self sy)
                         (w - right_pos w right sx)
                         (bottom_edge self sy - top_edge self sy)] else []) /\
      let tiles := occlusions ops ++ [center_tile self sx sy] in
      (forall px py, 0 <= px < w -> 0 <= py < h -> cover_count tiles px py = 1%nat) /\
      (forall r px py, In r tiles -> covers r px py = true ->
                       0 <= px < w /\ 0 <= py < h).
Proof.
  intros top bottom left right W H w h Ht Hb Hl Hr HtbH HlrW [_ HW] [_ HH] [_ Qw] [_ Qh]
    Hw Hh self.
  pose proof (scale_factor_ok w W) as Hx. pose proof (scale_factor_ok h H) as Hy.
  destruct (Z.ltb_spec 0 W) as [HWpos|]; [ | lia ].
  destruct (Z.ltb_spec 0 H) as [HHpos|]; [ | lia ].
  destruct (offsets_fit top bottom h H Ht Hb HtbH HH Hh) as (Hy1 & Hy2 & Hy3).
  destruct (offsets_fit left right w W Hl Hr HlrW HW Hw) as (Hx1 & Hx2 & Hx3).
  exists (PyFloat (truediv w W)), (PyFloat (truediv h H)). eexists.
  split; [ exact Hx | split; [ exact Hy | ] ].
  split.
  { rewrite (repaint_eq self _ _ Hx Hy).
    rewrite paint_calls_accepted; [ reflexivity | .. ];
      unfold self; cbn [crop_top crop_bottom crop_left crop_right width height]; lia. }
  unfold paint_calls.
  unfold center_tile, top_edge, bottom_edge, top_pos, bottom_pos, left_pos, right_pos.
  unfold self; cbn [crop_top crop_bottom crop_left crop_right width height].
  generalize dependent (offset top (PyFloat (truediv h H))).
  generalize dependent (offset bottom (PyFloat (truediv h H))).
  generalize dependent (offset left (PyFloat (truediv w W))).
  generalize dependent (offset right (PyFloat (truediv w W))).
  intros ro Hx2 lo Hx1 Hx3 bo Hy2 to Hy1 Hy3.
  destruct (0 <? top), (0 <? bottom), (0 <? left), (0 <? right);
    (split; [ reflexivity | ]);
    cbn [occlusions flat_map app];
    (split;
     [ intros px py Hpx Hpy; unfold cover_count, covers; cbn [filter rx ry rw rh];
       split_bools; reflexivity
     | intros r px py Hin Hc; cbn [In] in Hin;
       repeat (destruct Hin as [<-|Hin]; [ | ]); try contradiction;
       unfold covers in Hc; cbn [rx ry rw rh] in Hc;
       repeat (apply andb_prop in Hc; destruct Hc as [Hc ?]);
       repeat match goal with
              | Hb : (_ <=? _) = true |- _ => apply Z.leb_le in Hb
              | Hb : (_ <? _) = true |- _ => apply Z.ltb_lt in Hb
              end; lia ]).
Qed.

Lemma occlusions_partition_preview_witness :
  let top := 10 in let bottom := 0 in let left := 20 in let right := 0 in
  let W := 640 in let H := 480 in let w := 320 in let h := 240 in
  let self := mkOverlay top bottom left right W H w h in
  exists sx sy ops,
    scale_factor w W = Ok sx /\ scale_factor h H = Ok sy /\
    repaint self = Ok ops /\
    occlusions ops =
      (if 0 <? top then [mkRect 0 0 w (top_edge self sy)] else [])
      ++ (if 0 <? bottom
          then [mkRect 0 (bottom_edge self sy) w (h - bottom_edge self sy)] else [])
      ++ (if 0 <? left
          then [mkRect 0 (top_edge self sy) (left_pos left sx)
                       (bottom_edge self sy - top_edge self sy)] else [])
      ++ (if 0 <? right
          then [mkRect (right_pos w right sx) (top_edge self sy)
                       (w - right_pos w right sx)
                       (bottom_edge self sy - top_edge self sy)] else []) /\
    let tiles := occlusions ops ++ [center_tile self sx sy] in
    (forall px py, 0 <= px < w -> 0 <= py < h -> cover_count tiles px py = 1%nat) /\
    (forall r px py, In r tiles -> covers r px py = true ->
                     0 <= px < w /\ 0 <= py < h).
Proof.
  intros top bottom left right W H w h.
  apply (occlusions_partition_preview top bottom left right W H w h);
    unfold qt_int, top, bottom, left, right, W, H, w, h; lia.
Defined.

(** * The command builder *)

Module BuilderFacts.
Local Open Scope string_scope.
Local Open Scope list_scope.
Local Open Scope Z_scope.

Lemma numeric_app s t : numeric (s ++ t)%string = numeric s && numeric t.
Proof.
  induction s as [|c s IH]; cbn [append numeric]; [ reflexivity | ].
  rewrite IH. apply andb_assoc.
Qed.

Lemma numeric_uint d : numeric (NilEmpty.string_of_uint d) = true.
Proof. induction d; cbn; auto. Qed.

Lemma numeric_str_of_int z : numeric (str_of_int z) = true.
Proof.
  unfold str_of_int, NilZero.string_of_int, NilZero.string_of_uint.
  destruct (Z.to_int z) as [d|d]; destruct d; cbn -[NilEmpty.string_of_uint];
    try reflexivity; apply (numeric_uint _).
Qed.

Lemma eqb_numeric s t : numeric s = true -> numeric t = false -> (s =? t)%string = false.
Proof.
  intros Hs Ht. destruct (String.eqb_spec s t) as [->|]; [ congruence | reflexivity ].
Qed.

Lemma last_char_app s c : last_char (s ++ String c "")%string = Some c.
Proof.
  induction s as [|d s IH]; [ reflexivity | ].
  cbn [append last_char]. rewrite IH.
  destruct (s ++ String c "")%string eqn:E; [ destruct s; discriminate | reflexivity ].
Qed.

Lemma eqb_last_char s t : last_char s <> last_char t -> (s =? t)%string = false.
Proof.
  intros H. destruct (String.eqb_spec s t) as [->|]; [ congruence | reflexivity ].
Qed.

(** No decimal number, and no bitrate [<n>k], is one of the option flags. *)
Lemma str_of_int_not_flag z :
  (str_of_int z =? "-vf")%string = false /\ (str_of_int z =? "-crf")%string = false /\
  (str_of_int z =? "-b:v")%string = false.
Proof.
  repeat split; apply eqb_numeric; try apply numeric_str_of_int; reflexivity.
Qed.

Lemma bitrate_not_flag z :
  (str_of_int z ++ "k" =? "-vf")%string = false /\
  (str_of_int z ++ "k" =? "-crf")%string = false /\
  (str_of_int z ++ "k" =? "-b:v")%string = false.
Proof.
  repeat split; apply eqb_last_char; rewrite last_char_app; discriminate.
Qed.

(** The result of the builder: an exception when no source is set, when an
    existence check raises or when the output folder is not a string,
    [None] when the input is a missing file, and otherwise the segments in
    order. *)
Lemma build_ffmpeg_command_result env a :
  fst (build_ffmpeg_command env a) =
  match current_source a with
  | None => Raise AttributeError
  | Some source =>
      match input_args env source with
      | None =>
          match path_exists env source with
          | Ok _ => Ok None
          | Raise e => Raise e
          end
      | Some input =>
          match output_path a with
          | JStr folder =>
              match path_exists env (output_file env a source folder) with
              | Ok _ =>
                  Ok (Some (["ffmpeg"; "-y"] ++ input ++ options a (is_device source)
                            ++ [output_file env a source folder]))
              | Raise e => Raise e
              end
          | _ => Raise TypeError
          end
      end
  end.
Proof.
  unfold build_ffmpeg_command, bind, get.
  destruct (current_source a) as [source|]; [ | reflexivity ].
  cbn [ret]. unfold input_args.
  assert (Hafter : forall cmd,
    fst (build_after_input env source (is_device source) cmd a) =
    match output_path a with
    | JStr folder =>
        match path_exists env (output_file env a source folder) with
        | Ok _ =>
            Ok (Some (cmd ++ options a (is_device source)
                      ++ [output_file env a source folder]))
        | Raise e => Raise e
        end
    | _ => Raise TypeError
    end).
  { intros cmd.
    unfold build_after_input, options, crop_args, video_args, rate_args, audio_args,
      duration_args, is_vp9, output_file, bind, get, ret, raise, lift, when, log_console,
      modify.
    destruct (any _), (lower (currentText (video_codec_combo a)) =? "vp9")%string,
      (0 <? value (bitrate_spin a)),
      (lower (currentText (audio_codec_combo a)) =? "opus")%string,
      (is_device source);
      cbn [negb output_path set_console_output];
      destruct (output_path a); try reflexivity;
      match goal with
      | |- context [path_exists env ?f] => destruct (path_exists env f) as [[|]|e]
      end;
      cbn [fst app]; rewrite <- ?app_assoc; reflexivity. }
  destruct (startswith (sys_platform env) "linux" && startswith source "/dev/");
    [ apply Hafter | ].
  destruct (startswith (sys_platform env) "win" && startswith source "video=");
    [ apply Hafter | ].
  unfold lift. destruct (path_exists env source) as [[|]|e]; cbn [negb];
    [ apply Hafter | reflexivity | reflexivity ].
Qed.

Lemma crop_filter_not_flag t b l r :
  (crop_filter t b l r =? "-vf")%string = false /\
  (crop_filter t b l r =? "-crf")%string = false /\
  (crop_filter t b l r =? "-b:v")%string = false.
Proof. repeat split; reflexivity. Qed.

Lemma any_spec zs : any zs = true <-> exists z, In z zs /\ z <> 0.
Proof.
  unfold any. rewrite existsb_exists. split; intros [z [Hin Hz]]; exists z; split; auto.
  - destruct (Z.eqb_spec z 0); [ discriminate | assumption ].
  - destruct (Z.eqb_spec z 0); [ contradiction | reflexivity ].
Qed.

Lemma any4 t b l r :
  any [t; b; l; r] = true <-> (t <> 0 \/ b <> 0 \/ l <> 0 \/ r <> 0).
Proof.
  rewrite any_spec. split.
  - intros [z [[<-|[<-|[<-|[<-|[]]]]] Hz]]; auto.
  - intros [H|[H|[H|H]]]; eexists; (split; [ | exact H ]); cbn; auto.
Qed.

Arguments str_of_int : simpl never.
Arguments crop_filter : simpl never.

(** Rewrites the comparisons of the option values with the three flags. *)
Ltac flag_tests :=
  repeat match goal with
         | |- context [(str_of_int ?z ++ "k" =? _)%string] =>
             let H := fresh in
             pose proof (bitrate_not_flag z) as H; destruct H as (-> & -> & ->)
         | |- context [(str_of_int ?z =? _)%string] =>
             let H := fresh in
             pose proof (str_of_int_not_flag z) as H; destruct H as (-> & -> & ->)
         | |- context [(crop_filter ?t ?b ?l ?r =? _)%string] =>
             let H := fresh in
             pose proof (crop_filter_not_flag t b l r) as H; destruct H as (-> & -> & ->)
         end.

(** An argument list whose last element is not the flag contributes its own
    values, whatever follows. *)
Lemma values_of_app flag l1 l2 :
  (last l1 "" =? flag)%string = false ->
  values_of flag (l1 ++ l2) = values_of flag l1 ++ values_of flag l2.
Proof.
  induction l1 as [|a l1 IH]; intros Hlast; [ reflexivity | ].
  destruct l1 as [|b l1].
  - cbn [last] in Hlast. cbn [app values_of].
    destruct l2 as [|c l2]; [ reflexivity | ]. rewrite Hlast. reflexivity.
  - specialize (IH Hlast). cbn [app values_of] in *.
    destruct (a =? flag)%string; rewrite IH; reflexivity.
Qed.

Lemma values_of_nil_l flag l : values_of flag ([] ++ l) = values_of flag l.
Proof. reflexivity. Qed.

(** The option values that follow each rate-control and filter flag. *)
Lemma options_values a dev :
  let t := value (crop_top_spin a) in
  let b := value (crop_bottom_spin a) in
  let l := value (crop_left_spin a) in
  let r := value (crop_right_spin a) in
  values_of "-vf" (options a dev)
    = (if any [t; b; l; r] then [crop_filter t b l r] else []) /\
  values_of "-crf" (options a dev)
    = (if 0 <? value (bitrate_spin a) then [] else [str_of_int (value (quality_spin a))]) /\
  values_of "-b:v" (options a dev)
    = (if 0 <? value (bitrate_spin a)
       then [(str_of_int (value (bitrate_spin a)) ++ "k")%string]
       else if is_vp9 a then ["0"] else []).
Proof.
  intros t b l r.
  assert (Hcrop : forall flag,
    (crop_filter t b l r =? flag)%string = false ->
    values_of flag (crop_args a ++ video_args a ++ rate_args a ++ audio_args a
                    ++ ["-f"; "webm"] ++ duration_args dev)
    = values_of flag (crop_args a)
      ++ values_of flag (video_args a ++ rate_args a ++ audio_args a
                         ++ ["-f"; "webm"] ++ duration_args dev)).
  { intros flag Hf. unfold crop_args. fold t b l r.
    destruct (any [t; b; l; r]); [ | reflexivity ].
    apply values_of_app. exact Hf. }
  assert (Hvideo : forall flag rest,
    ("2" =? flag)%string = false -> ("libvpx" =? flag)%string = false ->
    values_of flag (video_args a ++ rest)
    = values_of flag (video_args a) ++ values_of flag rest).
  { intros flag rest H1 H2. apply values_of_app. unfold video_args.
    destruct (is_vp9 a); assumption. }
  assert (Hrate : forall flag rest,
    (str_of_int (value (bitrate_spin a)) ++ "k" =? flag)%string = false ->
    (str_of_int (value (quality_spin a)) =? flag)%string = false ->
    ("0" =? flag)%string = false ->
    values_of flag (rate_args a ++ rest)
    = values_of flag (rate_args a) ++ values_of flag rest).
  { intros flag rest H1 H2 H3. apply values_of_app. unfold rate_args.
    destruct (0 <? value (bitrate_spin a)); [ exact H1 | ].
    destruct (is_vp9 a); assumption. }
  assert (Htail :
    values_of "-vf" (audio_args a ++ ["-f"; "webm"] ++ duration_args dev) = [] /\
    values_of "-crf" (audio_args a ++ ["-f"; "webm"] ++ duration_args dev) = [] /\
    values_of "-b:v" (audio_args a ++ ["-f"; "webm"] ++ duration_args dev) = []).
  { unfold audio_args, duration_args.
    destruct (lower (currentText (audio_codec_combo a)) =? "opus")%string, dev;
      repeat split; reflexivity. }
  destruct Htail as (Ht1 & Ht2 & Ht3).
  destruct (bitrate_not_flag (value (bitrate_spin a))) as (Hb1 & Hb2 & Hb3).
  destruct (str_of_int_not_flag (value (quality_spin a))) as (Hq1 & Hq2 & Hq3).
  destruct (crop_filter_not_flag t b l r) as (Hc1 & Hc2 & Hc3).
  unfold options.
  rewrite (Hcrop "-vf" Hc1), (Hcrop "-crf" Hc2), (Hcrop "-b:v" Hc3).
  rewrite !Hvideo, !Hrate by (reflexivity || assumption).
  rewrite Ht1, Ht2, Ht3.
  unfold crop_args, video_args, rate_args. fold t b l r.
  repeat split.
  - destruct (any [t; b; l; r]), (is_vp9 a), (0 <? value (bitrate_spin a));
      cbn [app values_of]; rewrite ?Hq1; reflexivity.
  - destruct (any [t; b; l; r]), (is_vp9 a), (0 <? value (bitrate_spin a));
      cbn [app values_of]; rewrite ?Hc2, ?Hq2; reflexivity.
  - destruct (any [t; b; l; r]), (is_vp9 a), (0 <? value (bitrate_spin a));
      cbn [app values_of]; rewrite ?Hc3, ?Hq3; reflexivity.
Qed.

Ltac not_flag H :=
  first
    [ discriminate H
    | apply String.eqb_eq in H;
      first [ rewrite (proj1 (str_of_int_not_flag _)) in H
            | rewrite (proj1 (proj2 (str_of_int_not_flag _))) in H
            | rewrite (proj2 (proj2 (str_of_int_not_flag _))) in H
            | rewrite (proj1 (bitrate_not_flag _)) in H
            | rewrite (proj1 (proj2 (bitrate_not_flag _))) in H
            | rewrite (proj2 (proj2 (bitrate_not_flag _))) in H
            | rewrite (proj1 (crop_filter_not_flag _ _ _ _)) in H
            | rewrite (proj1 (proj2 (crop_filter_not_flag _ _ _ _))) in H
            | rewrite (proj2 (proj2 (crop_filter_not_flag _ _ _ _))) in H ];
      discriminate H ].

Ltac in_cases H :=
  cbn [In] in H;
  repeat (destruct H as [H|H]; [ try (exfalso; not_flag H) | ]);
  try contradiction.

(** Which of the three flags occur among the options. *)
Lemma options_flags a dev :
  (In "-vf" (options a dev)
   <-> any [value (crop_top_spin a); value (crop_bottom_spin a);
            value (crop_left_spin a); value (crop_right_spin a)] = true) /\
  (In "-crf" (options a dev) <-> (0 <? value (bitrate_spin a)) = false) /\
  (In "-b:v" (options a dev)
   <-> (0 <? value (bitrate_spin a)) = true \/ is_vp9 a = true).
Proof.
  assert (Htail : forall flag,
    In flag (audio_args a ++ ["-f"; "webm"] ++ duration_args dev) ->
    flag <> "-vf" /\ flag <> "-crf" /\ flag <> "-b:v").
  { intros flag H. unfold audio_args, duration_args in H.
    destruct (lower (currentText (audio_codec_combo a)) =? "opus")%string, dev;
      cbn [app In] in H;
      repeat (destruct H as [<-|H]; [ repeat split; discriminate | ]); contradiction. }
  assert (Hvideo : forall flag, In flag (video_args a) ->
    flag <> "-vf" /\ flag <> "-crf" /\ flag <> "-b:v").
  { intros flag H. unfold video_args in H.
    destruct (is_vp9 a); cbn [In] in H;
      repeat (destruct H as [<-|H]; [ repeat split; discriminate | ]); contradiction. }
  unfold options.
  rewrite !(in_app_iff (crop_args a)), !(in_app_iff (video_args a)),
    !(in_app_iff (rate_args a)).
  repeat split.
  - unfold crop_args, rate_args.
    intros [H|[H|[H|H]]];
      [ | apply Hvideo in H; tauto | | apply Htail in H; tauto ].
    + destruct (any _); [ reflexivity | contradiction ].
    + destruct (0 <? value (bitrate_spin a)), (is_vp9 a); in_cases H.
  - intros H. left. unfold crop_args. rewrite H. left. reflexivity.
  - unfold crop_args, rate_args.
    intros [H|[H|[H|H]]];
      [ | apply Hvideo in H; tauto | | apply Htail in H; tauto ].
    + destruct (any _); in_cases H.
    + destruct (0 <? value (bitrate_spin a)); [ | reflexivity ].
      in_cases H.
  - intros H. right; right; left. unfold rate_args. rewrite H. left. reflexivity.
  - unfold crop_args, rate_args.
    intros [H|[H|[H|H]]];
      [ | apply Hvideo in H; tauto | | apply Htail in H; tauto ].
    + destruct (any _); in_cases H.
    + destruct (0 <? value (bitrate_spin a)); [ left; reflexivity | ].
      destruct (is_vp9 a); [ right; reflexivity | ]. in_cases H.
  - intros H. right; right; left. unfold rate_args.
    destruct (0 <? value (bitrate_spin a)); [ left; reflexivity | ].
    destruct H as [H|H]; [ discriminate | ]. rewrite H. cbn. tauto.
Qed.

End BuilderFacts.

(** * The claims about the command builder and the conversion runner *)

Import BuilderFacts.
Local Open Scope string_scope.
Local Open Scope list_scope.
Local Open Scope Z_scope.

(** What a successful build returns, segment by segment. *)
Lemma build_some env a cmd s' :
  build_ffmpeg_command env a = (Ok (Some cmd), s') ->
  exists source input folder,
    current_source a = Some source /\ input_args env source = Some input /\
    output_path a = JStr folder /\
    cmd = ["ffmpeg"; "-y"] ++ input ++ options a (is_device source)
          ++ [output_file env a source folder].
Proof.
  intros H. pose proof (build_ffmpeg_command_result env a) as R.
  rewrite H in R. cbn [fst] in R.
  destruct (current_source a) as [source|] eqn:Hs; [ | discriminate ].
  destruct (input_args env source) as [input|] eqn:Hi;
    [ | destruct (path_exists env source); discriminate ].
  destruct (output_path a) as [| | | |folder| |] eqn:Ho; try discriminate.
  destruct (path_exists env (output_file env a source folder)); [ | discriminate ].
  injection R as ->. eexists _, _, _. repeat split; try reflexivity; eassumption.
Qed.

(** C3: the options of a built command contain the [-vf] flag exactly when
    one of the four crop distances is non-zero, and then its value is the
    string [crop=iw-L-R:ih-T-B:L:T] made of the current spin box values. *)
Theorem crop_filter_iff_nonzero_crop :
  forall env a cmd s',
    build_ffmpeg_command env a = (Ok (Some cmd), s') ->
    let T := value (crop_top_spin a) in
    let B := value (crop_bottom_spin a) in
    let L := value (crop_left_spin a) in
    let R := value (crop_right_spin a) in
    exists source input folder,
      current_source a = Some source /\ input_args env source = Some input /\
      cmd = ["ffmpeg"; "-y"] ++ input ++ options a (is_device source)
            ++ [output_file env a source folder] /\
      (In "-vf" (options a (is_device source))
       <-> (T <> 0 \/ B <> 0 \/ L <> 0 \/ R <> 0)) /\
      ((T <> 0 \/ B <> 0 \/ L <> 0 \/ R <> 0) ->
       values_of "-vf" (options a (is_device source)) = [crop_filter T B L R]) /\
      crop_filter T B L R
      = ("crop=iw-" ++ str_of_int L ++ "-" ++ str_of_int R
         ++ ":ih-" ++ str_of_int T ++ "-" ++ str_of_int B
         ++ ":" ++ str_of_int L ++ ":" ++ str_of_int T)%string.
Proof.
  intros env a cmd s' H T B L R.
  destruct (build_some env a cmd s' H) as (source & input & folder & Hs & Hi & _ & Hc).
  exists source, input, folder.
  destruct (options_flags a (is_device source)) as (Hvf & _ & _).
  destruct (options_values a (is_device source)) as (Hval & _ & _).
  fold T B L R in Hvf, Hval.
  repeat split; try assumption.
  - intros Hin. apply any4, Hvf, Hin.
  - intros Hnz. apply Hvf, any4, Hnz.
  - intros Hnz. apply any4 in Hnz. rewrite Hval, Hnz. reflexivity.
Qed.

Lemma crop_filter_iff_nonzero_crop_witness :
  let env := example_env in
  let a := example_app in
  let cmd := example_cmd in
  let T := value (crop_top_spin a) in
  let B := value (crop_bottom_spin a) in
  let L := value (crop_left_spin a) in
  let R := value (crop_right_spin a) in
  exists source input folder,
    current_source a = Some source /\ input_args env source = Some input /\
    cmd = ["ffmpeg"; "-y"] ++ input ++ options a (is_device source)
          ++ [output_file env a source folder] /\
    (In "-vf" (options a (is_device source))
     <-> (T <> 0 \/ B <> 0 \/ L <> 0 \/ R <> 0)) /\
    ((T <> 0 \/ B <> 0 \/ L <> 0 \/ R <> 0) ->
     values_of "-vf" (options a (is_device source)) = [crop_filter T B L R]) /\
    crop_filter T B L R
    = ("crop=iw-" ++ str_of_int L ++ "-" ++ str_of_int R
       ++ ":ih-" ++ str_of_int T ++ "-" ++ str_of_int B
       ++ ":" ++ str_of_int L ++ ":" ++ str_of_int T)%string.
Proof.
  intros env a cmd.
  apply (crop_filter_iff_nonzero_crop env a cmd
           (snd (build_ffmpeg_command env a))).
  vm_compute. reflexivity.
Defined.

(** C5: with a positive bitrate the options carry [-b:v <bitrate>k] and no
    [-crf]; otherwise they carry [-crf <quality>], followed for VP9 by
    [-b:v 0] and by no [-b:v] at all for VP8; bitrate 0, quality 30 and VP9
    give [-crf 30 -b:v 0]. *)
Theorem rate_control_by_bitrate :
  forall env a cmd s',
    build_ffmpeg_command env a = (Ok (Some cmd), s') ->
    let bitrate := value (bitrate_spin a) in
    let quality := value (quality_spin a) in
    exists source input folder,
      current_source a = Some source /\ input_args env source = Some input /\
      cmd = ["ffmpeg"; "-y"] ++ input ++ options a (is_device source)
            ++ [output_file env a source folder] /\
      (0 < bitrate ->
       values_of "-b:v" (options a (is_device source)) = [(str_of_int bitrate ++ "k")%string] /\
       ~ In "-crf" (options a (is_device source))) /\
      (bitrate <= 0 ->
       values_of "-crf" (options a (is_device source)) = [str_of_int quality] /\
       (is_vp9 a = true -> values_of "-b:v" (options a (is_device source)) = ["0"]) /\
       (is_vp9 a = false -> ~ In "-b:v" (options a (is_device source)))) /\
      (fst (build_ffmpeg_command example_env example_app) = Ok (Some example_cmd) /\
       value (bitrate_spin example_app) = 0 /\ value (quality_spin example_app) = 30 /\
       currentText (video_codec_combo example_app) = "VP9" /\
       values_of "-crf" example_cmd = ["30"] /\ values_of "-b:v" example_cmd = ["0"]).
Proof.
  intros env a cmd s' H bitrate quality.
  destruct (build_some env a cmd s' H) as (source & input & folder & Hs & Hi & _ & Hc).
  exists source, input, folder.
  destruct (options_flags a (is_device source)) as (_ & Hcrf & Hbv).
  destruct (options_values a (is_device source)) as (_ & Vcrf & Vbv).
  fold bitrate quality in Hcrf, Hbv, Vcrf, Vbv.
  split; [ exact Hs | split; [ exact Hi | split; [ exact Hc | ] ] ].
  split; [ | split ].
  - intros Hpos. assert (E : (0 <? bitrate) = true) by (apply Z.ltb_lt; exact Hpos).
    rewrite E in *. split; [ exact Vbv | ].
    intros Hin. apply Hcrf in Hin. discriminate.
  - intros Hnpos. assert (E : (0 <? bitrate) = false) by (apply Z.ltb_ge; exact Hnpos).
    rewrite E in *. split; [ exact Vcrf | split ].
    + intros Hv. rewrite Hv in Vbv. exact Vbv.
    + intros Hv Hin. apply Hbv in Hin. destruct Hin; congruence.
  - vm_compute. repeat split; reflexivity.
Qed.

Lemma rate_control_by_bitrate_witness :
  let env := example_env in
  let a := example_app in
  let cmd := example_cmd in
  let bitrate := value (bitrate_spin a) in
  let quality := value (quality_spin a) in
  exists source input folder,
    current_source a = Some source /\ input_args env source = Some input /\
    cmd = ["ffmpeg"; "-y"] ++ input ++ options a (is_device source)
          ++ [output_file env a source folder] /\
    (0 < bitrate ->
     values_of "-b:v" (options a (is_device source)) = [(str_of_int bitrate ++ "k")%string] /\
     ~ In "-crf" (options a (is_device source))) /\
    (bitrate <= 0 ->
     values_of "-crf" (options a (is_device source)) = [str_of_int quality] /\
     (is_vp9 a = true -> values_of "-b:v" (options a (is_device source)) = ["0"]) /\
     (is_vp9 a = false -> ~ In "-b:v" (options a (is_device source)))) /\
    (fst (build_ffmpeg_command example_env example_app) = Ok (Some example_cmd) /\
     value (bitrate_spin example_app) = 0 /\ value (quality_spin example_app) = 30 /\
     currentText (video_codec_combo example_app) = "VP9" /\
     values_of "-crf" example_cmd = ["30"] /\ values_of "-b:v" example_cmd = ["0"]).
Proof.
  intros env a cmd.
  apply (rate_control_by_bitrate env a cmd (snd (build_ffmpeg_command env a))).
  vm_compute. reflexivity.
Defined.



(** C4, as stated, fails: on Linux the source [video=Cam] is a device source
    for the builder itself ([is_device]), yet it is looked up as a file and
    the builder returns [None]; an output folder that is not a string (the
    settings document can hold any value) makes the builder raise; and so
    does an existence check that raises, as [Path.exists] does for a name
    that is too long. *)
Lemma builder_none_for_foreign_device :
  let env := mkEnv "linux" (fun _ => Ok false) (fun _ => "in") (fun _ => "in.mp4")
                   (fun a b => (a ++ "/" ++ b)%string) "/home/user"
                   (fun _ => "error") (fun s => s) true NotOpened 800 450 in
  let a := set_current_source (Some "video=Cam") (init_ui env None) in
  let env' := mkEnv "linux" (fun _ => Raise OSError) (fun _ => "in") (fun _ => "in.mp4")
                    (fun a b => (a ++ "/" ++ b)%string) "/home/user"
                    (fun _ => "error") (fun s => s) true NotOpened 800 450 in
  current_source a = Some "video=Cam" /\
  is_device "video=Cam" = true /\
  fst (build_ffmpeg_command env a) = Ok None /\
  fst (build_ffmpeg_command example_env (set_output_path (JInt 5) example_app))
    = Raise TypeError /\
  fst (build_ffmpeg_command env' example_app) = Raise OSError.
Proof. vm_compute. repeat split; reflexivity. Qed.

(** C4, amended: with a source set and a string as output folder, the
    builder returns [None] exactly when the source is not captured as a
    device of the running platform ([/dev/...] on Linux, [video=...] on
    Windows) and the existence check of its path answers no, logging "File
    not found"; when the source is captured or its path exists, the builder
    returns an argument list if the existence check of the output file
    answers; an exception escapes exactly when one of the two checks
    raises, and it is the exception of that check. *)
Theorem builder_none_iff_missing_file :
  forall env a source folder,
    current_source a = Some source ->
    output_path a = JStr folder ->
    let captured :=
      startswith (sys_platform env) "linux" && startswith source "/dev/"
      || startswith (sys_platform env) "win" && startswith source "video=" in
    (fst (build_ffmpeg_command env a) = Ok None
     <-> captured = false /\ path_exists env source = Ok false) /\
    (captured = true \/ path_exists env source = Ok true ->
     forall found, path_exists env (output_file env a source folder) = Ok found ->
     exists cmd, fst (build_ffmpeg_command env a) = Ok (Some cmd)) /\
    (forall e,
       fst (build_ffmpeg_command env a) = Raise e
       <-> captured = false /\ path_exists env source = Raise e
           \/ (captured = true \/ path_exists env source = Ok true)
              /\ path_exists env (output_file env a source folder) = Raise e) /\
    (fst (build_ffmpeg_command env a) = Ok None ->
     snd (build_ffmpeg_command env a)
     = set_console_output
         (console_output a ++ [("Error: File not found: " ++ source)%string]) a).
Proof.
  intros env a source folder Hs Ho captured.
  pose proof (build_ffmpeg_command_result env a) as R.
  rewrite Hs, Ho in R. unfold input_args in R.
  assert (Hstate : captured = false -> path_exists env source = Ok false ->
            snd (build_ffmpeg_command env a)
            = set_console_output
                (console_output a ++ [("Error: File not found: " ++ source)%string]) a).
  { unfold captured. intros Hc He. apply orb_false_elim in Hc. destruct Hc as [Hc1 Hc2].
    unfold build_ffmpeg_command, bind, get, ret, lift. rewrite Hs, Hc1, Hc2, He.
    reflexivity. }
  unfold captured in *.
  destruct (startswith (sys_platform env) "linux" && startswith source "/dev/");
    [ | destruct (startswith (sys_platform env) "win" && startswith source "video=");
        [ | destruct (path_exists env source) as [[|]|e0] ] ];
    cbn [orb negb] in *;
    destruct (path_exists env (output_file env a source folder)) as [found|e1];
    rewrite R;
    (split; [ split; [ intros E; discriminate || (split; reflexivity)
                     | intros [E1 E2]; discriminate || reflexivity ] | ]);
    (split; [ intros [E|E] found' E'; try discriminate; eexists; reflexivity | ]);
    (split;
     [ intros e; split;
       [ intros E; try discriminate E; injection E as ->;
         first [ left; split; reflexivity
               | right; split; [ first [ left; reflexivity | right; reflexivity ]
                               | reflexivity ] ]
       | intros [[E1 E2]|[[E1|E1] E2]]; try discriminate; congruence ] | ]);
    intros E; try discriminate; apply Hstate; reflexivity.
Qed.

Lemma builder_none_iff_missing_file_witness :
  let env := example_env in
  let a := example_app in
  let source := "/videos/in.mp4" in
  let folder := "/home/user" in
  let captured :=
    startswith (sys_platform env) "linux" && startswith source "/dev/"
    || startswith (sys_platform env) "win" && startswith source "video=" in
  (fst (build_ffmpeg_command env a) = Ok None
   <-> captured = false /\ path_exists env source = Ok false) /\
  (captured = true \/ path_exists env source = Ok true ->
   forall found, path_exists env (output_file env a source folder) = Ok found ->
   exists cmd, fst (build_ffmpeg_command env a) = Ok (Some cmd)) /\
  (forall e,
     fst (build_ffmpeg_command env a) = Raise e
     <-> captured = false /\ path_exists env source = Raise e
         \/ (captured = true \/ path_exists env source = Ok true)
            /\ path_exists env (output_file env a source folder) = Raise e) /\
  (fst (build_ffmpeg_command env a) = Ok None ->
   snd (build_ffmpeg_command env a)
   = set_console_output
       (console_output a ++ [("Error: File not found: " ++ source)%string]) a).
Proof.
  intros env a source folder.
  apply (builder_none_iff_missing_file env a source folder); reflexivity.
Defined.

(** With a string as output folder, [start_conversion] does not raise when
    the existence checks answer: it reaches the builder only with a source
    set. *)
Lemma start_conversion_never_raises env a folder :
  paths_answer env ->
  output_path a = JStr folder -> fst (start_conversion env a) = Ok tt.
Proof.
  intros Hp Ho. unfold start_conversion, bind, get.
  destruct (current_source a) as [source|] eqn:Hs; [ | reflexivity ].
  destruct source as [|c source]; [ reflexivity | ].
  pose proof (build_ffmpeg_command_result env a) as R. rewrite Hs, Ho in R.
  destruct (Hp (String c source)) as [f1 E1].
  destruct (Hp (output_file env a (String c source) folder)) as [f2 E2].
  rewrite E1, E2 in R.
  destruct (build_ffmpeg_command env a) as [r s1]. cbn [fst] in R. subst r.
  destruct (input_args env (String c source)) as [input|]; [ | reflexivity ].
  reflexivity.
Qed.
(** * The settings store *)

Module SettingsFacts.
Local Open Scope string_scope.
Local Open Scope list_scope.
Local Open Scope Z_scope.

Section Preserves.
Context {S : Type} (P : S -> Prop).

Lemma preserves_ret {A} (x : A) : preserves P (ret x).
Proof. intros s H. exact H. Qed.

Lemma preserves_raise {A} e : preserves P (@raise S A e).
Proof. intros s H. exact H. Qed.

Lemma preserves_lift {A} (r : result A) : preserves P (lift r).
Proof. intros s H. exact H. Qed.

Lemma preserves_get : preserves P get.
Proof. intros s H. exact H. Qed.

Lemma preserves_modify f : (forall s, P s -> P (f s)) -> preserves P (modify f).
Proof. intros Hf s H. apply Hf, H. Qed.

Lemma preserves_bind {A B} (m : M S A) (k : A -> M S B) :
  preserves P m -> (forall x, preserves P (k x)) -> preserves P (bind m k).
Proof.
  intros Hm Hk s H. unfold bind. specialize (Hm s H).
  destruct (m s) as [[x|e] s1]; cbn [snd] in *; [ apply Hk, Hm | exact Hm ].
Qed.

Lemma preserves_try_except {A} (m : M S A) h :
  preserves P m -> (forall e, preserves P (h e)) -> preserves P (try_except m h).
Proof.
  intros Hm Hh s H. unfold try_except. specialize (Hm s H).
  destruct (m s) as [[x|e] s1]; cbn [snd] in *; [ exact Hm | apply Hh, Hm ].
Qed.

End Preserves.

Lemma bound_in_range sb v :
  minimum sb <= maximum sb -> minimum sb <= bound sb v <= maximum sb.
Proof.
  intros H. unfold bound.
  destruct (Z.ltb_spec v (minimum sb)); [ lia | ].
  destruct (Z.ltb_spec (maximum sb) v); lia.
Qed.

Lemma bound_in_range_id sb v :
  minimum sb <= v <= maximum sb -> bound sb v = v.
Proof.
  intros H. unfold bound.
  destruct (Z.ltb_spec v (minimum sb)); [ lia | ].
  destruct (Z.ltb_spec (maximum sb) v); lia.
Qed.

Lemma bound_clamp sb v :
  minimum sb <= maximum sb -> bound sb v = Z.max (minimum sb) (Z.min (maximum sb) v).
Proof.
  intros H. unfold bound.
  destruct (Z.ltb_spec v (minimum sb)); [ lia | ].
  destruct (Z.ltb_spec (maximum sb) v); lia.
Qed.

Lemma spin_set_ok mn mx z sb : spin_ok mn mx sb -> spin_ok mn mx (spin_set z sb).
Proof.
  intros (Hmn & Hmx & Hv). unfold spin_ok, spin_set; cbn [minimum maximum value].
  pose proof (bound_in_range sb z). lia.
Qed.

Lemma init_ui_bounds env disk : widget_bounds (init_ui env disk).
Proof. unfold widget_bounds, spin_ok. cbn. lia. Qed.

Lemma bind_ok {S A B} (m : M S A) (k : A -> M S B) s x s' :
  m s = (Ok x, s') -> bind m k s = k x s'.
Proof. intros H. unfold bind. rewrite H. reflexivity. Qed.

Lemma bind_raise {S A B} (m : M S A) (k : A -> M S B) s e s' :
  m s = (Raise e, s') -> bind m k s = (Raise e, s').
Proof. intros H. unfold bind. rewrite H. reflexivity. Qed.

Lemma dict_get_obj items key default :
  dict_get (JObj items) key default = Ok (field items key default).
Proof. reflexivity. Qed.

Lemma preserves_bind_lift_ok {S A B} (P : S -> Prop) (v : A) (k : A -> M S B) :
  preserves P (k v) -> preserves P (bind (lift (Ok v)) k).
Proof. intros H s Hs. unfold bind, lift. apply H, Hs. Qed.

(** Properties of the window that [load_settings] keeps, whatever the
    settings file [content] holds: those kept by each assignment it makes
    with the values of that file. *)
Section LoadPreserves.
Context (env : Env) (P : App -> Prop) (content : option file_content).
Hypothesis P_file : forall s, P s -> settings_file s = content.
Hypothesis P_top :
  forall items z s, content = Some (Document (JObj items)) ->
    as_c_int (field items "crop_top" (JInt 0)) = Ok z ->
    P s -> P (set_crop_top_spin (spin_set z (crop_top_spin s)) s).
Hypothesis P_bottom :
  forall items z s, content = Some (Document (JObj items)) ->
    as_c_int (field items "crop_bottom" (JInt 0)) = Ok z ->
    P s -> P (set_crop_bottom_spin (spin_set z (crop_bottom_spin s)) s).
Hypothesis P_left :
  forall items z s, content = Some (Document (JObj items)) ->
    as_c_int (field items "crop_left" (JInt 0)) = Ok z ->
    P s -> P (set_crop_left_spin (spin_set z (crop_left_spin s)) s).
Hypothesis P_right :
  forall items z s, content = Some (Document (JObj items)) ->
    as_c_int (field items "crop_right" (JInt 0)) = Ok z ->
    P s -> P (set_crop_right_spin (spin_set z (crop_right_spin s)) s).
Hypothesis P_quality :
  forall items z s, content = Some (Document (JObj items)) ->
    as_c_int (field items "quality" (JInt 30)) = Ok z ->
    P s -> P (set_quality_spin (spin_set z (quality_spin s)) s).
Hypothesis P_bitrate :
  forall items z s, content = Some (Document (JObj items)) ->
    as_c_int (field items "bitrate" (JInt 0)) = Ok z ->
    P s -> P (set_bitrate_spin (spin_set z (bitrate_spin s)) s).
Hypothesis P_output :
  forall items s, content = Some (Document (JObj items)) ->
    P s -> P (set_output_path (field items "output_path" (JStr (home env))) s).
Hypothesis P_overlay : forall ov s, P s -> P (set_crop_overlay ov s).
Hypothesis P_console : forall c s, P s -> P (set_console_output c s).
Hypothesis P_restore :
  forall items, content = Some (Document (JObj items)) ->
    preserves P (restore_source env (field items "source" JNull)).

Lemma log_console_preserves msg : preserves P (log_console msg).
Proof. apply preserves_modify. intros s H. apply P_console, H. Qed.

Lemma update_crop_overlay_preserves : preserves P update_crop_overlay.
Proof. apply preserves_modify. intros s H. apply P_overlay, H. Qed.

Lemma setValue_preserves spin set_spin slot v :
  (forall z s, as_c_int v = Ok z -> P s -> P (set_spin (spin_set z (spin s)) s)) ->
  preserves P slot ->
  preserves P (setValue spin set_spin slot v).
Proof.
  intros Hset Hslot s Hs. unfold setValue. unfold bind at 1. unfold lift.
  destruct (as_c_int v) as [z|e] eqn:Hv; [ | exact Hs ].
  revert s Hs. apply (preserves_bind P); [ apply preserves_get | intros a ].
  apply preserves_bind;
    [ apply preserves_modify; intros s H; now apply Hset | intros _ ].
  apply preserves_bind; [ apply preserves_get | intros a' ].
  destruct (value (spin a') =? value (spin a)); [ apply preserves_ret | exact Hslot ].
Qed.

Lemma load_settings_preserves : preserves P (load_settings env).
Proof.
  unfold load_settings.
  apply preserves_try_except; [ | intros e; apply log_console_preserves ].
  intros s Hs. unfold load_settings_body. unfold bind at 1. cbn [get].
  rewrite (P_file s Hs).
  destruct content as [[| |settings]|] eqn:Hc; try exact Hs.
  unfold bind at 1. cbn [ret].
  destruct settings as [| | | | | |items];
    try (unfold bind at 1; cbn [lift dict_get]; exact Hs).
  rewrite !dict_get_obj. revert s Hs.
  repeat (apply (preserves_bind_lift_ok P);
          apply (preserves_bind P);
          [ first
              [ apply setValue_preserves;
                [ intros z s Hz Hs;
                  first [ now apply (P_top items) | now apply (P_bottom items)
                        | now apply (P_left items) | now apply (P_right items)
                        | now apply (P_quality items) | now apply (P_bitrate items) ]
                | first [ apply update_crop_overlay_preserves | apply preserves_ret ] ]
              | apply preserves_modify; intros s Hs; now apply (P_output items) ]
          | intros _ ]).
  apply (preserves_bind_lift_ok P).
  apply (preserves_bind P); [ | intros _; apply log_console_preserves ].
  now apply P_restore.
Qed.

End LoadPreserves.

(** [load_settings] and [save_settings] never raise: the handler only logs. *)
Lemma load_settings_ok env a : fst (load_settings env a) = Ok tt.
Proof.
  unfold load_settings, try_except.
  destruct (load_settings_body env a) as [[[]|e] s1]; reflexivity.
Qed.

Lemma save_settings_ok env a : fst (save_settings env a) = Ok tt.
Proof.
  unfold save_settings, try_except.
  destruct (save_settings_body env a) as [[[]|e] s1]; reflexivity.
Qed.

(** Restoring the source touches the source combo box and its blocking of
    signals, the current source and the device flag only. *)
Lemma restore_source_preserves env (P : App -> Prop) v :
  (forall c s, P s -> P (set_source_combo c s)) ->
  (forall c s, P s -> P (set_current_source c s)) ->
  (forall c s, P s -> P (set_is_device_source c s)) ->
  (forall c s, P s -> P (set_source_signals_blocked c s)) ->
  preserves P (restore_source env v).
Proof.
  intros Hc Hs Hd Hb. unfold restore_source.
  destruct (truthy v); [ | apply preserves_ret ].
  apply preserves_bind;
    [ destruct v; first [ apply preserves_ret | apply preserves_raise ] | intros saved ].
  cbv zeta.
  apply preserves_bind; [ apply preserves_modify; intros; auto | intros _ ].
  apply preserves_bind; [ | intros _; apply preserves_modify; intros; auto ].
  destruct (is_device saved).
  - apply preserves_bind; [ apply preserves_get | intros self ].
    destruct (find_data saved (items (source_combo self)) 0); [ | apply preserves_ret ].
    repeat (apply preserves_bind; [ apply preserves_modify; intros; auto | intros _ ]).
    apply preserves_modify; intros; auto.
  - apply preserves_bind; [ apply preserves_lift | intros found ].
    destruct found; [ | apply preserves_ret ].
    repeat (apply preserves_bind; [ apply preserves_modify; intros; auto | intros _ ]).
    apply preserves_modify; intros; auto.
Qed.

Lemma load_settings_bounds env a :
  widget_bounds a -> widget_bounds (snd (load_settings env a)).
Proof.
  intros Ha.
  apply (load_settings_preserves env
           (fun s => settings_file s = settings_file a /\ widget_bounds s)
           (settings_file a)); [ .. | split; [ reflexivity | exact Ha ] ].
  all: try (intros items Hc; apply restore_source_preserves; intros c s H; exact H).
  all: try (intros s [H _]; exact H).
  all: try (intros ov s [Hf H]; split; [ exact Hf | exact H ]).
  all: try (intros items s Hc [Hf H]; split; [ exact Hf | exact H ]).
  all: intros items z s Hc Hz [Hf (H1 & H2 & H3 & H4 & H5 & H6)];
    (split; [ exact Hf | ]); unfold widget_bounds.
  all: cbn -[spin_set spin_ok].
  all: refine (conj _ (conj _ (conj _ (conj _ (conj _ _))))).
  all: first [ assumption | apply spin_set_ok; assumption ].
Qed.

Ltac setValue_run H :=
  unfold setValue, bind, lift, get, modify, ret, update_crop_overlay, overlay_after;
  rewrite H; cbn -[spin_set setCrop Z.eqb];
  match goal with |- context [?x =? ?y] => destruct (x =? y) end;
  try reflexivity;
  match goal with s : App |- _ => destruct s; reflexivity end.

Lemma crop_top_run v z s :
  as_c_int v = Ok z ->
  crop_top_spin_setValue v s
  = (Ok tt,
     let s1 := set_crop_top_spin (spin_set z (crop_top_spin s)) s in
     set_crop_overlay
       (overlay_after (value (crop_top_spin s)) (value (crop_top_spin s1)) s1) s1).
Proof. intros H. unfold crop_top_spin_setValue. setValue_run H. Qed.

Lemma crop_bottom_run v z s :
  as_c_int v = Ok z ->
  crop_bottom_spin_setValue v s
  = (Ok tt,
     let s1 := set_crop_bottom_spin (spin_set z (crop_bottom_spin s)) s in
     set_crop_overlay
       (overlay_after (value (crop_bottom_spin s)) (value (crop_bottom_spin s1)) s1) s1).
Proof. intros H. unfold crop_bottom_spin_setValue. setValue_run H. Qed.

Lemma crop_left_run v z s :
  as_c_int v = Ok z ->
  crop_left_spin_setValue v s
  = (Ok tt,
     let s1 := set_crop_left_spin (spin_set z (crop_left_spin s)) s in
     set_crop_overlay
       (overlay_after (value (crop_left_spin s)) (value (crop_left_spin s1)) s1) s1).
Proof. intros H. unfold crop_left_spin_setValue. setValue_run H. Qed.

Lemma crop_right_run v z s :
  as_c_int v = Ok z ->
  crop_right_spin_setValue v s
  = (Ok tt,
     let s1 := set_crop_right_spin (spin_set z (crop_right_spin s)) s in
     set_crop_overlay
       (overlay_after (value (crop_right_spin s)) (value (crop_right_spin s1)) s1) s1).
Proof. intros H. unfold crop_right_spin_setValue. setValue_run H. Qed.

Lemma quality_run v z s :
  as_c_int v = Ok z ->
  quality_spin_setValue v s = (Ok tt, set_quality_spin (spin_set z (quality_spin s)) s).
Proof.
  intros H. unfold quality_spin_setValue, setValue, bind, lift, get, modify, ret.
  rewrite H. cbn -[spin_set Z.eqb].
  match goal with |- context [?x =? ?y] => destruct (x =? y) end; reflexivity.
Qed.

Lemma bitrate_run v z s :
  as_c_int v = Ok z ->
  bitrate_spin_setValue v s = (Ok tt, set_bitrate_spin (spin_set z (bitrate_spin s)) s).
Proof.
  intros H. unfold bitrate_spin_setValue, setValue, bind, lift, get, modify, ret.
  rewrite H. cbn -[spin_set Z.eqb].
  match goal with |- context [?x =? ?y] => destruct (x =? y) end; reflexivity.
Qed.

Ltac run_step :=
  erewrite bind_ok by
    first [ apply crop_top_run; eassumption
          | apply crop_bottom_run; eassumption
          | apply crop_left_run; eassumption
          | apply crop_right_run; eassumption
          | apply quality_run; eassumption
          | apply bitrate_run; eassumption
          | reflexivity ];
  cbv beta.

Lemma load_body_typed env a items t b l r q br :
  settings_file a = Some (Document (JObj items)) ->
  as_c_int (field items "crop_top" (JInt 0)) = Ok t ->
  as_c_int (field items "crop_bottom" (JInt 0)) = Ok b ->
  as_c_int (field items "crop_left" (JInt 0)) = Ok l ->
  as_c_int (field items "crop_right" (JInt 0)) = Ok r ->
  as_c_int (field items "quality" (JInt 30)) = Ok q ->
  as_c_int (field items "bitrate" (JInt 0)) = Ok br ->
  load_settings_body env a
  = bind (restore_source env (field items "source" JNull))
         (fun _ => log_console "Settings loaded")
         (values_loaded env items t b l r q br a).
Proof.
  intros Hfile Ht Hb Hl Hr Hq Hbr. unfold load_settings_body.
  run_step. rewrite Hfile. run_step.
  rewrite !dict_get_obj.
  do 15 run_step.
  reflexivity.
Qed.

Lemma restore_source_falsy env v s :
  truthy v = false -> restore_source env v s = (Ok tt, s).
Proof. intros H. unfold restore_source. rewrite H. reflexivity. Qed.

(** Restoring a saved source string: it becomes the current source when it
    is a device found in the combo box or a file that is found to exist,
    and the source, the device flag and the combo box stay as they are
    otherwise; only the existence check of a file can raise. *)
Lemma restore_source_str env saved s :
  (fst (restore_source env (JStr saved) s) = Ok tt
   \/ exists e, fst (restore_source env (JStr saved) s) = Raise e /\
                is_device saved = false /\ path_exists env saved = Raise e) /\
  current_source (snd (restore_source env (JStr saved) s))
    = (if restorable env s saved then Some saved else current_source s) /\
  (restorable env s saved = false ->
   source_combo (snd (restore_source env (JStr saved) s)) = source_combo s /\
   is_device_source (snd (restore_source env (JStr saved) s)) = is_device_source s) /\
  (restorable env s saved = true ->
   is_device_source (snd (restore_source env (JStr saved) s)) = is_device saved) /\
  crop_top_spin (snd (restore_source env (JStr saved) s)) = crop_top_spin s /\
  crop_bottom_spin (snd (restore_source env (JStr saved) s)) = crop_bottom_spin s /\
  crop_left_spin (snd (restore_source env (JStr saved) s)) = crop_left_spin s /\
  crop_right_spin (snd (restore_source env (JStr saved) s)) = crop_right_spin s /\
  quality_spin (snd (restore_source env (JStr saved) s)) = quality_spin s /\
  bitrate_spin (snd (restore_source env (JStr saved) s)) = bitrate_spin s /\
  output_path (snd (restore_source env (JStr saved) s)) = output_path s /\
  console_output (snd (restore_source env (JStr saved) s)) = console_output s /\
  settings_file (snd (restore_source env (JStr saved) s)) = settings_file s /\
  ((forall e, is_device saved = false -> path_exists env saved <> Raise e) ->
   fst (restore_source env (JStr saved) s) = Ok tt).
Proof.
  unfold restore_source, restorable, truthy, bind, get, modify, ret, lift.
  destruct (saved =? "")%string; cbn [negb andb];
    [ repeat split; try reflexivity; try discriminate; left; reflexivity | ].
  cbn [fst snd]. destruct (is_device saved).
  - cbn [source_combo set_source_signals_blocked].
    destruct (find_data saved (items (source_combo s)) 0);
      cbn; repeat split; try reflexivity; try discriminate; left; reflexivity.
  - destruct (path_exists env saved) as [[|]|e];
      cbn; repeat split; try reflexivity; try discriminate;
      try (left; reflexivity).
    + right. exists e. repeat split; reflexivity.
    + intros H. exfalso. now apply (H e).
Qed.

(** Loading a document whose numeric fields convert to C ints and whose
    source is a string or is falsy: the values arrive whether or not the
    existence check of the saved file raises, and "Settings loaded" is
    logged when it does not. *)
Lemma load_settings_typed env a items t b l r q br :
  settings_file a = Some (Document (JObj items)) ->
  as_c_int (field items "crop_top" (JInt 0)) = Ok t ->
  as_c_int (field items "crop_bottom" (JInt 0)) = Ok b ->
  as_c_int (field items "crop_left" (JInt 0)) = Ok l ->
  as_c_int (field items "crop_right" (JInt 0)) = Ok r ->
  as_c_int (field items "quality" (JInt 30)) = Ok q ->
  as_c_int (field items "bitrate" (JInt 0)) = Ok br ->
  (truthy (field items "source" JNull) = false
   \/ exists saved, field items "source" JNull = JStr saved) ->
  let a' := snd (load_settings env a) in
  crop_top_spin a' = spin_set t (crop_top_spin a) /\
  crop_bottom_spin a' = spin_set b (crop_bottom_spin a) /\
  crop_left_spin a' = spin_set l (crop_left_spin a) /\
  crop_right_spin a' = spin_set r (crop_right_spin a) /\
  quality_spin a' = spin_set q (quality_spin a) /\
  bitrate_spin a' = spin_set br (bitrate_spin a) /\
  output_path a' = field items "output_path" (JStr (home env)) /\
  current_source a'
    = match field items "source" JNull with
      | JStr saved => if restorable env a saved then Some saved else current_source a
      | _ => current_source a
      end /\
  ((forall saved e, field items "source" JNull = JStr saved ->
                    is_device saved = false -> path_exists env saved <> Raise e) ->
   console_output a' = console_output a ++ ["Settings loaded"]) /\
  settings_file a' = settings_file a.
Proof.
  intros Hfile Ht Hb Hl Hr Hq Hbr Hsrc a'. subst a'.
  unfold load_settings, try_except.
  rewrite (load_body_typed env a items t b l r q br) by assumption.
  set (a7 := values_loaded env items t b l r q br a).
  assert (Hcombo : forall saved, restorable env a7 saved = restorable env a saved)
    by reflexivity.
  destruct Hsrc as [Hfalsy|[saved Hstr]].
  - erewrite bind_ok by (apply restore_source_falsy; exact Hfalsy).
    assert (Hcur : match field items "source" JNull with
                   | JStr saved => if restorable env a saved then Some saved
                                   else current_source a
                   | _ => current_source a
                   end = current_source a).
    { destruct (field items "source" JNull) as [| | | |saved| |]; try reflexivity.
      unfold restorable. cbn [truthy] in Hfalsy.
      destruct (saved =? "")%string; [ reflexivity | discriminate ]. }
    rewrite Hcur. cbn. repeat split; reflexivity.
  - rewrite Hstr.
    destruct (restore_source_str env saved a7)
      as (Hres & Hcur & _ & _ & F1 & F2 & F3 & F4 & F5 & F6 & F7 & F8 & F9 & Hok).
    unfold bind. destruct (restore_source env (JStr saved) a7) as [res s8].
    cbn [fst snd] in *.
    assert (Hvals :
      forall s9 : App,
        crop_top_spin s9 = crop_top_spin s8 -> crop_bottom_spin s9 = crop_bottom_spin s8 ->
        crop_left_spin s9 = crop_left_spin s8 -> crop_right_spin s9 = crop_right_spin s8 ->
        quality_spin s9 = quality_spin s8 -> bitrate_spin s9 = bitrate_spin s8 ->
        output_path s9 = output_path s8 -> current_source s9 = current_source s8 ->
        settings_file s9 = settings_file s8 ->
        crop_top_spin s9 = spin_set t (crop_top_spin a) /\
        crop_bottom_spin s9 = spin_set b (crop_bottom_spin a) /\
        crop_left_spin s9 = spin_set l (crop_left_spin a) /\
        crop_right_spin s9 = spin_set r (crop_right_spin a) /\
        quality_spin s9 = spin_set q (quality_spin a) /\
        bitrate_spin s9 = spin_set br (bitrate_spin a) /\
        output_path s9 = field items "output_path" (JStr (home env)) /\
        current_source s9
        = (if restorable env a saved then Some saved else current_source a) /\
        settings_file s9 = settings_file a).
    { intros s9 G1 G2 G3 G4 G5 G6 G7 G8 G9.
      rewrite G1, G2, G3, G4, G5, G6, G7, G8, G9, F1, F2, F3, F4, F5, F6, F7, F9, Hcur, Hcombo.
      repeat split; reflexivity. }
    destruct res as [[]|e].
    + destruct (Hvals (set_console_output (console_output s8 ++ ["Settings loaded"]) s8))
        as (V1 & V2 & V3 & V4 & V5 & V6 & V7 & V8 & V9); try reflexivity.
      cbn [snd log_console modify].
      repeat (split; [ assumption | ]).
      split; [ | assumption ].
      intros _. cbn [console_output set_console_output]. rewrite F8. reflexivity.
    + destruct (Hvals (set_console_output
                         (console_output s8
                          ++ [("Error loading settings: " ++ exn_str env e)%string]) s8))
        as (V1 & V2 & V3 & V4 & V5 & V6 & V7 & V8 & V9); try reflexivity.
      cbn [snd log_console modify].
      repeat (split; [ assumption | ]).
      split; [ | assumption ].
      intros Hno. exfalso.
      assert (E : Raise e = Ok tt :> result unit); [ | discriminate E ].
      apply Hok. intros e' Hd. now apply (Hno saved e').
Qed.

(** Saving writes the dict of the current values, when the file can be
    written. *)
Lemma save_settings_run env a :
  settings_writable env = true ->
  save_settings env a
  = (Ok tt, set_console_output (console_output a ++ ["Settings saved"])
              (set_settings_file (Some (Document (settings_dict a))) a)).
Proof.
  intros Hw. unfold save_settings, try_except, save_settings_body, bind, get, modify.
  rewrite Hw. reflexivity.
Qed.

Lemma as_c_int_small z : - 2 ^ 31 <= z < 2 ^ 31 -> as_c_int (JInt z) = Ok z.
Proof.
  intros H. unfold as_c_int.
  destruct (Z.leb_spec (- 2 ^ 31) z); [ | lia ].
  destruct (Z.ltb_spec z (2 ^ 31)); [ reflexivity | lia ].
Qed.

Lemma find_data_none data its i :
  ~ In (Some data) (map snd its) -> find_data data its i = None.
Proof.
  revert i. induction its as [|[t d] its IH]; intros i Hn; [ reflexivity | ].
  cbn [find_data]. cbn [map snd In] in Hn.
  destruct d as [d|].
  - destruct (String.eqb_spec d data) as [->|Hne]; [ exfalso; apply Hn; now left | ].
    apply IH. intros H. apply Hn. now right.
  - apply IH. intros H. apply Hn. now right.
Qed.

(** A saved source that is a missing file, or a device that is not among the
    items of the source combo box, cannot be restored. *)
Lemma dropped_not_restorable env a saved :
  (is_device saved = false /\ path_exists env saved = Ok false)
  \/ (is_device saved = true /\ ~ In (Some saved) (map snd (items (source_combo a)))) ->
  restorable env a saved = false.
Proof.
  unfold restorable. intros [[Hd He]|[Hd Hn]]; rewrite Hd.
  - rewrite He. apply andb_false_r.
  - rewrite (find_data_none _ _ _ Hn). apply andb_false_r.
Qed.

End SettingsFacts.

(** * The claims about the settings store *)

Import SettingsFacts.

(** C9: whatever the settings file holds, loading keeps every spin box
    inside the range set in [init_ui] (crop distances in 0..4000, quality in
    0..63, bitrate in 0..50000); an integer read from the document is
    clamped into that range. *)
Theorem loaded_values_within_widget_bounds :
  forall env a,
    widget_bounds a ->
    let a' := snd (load_settings env a) in
    widget_bounds a' /\
    0 <= value (crop_top_spin a') <= 4000 /\ 0 <= value (crop_bottom_spin a') <= 4000 /\
    0 <= value (crop_left_spin a') <= 4000 /\ 0 <= value (crop_right_spin a') <= 4000 /\
    0 <= value (quality_spin a') <= 63 /\ 0 <= value (bitrate_spin a') <= 50000 /\
    (forall disk, widget_bounds (init_ui env disk)) /\
    (forall items t b l r q br,
       settings_file a = Some (Document (JObj items)) ->
       as_c_int (field items "crop_top" (JInt 0)) = Ok t ->
       as_c_int (field items "crop_bottom" (JInt 0)) = Ok b ->
       as_c_int (field items "crop_left" (JInt 0)) = Ok l ->
       as_c_int (field items "crop_right" (JInt 0)) = Ok r ->
       as_c_int (field items "quality" (JInt 30)) = Ok q ->
       as_c_int (field items "bitrate" (JInt 0)) = Ok br ->
       (truthy (field items "source" JNull) = false
        \/ exists saved, field items "source" JNull = JStr saved) ->
       value (crop_top_spin a') = Z.max 0 (Z.min 4000 t) /\
       value (crop_bottom_spin a') = Z.max 0 (Z.min 4000 b) /\
       value (crop_left_spin a') = Z.max 0 (Z.min 4000 l) /\
       value (crop_right_spin a') = Z.max 0 (Z.min 4000 r) /\
       value (quality_spin a') = Z.max 0 (Z.min 63 q) /\
       value (bitrate_spin a') = Z.max 0 (Z.min 50000 br)).
Proof.
  intros env a Ha a'.
  pose proof (load_settings_bounds env a Ha) as Hb. fold a' in Hb.
  split; [ exact Hb | ].
  destruct Hb as ((_ & _ & B1) & (_ & _ & B2) & (_ & _ & B3) & (_ & _ & B4)
                  & (_ & _ & B5) & (_ & _ & B6)).
  repeat (split; [ assumption | ]).
  split; [ intros disk; apply init_ui_bounds | ].
  intros items t b l r q br Hf Ht Hbt Hl Hr Hq Hbr Hsrc.
  destruct (load_settings_typed env a items t b l r q br Hf Ht Hbt Hl Hr Hq Hbr Hsrc)
    as (E1 & E2 & E3 & E4 & E5 & E6 & _).
  fold a' in E1, E2, E3, E4, E5, E6.
  rewrite E1, E2, E3, E4, E5, E6.
  destruct Ha as ((M1 & X1 & V1) & (M2 & X2 & V2) & (M3 & X3 & V3) & (M4 & X4 & V4)
                  & (M5 & X5 & V5) & (M6 & X6 & V6)).
  unfold spin_set; cbn [value].
  rewrite !bound_clamp by lia.
  rewrite M1, X1, M2, X2, M3, X3, M4, X4, M5, X5, M6, X6.
  repeat split; reflexivity.
Qed.

Lemma loaded_values_within_widget_bounds_witness :
  let env := example_env in
  let a := init_ui env (Some (Document (JObj [("crop_top", JInt 5000);
                                              ("quality", JInt (-3))]))) in
  let a' := snd (load_settings env a) in
  widget_bounds a' /\
  0 <= value (crop_top_spin a') <= 4000 /\ 0 <= value (crop_bottom_spin a') <= 4000 /\
  0 <= value (crop_left_spin a') <= 4000 /\ 0 <= value (crop_right_spin a') <= 4000 /\
  0 <= value (quality_spin a') <= 63 /\ 0 <= value (bitrate_spin a') <= 50000 /\
  (forall disk, widget_bounds (init_ui env disk)) /\
  (forall items t b l r q br,
     settings_file a = Some (Document (JObj items)) ->
     as_c_int (field items "crop_top" (JInt 0)) = Ok t ->
     as_c_int (field items "crop_bottom" (JInt 0)) = Ok b ->
     as_c_int (field items "crop_left" (JInt 0)) = Ok l ->
     as_c_int (field items "crop_right" (JInt 0)) = Ok r ->
     as_c_int (field items "quality" (JInt 30)) = Ok q ->
     as_c_int (field items "bitrate" (JInt 0)) = Ok br ->
     (truthy (field items "source" JNull) = false
      \/ exists saved, field items "source" JNull = JStr saved) ->
     value (crop_top_spin a') = Z.max 0 (Z.min 4000 t) /\
     value (crop_bottom_spin a') = Z.max 0 (Z.min 4000 b) /\
     value (crop_left_spin a') = Z.max 0 (Z.min 4000 l) /\
     value (crop_right_spin a') = Z.max 0 (Z.min 4000 r) /\
     value (quality_spin a') = Z.max 0 (Z.min 63 q) /\
     value (bitrate_spin a') = Z.max 0 (Z.min 50000 br)).
Proof.
  intros env a.
  apply (loaded_values_within_widget_bounds env a).
  unfold widget_bounds, spin_ok. cbn. lia.
Defined.

Example load_clamps_example :
  let a' := snd (load_settings example_env
                   (init_ui example_env
                      (Some (Document (JObj [("crop_top", JInt 5000);
                                             ("quality", JInt (-3))]))))) in
  value (crop_top_spin a') = 4000 /\ value (quality_spin a') = 0 /\
  value (bitrate_spin a') = 0 /\ console_output a' = ["Settings loaded"].
Proof. vm_compute. repeat split; reflexivity. Qed.

(** C8: a saved source that is a file missing at load time, or a device that
    is not among the items of the source combo box, is dropped: the current
    source, the device flag and the combo box are left as they were (so the
    source stays unset in a new window), nothing is raised, and for a
    well-typed document the console only says "Settings loaded". *)
Theorem unavailable_saved_source_is_dropped :
  forall env a doc saved,
    settings_file a = Some (Document (JObj doc)) ->
    field doc "source" JNull = JStr saved ->
    (is_device saved = false /\ path_exists env saved = Ok false)
    \/ (is_device saved = true /\ ~ In (Some saved) (map snd (items (source_combo a)))) ->
    let a' := snd (load_settings env a) in
    current_source a' = current_source a /\
    is_device_source a' = is_device_source a /\
    source_combo a' = source_combo a /\
    (current_source a = None -> current_source a' = None) /\
    fst (load_settings env a) = Ok tt /\
    (forall t b l r q br,
       as_c_int (field doc "crop_top" (JInt 0)) = Ok t ->
       as_c_int (field doc "crop_bottom" (JInt 0)) = Ok b ->
       as_c_int (field doc "crop_left" (JInt 0)) = Ok l ->
       as_c_int (field doc "crop_right" (JInt 0)) = Ok r ->
       as_c_int (field doc "quality" (JInt 30)) = Ok q ->
       as_c_int (field doc "bitrate" (JInt 0)) = Ok br ->
       console_output a' = console_output a ++ ["Settings loaded"]).
Proof.
  intros env a doc saved Hfile Hsrc Hdrop a'.
  assert (Hkeep : settings_file a' = Some (Document (JObj doc)) /\
                  current_source a' = current_source a /\
                  is_device_source a' = is_device_source a /\
                  source_combo a' = source_combo a).
  { apply (load_settings_preserves env
             (fun s => settings_file s = Some (Document (JObj doc)) /\
                       current_source s = current_source a /\
                       is_device_source s = is_device_source a /\
                       source_combo s = source_combo a)
             (Some (Document (JObj doc)))); [ .. | repeat split; assumption ].
    all: try (intros s [H _]; exact H).
    all: try (intros ? ? ? ? ? H; exact H).
    all: try (intros ? ? ? H; exact H).
    all: try (intros ? ? H; exact H).
    intros doc' Hdoc s Hs. injection Hdoc as <-. rewrite Hsrc.
    destruct (restore_source_str env saved s)
      as (_ & Hcur & Hsame & _ & _ & _ & _ & _ & _ & _ & _ & _ & Hfile' & _).
    destruct Hs as (H1 & H2 & H3 & Hcombo).
    assert (Hno : restorable env s saved = false)
      by (apply dropped_not_restorable; rewrite Hcombo; exact Hdrop).
    destruct (Hsame Hno) as (S1 & S2). rewrite Hno in Hcur.
    repeat split; congruence. }
  destruct Hkeep as (_ & Hc & Hd & Hk).
  split; [ exact Hc | split; [ exact Hd | split; [ exact Hk | ] ] ].
  split; [ intros Hn; rewrite Hc; exact Hn | ].
  split; [ apply load_settings_ok | ].
  intros t b l r q br Ht Hb Hl Hr Hq Hbr.
  destruct (load_settings_typed env a doc t b l r q br) as (_ & _ & _ & _ & _ & _ & _ & _ & Hlog & _);
    try assumption.
  { right. exists saved. exact Hsrc. }
  apply Hlog. intros saved' e Hs' Hdev' He.
  rewrite Hsrc in Hs'. injection Hs' as <-.
  destruct Hdrop as [[_ Hex]|[Hdev _]]; congruence.
Qed.

Lemma unavailable_saved_source_is_dropped_witness :
  let env := example_env in
  let doc := [("crop_top", JInt 10); ("source", JStr "/videos/gone.mp4")] in
  let saved := "/videos/gone.mp4" in
  let a := init_ui env (Some (Document (JObj doc))) in
  let a' := snd (load_settings env a) in
  current_source a' = current_source a /\
  is_device_source a' = is_device_source a /\
  source_combo a' = source_combo a /\
  (current_source a = None -> current_source a' = None) /\
  fst (load_settings env a) = Ok tt /\
  (forall t b l r q br,
     as_c_int (field doc "crop_top" (JInt 0)) = Ok t ->
     as_c_int (field doc "crop_bottom" (JInt 0)) = Ok b ->
     as_c_int (field doc "crop_left" (JInt 0)) = Ok l ->
     as_c_int (field doc "crop_right" (JInt 0)) = Ok r ->
     as_c_int (field doc "quality" (JInt 30)) = Ok q ->
     as_c_int (field doc "bitrate" (JInt 0)) = Ok br ->
     console_output a' = console_output a ++ ["Settings loaded"]).
Proof.
  intros env doc saved a.
  apply (unavailable_saved_source_is_dropped env a doc saved);
    [ reflexivity | reflexivity | left; split; reflexivity ].
Defined.

(** In a new window, a key that the settings file does not provide leaves
    its widget or attribute at the default, whatever else the file holds. *)
Lemma fresh_window_defaults env disk :
  let b := snd (load_settings env (init_ui env disk)) in
  (absent "crop_top" disk -> crop_top_spin b = mkSpin 0 4000 0) /\
  (absent "crop_bottom" disk -> crop_bottom_spin b = mkSpin 0 4000 0) /\
  (absent "crop_left" disk -> crop_left_spin b = mkSpin 0 4000 0) /\
  (absent "crop_right" disk -> crop_right_spin b = mkSpin 0 4000 0) /\
  (absent "output_path" disk -> output_path b = JStr (home env)) /\
  (absent "quality" disk -> quality_spin b = mkSpin 0 63 30) /\
  (absent "bitrate" disk -> bitrate_spin b = mkSpin 0 50000 0).
Proof.
  intros b.
  assert (Hkeep : settings_file b = disk /\
    (absent "crop_top" disk -> crop_top_spin b = mkSpin 0 4000 0) /\
    (absent "crop_bottom" disk -> crop_bottom_spin b = mkSpin 0 4000 0) /\
    (absent "crop_left" disk -> crop_left_spin b = mkSpin 0 4000 0) /\
    (absent "crop_right" disk -> crop_right_spin b = mkSpin 0 4000 0) /\
    (absent "output_path" disk -> output_path b = JStr (home env)) /\
    (absent "quality" disk -> quality_spin b = mkSpin 0 63 30) /\
    (absent "bitrate" disk -> bitrate_spin b = mkSpin 0 50000 0));
    [ | exact (proj2 Hkeep) ].
  apply (load_settings_preserves env
           (fun s => settings_file s = disk /\
              (absent "crop_top" disk -> crop_top_spin s = mkSpin 0 4000 0) /\
              (absent "crop_bottom" disk -> crop_bottom_spin s = mkSpin 0 4000 0) /\
              (absent "crop_left" disk -> crop_left_spin s = mkSpin 0 4000 0) /\
              (absent "crop_right" disk -> crop_right_spin s = mkSpin 0 4000 0) /\
              (absent "output_path" disk -> output_path s = JStr (home env)) /\
              (absent "quality" disk -> quality_spin s = mkSpin 0 63 30) /\
              (absent "bitrate" disk -> bitrate_spin s = mkSpin 0 50000 0))
           disk);
    [ .. | repeat split; intros; reflexivity ].
  all: try (intros s [H _]; exact H).
  all: try (intros doc Hc; apply restore_source_preserves; intros c s H; exact H).
  all: try (intros ov s H; exact H).
  - intros doc z s -> Hz (Hf & H1 & H2 & H3 & H4 & H5 & H6 & H7).
    split; [ exact Hf | ]. cbn -[spin_set absent].
    refine (conj _ (conj H2 (conj H3 (conj H4 (conj H5 (conj H6 H7)))))).
    intros Ha. rewrite (H1 Ha). cbn [absent] in Ha. unfold field in Hz.
    rewrite Ha in Hz. injection Hz as <-. reflexivity.
  - intros doc z s -> Hz (Hf & H1 & H2 & H3 & H4 & H5 & H6 & H7).
    split; [ exact Hf | ]. cbn -[spin_set absent].
    refine (conj H1 (conj _ (conj H3 (conj H4 (conj H5 (conj H6 H7)))))).
    intros Ha. rewrite (H2 Ha). cbn [absent] in Ha. unfold field in Hz.
    rewrite Ha in Hz. injection Hz as <-. reflexivity.
  - intros doc z s -> Hz (Hf & H1 & H2 & H3 & H4 & H5 & H6 & H7).
    split; [ exact Hf | ]. cbn -[spin_set absent].
    refine (conj H1 (conj H2 (conj _ (conj H4 (conj H5 (conj H6 H7)))))).
    intros Ha. rewrite (H3 Ha). cbn [absent] in Ha. unfold field in Hz.
    rewrite Ha in Hz. injection Hz as <-. reflexivity.
  - intros doc z s -> Hz (Hf & H1 & H2 & H3 & H4 & H5 & H6 & H7).
    split; [ exact Hf | ]. cbn -[spin_set absent].
    refine (conj H1 (conj H2 (conj H3 (conj _ (conj H5 (conj H6 H7)))))).
    intros Ha. rewrite (H4 Ha). cbn [absent] in Ha. unfold field in Hz.
    rewrite Ha in Hz. injection Hz as <-. reflexivity.
  - intros doc z s -> Hz (Hf & H1 & H2 & H3 & H4 & H5 & H6 & H7).
    split; [ exact Hf | ]. cbn -[spin_set absent].
    refine (conj H1 (conj H2 (conj H3 (conj H4 (conj H5 (conj _ H7)))))).
    intros Ha. rewrite (H6 Ha). cbn [absent] in Ha. unfold field in Hz.
    rewrite Ha in Hz. injection Hz as <-. reflexivity.
  - intros doc z s -> Hz (Hf & H1 & H2 & H3 & H4 & H5 & H6 & H7).
    split; [ exact Hf | ]. cbn -[spin_set absent].
    refine (conj H1 (conj H2 (conj H3 (conj H4 (conj H5 (conj H6 _)))))).
    intros Ha. rewrite (H7 Ha). cbn [absent] in Ha. unfold field in Hz.
    rewrite Ha in Hz. injection Hz as <-. reflexivity.
  - intros doc s -> (Hf & H1 & H2 & H3 & H4 & H5 & H6 & H7).
    split; [ exact Hf | ]. cbn -[absent].
    refine (conj H1 (conj H2 (conj H3 (conj H4 (conj _ (conj H6 H7)))))).
    intros Ha. cbn [absent] in Ha. unfold field. rewrite Ha. reflexivity.
Qed.

(** C7, as stated, fails for the source: a saved file path that no longer
    exists when the settings are loaded is not restored. *)
Lemma saved_source_not_restored :
  let env := example_env in
  let a := set_current_source (Some "/videos/gone.mp4") (init_ui env None) in
  let saved := snd (save_settings env a) in
  let a' := snd (load_settings env (init_ui env (settings_file saved))) in
  current_source a = Some "/videos/gone.mp4" /\
  path_exists env "/videos/gone.mp4" = Ok false /\
  current_source a' = None.
Proof. vm_compute. repeat split; reflexivity. Qed.

(** C7, amended: after saving, loading into a window with the same widget
    ranges restores the four crop distances, the output folder, the quality
    and the bitrate; the saved source becomes the current source when it is
    a file that exists or a device found in the source combo box, and the
    current source is left as it was otherwise; loading never raises; in a
    new window every key absent from the settings file leaves its default
    (crop distances 0, output folder home, quality 30, bitrate 0). *)
Theorem settings_round_trip :
  forall env a a0,
    widget_bounds a -> widget_bounds a0 ->
    settings_writable env = true ->
    settings_file a0 = settings_file (snd (save_settings env a)) ->
    let a' := snd (load_settings env a0) in
    value (crop_top_spin a') = value (crop_top_spin a) /\
    value (crop_bottom_spin a') = value (crop_bottom_spin a) /\
    value (crop_left_spin a') = value (crop_left_spin a) /\
    value (crop_right_spin a') = value (crop_right_spin a) /\
    output_path a' = output_path a /\
    value (quality_spin a') = value (quality_spin a) /\
    value (bitrate_spin a') = value (bitrate_spin a) /\
    current_source a'
      = match current_source a with
        | Some saved => if restorable env a0 saved then Some saved else current_source a0
        | None => current_source a0
        end /\
    fst (load_settings env a0) = Ok tt /\
    (forall disk,
       let b := snd (load_settings env (init_ui env disk)) in
       fst (load_settings env (init_ui env disk)) = Ok tt /\
       (absent "crop_top" disk -> value (crop_top_spin b) = 0) /\
       (absent "crop_bottom" disk -> value (crop_bottom_spin b) = 0) /\
       (absent "crop_left" disk -> value (crop_left_spin b) = 0) /\
       (absent "crop_right" disk -> value (crop_right_spin b) = 0) /\
       (absent "output_path" disk -> output_path b = JStr (home env)) /\
       (absent "quality" disk -> value (quality_spin b) = 30) /\
       (absent "bitrate" disk -> value (bitrate_spin b) = 0)).
Proof.
  intros env a a0 Ha Ha0 Hw Hfile a'.
  rewrite (save_settings_run env a Hw) in Hfile. cbn [snd settings_file set_console_output
    set_settings_file] in Hfile.
  destruct Ha as ((_ & _ & V1) & (_ & _ & V2) & (_ & _ & V3) & (_ & _ & V4)
                  & (_ & _ & V5) & (_ & _ & V6)).
  unfold settings_dict in Hfile.
  match type of Hfile with _ = Some (Document (JObj ?l)) => set (doc := l) in * end.
  assert (Hsrc : truthy (field doc "source" JNull) = false
                 \/ exists saved, field doc "source" JNull = JStr saved).
  { unfold doc. cbn [field assoc String.eqb Ascii.eqb Bool.eqb].
    destruct (current_source a) as [saved|]; [ right; exists saved | left ]; reflexivity. }
  destruct (load_settings_typed env a0 doc
              (value (crop_top_spin a)) (value (crop_bottom_spin a))
              (value (crop_left_spin a)) (value (crop_right_spin a))
              (value (quality_spin a)) (value (bitrate_spin a)) Hfile
              ltac:(apply as_c_int_small; lia) ltac:(apply as_c_int_small; lia)
              ltac:(apply as_c_int_small; lia) ltac:(apply as_c_int_small; lia)
              ltac:(apply as_c_int_small; lia) ltac:(apply as_c_int_small; lia) Hsrc)
    as (E1 & E2 & E3 & E4 & E5 & E6 & E7 & E8 & _).
  fold a' in E1, E2, E3, E4, E5, E6, E7, E8.
  destruct Ha0 as ((M1 & X1 & _) & (M2 & X2 & _) & (M3 & X3 & _) & (M4 & X4 & _)
                   & (M5 & X5 & _) & (M6 & X6 & _)).
  rewrite E1, E2, E3, E4, E5, E6, E7, E8. unfold spin_set; cbn [value].
  rewrite !bound_in_range_id by lia.
  repeat (split; [ reflexivity | ]).
  split.
  { unfold doc. cbn [field assoc String.eqb Ascii.eqb Bool.eqb].
    destruct (current_source a); reflexivity. }
  split; [ apply load_settings_ok | ].
  intros disk.
  destruct (fresh_window_defaults env disk) as (D1 & D2 & D3 & D4 & D5 & D6 & D7).
  split; [ apply load_settings_ok | ].
  repeat split; intros Habs;
    first [ now rewrite (D1 Habs) | now rewrite (D2 Habs) | now rewrite (D3 Habs)
          | now rewrite (D4 Habs) | exact (D5 Habs) | now rewrite (D6 Habs)
          | now rewrite (D7 Habs) ].
Qed.

Lemma settings_round_trip_witness :
  let env := example_env in
  let a := example_app in
  let a0 := init_ui env (settings_file (snd (save_settings env a))) in
  let a' := snd (load_settings env a0) in
  value (crop_top_spin a') = value (crop_top_spin a) /\
  value (crop_bottom_spin a') = value (crop_bottom_spin a) /\
  value (crop_left_spin a') = value (crop_left_spin a) /\
  value (crop_right_spin a') = value (crop_right_spin a) /\
  output_path a' = output_path a /\
  value (quality_spin a') = value (quality_spin a) /\
  value (bitrate_spin a') = value (bitrate_spin a) /\
  current_source a'
    = match current_source a with
      | Some saved => if restorable env a0 saved then Some saved else current_source a0
      | None => current_source a0
      end /\
  fst (load_settings env a0) = Ok tt /\
  (forall disk,
     let b := snd (load_settings env (init_ui env disk)) in
     fst (load_settings env (init_ui env disk)) = Ok tt /\
     (absent "crop_top" disk -> value (crop_top_spin b) = 0) /\
     (absent "crop_bottom" disk -> value (crop_bottom_spin b) = 0) /\
     (absent "crop_left" disk -> value (crop_left_spin b) = 0) /\
     (absent "crop_right" disk -> value (crop_right_spin b) = 0) /\
     (absent "output_path" disk -> output_path b = JStr (home env)) /\
     (absent "quality" disk -> value (quality_spin b) = 30) /\
     (absent "bitrate" disk -> value (bitrate_spin b) = 0)).
Proof.
  intros env a a0.
  apply (settings_round_trip env a a0);
    [ unfold widget_bounds, spin_ok; cbn; lia
    | unfold widget_bounds, spin_ok; cbn; lia
    | reflexivity
    | reflexivity ].
Defined.

Example round_trip_example :
  let a0 := init_ui example_env (settings_file (snd (save_settings example_env example_app))) in
  let a' := snd (load_settings example_env a0) in
  value (crop_top_spin a') = 10 /\ value (crop_left_spin a') = 20 /\
  current_source a' = Some "/videos/in.mp4" /\ output_path a' = JStr "/home/user".
Proof. vm_compute. repeat split; reflexivity. Qed.

(** When the settings are loaded in [__init__] the source combo box has no
    item yet, so a saved device source is not restored at start-up. *)
Remark device_source_at_startup env doc saved :
  field doc "source" JNull = JStr saved -> is_device saved = true ->
  current_source (snd (load_settings env (init_ui env (Some (Document (JObj doc))))))
  = None.
Proof.
  intros Hsrc Hdev.
  assert (K : current_source
                (snd (load_settings env (init_ui env (Some (Document (JObj doc))))))
              = current_source (init_ui env (Some (Document (JObj doc))))).
  { apply (load_settings_preserves env
             (fun s => settings_file s = Some (Document (JObj doc)) /\
                       current_source s = None /\ source_combo s = new_combo)
             (Some (Document (JObj doc)))); [ .. | repeat split; reflexivity ].
    all: try (intros s [H _]; exact H).
    all: try (intros ? ? ? ? ? H; exact H).
    all: try (intros ? ? ? H; exact H).
    all: try (intros ? ? H; exact H).
    intros doc' Hdoc s Hs. injection Hdoc as <-. rewrite Hsrc.
    destruct (restore_source_str env saved s)
      as (_ & Hcur & Hsame & _ & _ & _ & _ & _ & _ & _ & _ & _ & Hfile' & _).
    destruct Hs as (H1 & H2 & Hcombo).
    assert (Hno : restorable env s saved = false).
    { apply dropped_not_restorable. right. split; [ exact Hdev | ].
      rewrite Hcombo. intros []. }
    destruct (Hsame Hno) as (S1 & S2). rewrite Hno in Hcur.
    repeat split; congruence. }
  exact K.
Qed.

(** * Further properties of the code *)

(** * The time label *)

Module TimeFacts.

Lemma string_of_uint_inj d d' :
  NilEmpty.string_of_uint d = NilEmpty.string_of_uint d' -> d = d'.
Proof.
  revert d'. induction d; intros d'; destruct d'; cbn; try discriminate;
    intros H; try reflexivity; injection H as H; f_equal; auto.
Qed.

Lemma string_of_pos p :
  NilZero.string_of_uint (Pos.to_uint p) = NilEmpty.string_of_uint (Pos.to_uint p).
Proof.
  pose proof (Unsigned.to_uint_nonnil p) as H.
  unfold NilZero.string_of_uint. destruct (Pos.to_uint p); [ contradiction | .. ]; reflexivity.
Qed.

Lemma uint_no_minus d s : NilEmpty.string_of_uint d <> String "-" s.
Proof. destruct d; cbn; discriminate. Qed.

Lemma str_of_int_inj a b : str_of_int a = str_of_int b -> a = b.
Proof.
  unfold str_of_int, NilZero.string_of_int.
  destruct a as [|p|p], b as [|q|q]; cbn [Z.to_int]; rewrite ?string_of_pos; intros H;
    try reflexivity;
    try (exfalso; apply (uint_no_minus _ _ H));
    try (exfalso; symmetry in H; apply (uint_no_minus _ _ H));
    try (exfalso; cbn in H; discriminate H).
  - exfalso. change (NilZero.string_of_uint (Decimal.D0 Decimal.Nil))
      with (NilEmpty.string_of_uint (Decimal.D0 Decimal.Nil)) in H.
    apply string_of_uint_inj in H. symmetry in H.
    exact (Unsigned.to_uint_nonzero _ H).
  - exfalso. change (NilZero.string_of_uint (Decimal.D0 Decimal.Nil))
      with (NilEmpty.string_of_uint (Decimal.D0 Decimal.Nil)) in H.
    apply string_of_uint_inj in H.
    exact (Unsigned.to_uint_nonzero _ H).
  - apply string_of_uint_inj, Unsigned.to_uint_inj in H. now subst.
  - injection H as H. apply string_of_uint_inj, Unsigned.to_uint_inj in H. now subst.
Qed.

(** A number outside 0..9 is not written as a zero followed by one digit. *)
Lemma str_of_int_not_padded z z' :
  0 <= z < 10 -> ~ 0 <= z' < 10 -> ("0" ++ str_of_int z)%string <> str_of_int z'.
Proof.
  intros Hz Hz' H.
  assert (Hd : exists d, ("0" ++ str_of_int z)%string
                         = NilEmpty.string_of_uint (Decimal.D0 d)
                         /\ (Pos.of_uint (Decimal.D0 d) < 10)%N).
  { unfold str_of_int, NilZero.string_of_int.
    destruct z as [|p|p]; cbn [Z.to_int]; [ | | lia ].
    - exists (Decimal.D0 Decimal.Nil). split; [ reflexivity | vm_compute; reflexivity ].
    - exists (Pos.to_uint p). rewrite string_of_pos. split; [ reflexivity | ].
      change (Pos.of_uint (Decimal.D0 (Pos.to_uint p))) with (Pos.of_uint (Pos.to_uint p)).
      rewrite Unsigned.of_to. lia. }
  destruct Hd as (d & E & Hsmall). rewrite E in H. clear E.
  unfold str_of_int, NilZero.string_of_int in H.
  destruct z' as [|p|p]; cbn [Z.to_int] in H.
  - lia.
  - rewrite string_of_pos in H. apply string_of_uint_inj in H.
    pose proof (Unsigned.of_to p) as Hp. rewrite <- H in Hp. rewrite Hp in Hsmall.
    lia.
  - exact (uint_no_minus _ _ H).
Qed.

Lemma format_02d_inj a b : format_02d a = format_02d b -> a = b.
Proof.
  unfold format_02d.
  destruct ((0 <=? a) && (a <? 10)) eqn:Ha, ((0 <=? b) && (b <? 10)) eqn:Hb; intros H.
  - injection H as H. now apply str_of_int_inj.
  - exfalso. apply (str_of_int_not_padded a b); [ | | exact H ]; lia.
  - exfalso. symmetry in H. apply (str_of_int_not_padded b a); [ | | exact H ]; lia.
  - now apply str_of_int_inj.
Qed.

Lemma format_02d_seconds s : 0 <= s < 60 -> String.length (format_02d s) = 2%nat.
Proof.
  intros Hs.
  assert (H : forallb (fun n => (String.length (format_02d (Z.of_nat n)) =? 2)%nat)
                      (seq 0 60) = true) by (vm_compute; reflexivity).
  rewrite forallb_forall in H. specialize (H (Z.to_nat s)).
  rewrite Z2Nat.id in H by lia. apply Nat.eqb_eq, H, in_seq. lia.
Qed.

(** Two texts with tails of the same length are equal part by part. *)
Lemma append_inv_tail s1 : forall s2 t1 t2,
  String.length t1 = String.length t2 ->
  (s1 ++ t1)%string = (s2 ++ t2)%string -> s1 = s2 /\ t1 = t2.
Proof.
  assert (Hlen : forall s t, String.length (s ++ t) = (String.length s + String.length t)%nat).
  { induction s as [|c s IH]; intros t; cbn; [ reflexivity | now rewrite IH ]. }
  induction s1 as [|c s1 IH]; intros s2 t1 t2 Hl H.
  - destruct s2 as [|c2 s2]; [ now split | exfalso ].
    cbn [append] in H. apply (f_equal String.length) in H.
    cbn [String.length] in H. rewrite Hlen in H. lia.
  - destruct s2 as [|c2 s2].
    + exfalso. cbn [append] in H. apply (f_equal String.length) in H.
      cbn [String.length] in H. rewrite Hlen in H. lia.
    + cbn [append] in H. injection H as -> H.
      destruct (IH _ _ _ Hl H) as [-> ->]. now split.
Qed.

Lemma numeric_time_text s : numeric s = true -> time_text s = true.
Proof.
  induction s as [|c s IH]; [ reflexivity | ].
  cbn [numeric time_text]. intros H. apply andb_prop in H. destruct H as [H1 H2].
  unfold time_char. rewrite H1, (IH H2). reflexivity.
Qed.

Lemma time_text_app s t : time_text (s ++ t) = time_text s && time_text t.
Proof.
  induction s as [|c s IH]; cbn [append time_text]; [ reflexivity | ].
  rewrite IH. apply andb_assoc.
Qed.

Lemma format_02d_time_text z : time_text (format_02d z) = true.
Proof.
  unfold format_02d. destruct ((0 <=? z) && (z <? 10));
    [ cbn [append time_text]; rewrite numeric_time_text by apply numeric_str_of_int;
      reflexivity
    | apply numeric_time_text, numeric_str_of_int ].
Qed.

Lemma format_time_text ms : time_text (format_time ms) = true.
Proof.
  unfold format_time. rewrite !time_text_app, !format_02d_time_text. reflexivity.
Qed.

(** Two texts without blanks are equal when they are equal once followed by
    a separator that starts with a blank. *)
Lemma time_text_split s1 : forall s2 t1 t2,
  time_text s1 = true -> time_text s2 = true ->
  (s1 ++ String " " t1)%string = (s2 ++ String " " t2)%string -> s1 = s2 /\ t1 = t2.
Proof.
  induction s1 as [|c s1 IH]; intros s2 t1 t2 H1 H2 H.
  - destruct s2 as [|c2 s2].
    + cbn [append] in H. injection H as ->. now split.
    + exfalso. cbn [append] in H. injection H as <- _.
      cbn [time_text] in H2. discriminate H2.
  - destruct s2 as [|c2 s2].
    + exfalso. cbn [append] in H. injection H as -> _.
      cbn [time_text] in H1. discriminate H1.
    + cbn [append] in H. injection H as -> H.
      cbn [time_text] in H1, H2.
      apply andb_prop in H1. apply andb_prop in H2.
      destruct (IH _ _ _ (proj2 H1) (proj2 H2) H) as [-> ->]. now split.
Qed.

Lemma format_time_inj a b : format_time a = format_time b -> a / 1000 = b / 1000.
Proof.
  unfold format_time. intros H.
  apply append_inv_tail in H.
  - destruct H as [Hm Hs]. injection Hs as Hs.
    apply format_02d_inj in Hm. apply format_02d_inj in Hs.
    rewrite (Z.div_mod (a / 1000) 60), (Z.div_mod (b / 1000) 60) by lia.
    rewrite Hm, Hs. reflexivity.
  - cbn [append String.length].
    rewrite !format_02d_seconds by (apply Z.mod_pos_bound; lia). reflexivity.
Qed.

End TimeFacts.

Import TimeFacts.

(** X1: the time label is [MM:SS / MM:SS] made of the whole seconds of the
    position and of the duration: the minutes are [ms // 60000], the seconds
    field always has two digits, and the label changes exactly when one of
    the two values reaches another whole second. *)
Theorem time_label_shows_whole_seconds :
  forall position duration position' duration',
    (update_time_label position duration = update_time_label position' duration'
     <-> position / 1000 = position' / 1000 /\ duration / 1000 = duration' / 1000) /\
    format_time position
    = (format_02d (position / 60000) ++ ":" ++ format_02d ((position / 1000) mod 60))%string /\
    0 <= (position / 1000) mod 60 < 60 /\
    String.length (format_02d ((position / 1000) mod 60)) = 2%nat /\
    (0 <= position / 60000 < 10 ->
     format_02d (position / 60000) = ("0" ++ str_of_int (position / 60000))%string).
Proof.
  intros p d p' d'.
  assert (Hs : 0 <= (p / 1000) mod 60 < 60) by (apply Z.mod_pos_bound; lia).
  split; [ | split; [ | split; [ exact Hs | split ] ] ].
  - split.
    + unfold update_time_label. intros H.
      change (" / " ++ format_time d)%string with (String " " ("/ " ++ format_time d)) in H.
      change (" / " ++ format_time d')%string with (String " " ("/ " ++ format_time d')) in H.
      apply time_text_split in H; try apply format_time_text.
      destruct H as [Hp Hd]. injection Hd as Hd.
      split; apply format_time_inj; assumption.
    + intros [Hp Hd]. unfold update_time_label, format_time. rewrite Hp, Hd. reflexivity.
  - unfold format_time. rewrite Z.div_div by lia. reflexivity.
  - apply format_02d_seconds. exact Hs.
  - intros H. unfold format_02d.
    destruct (Z.leb_spec 0 (p / 60000)); [ | lia ].
    destruct (Z.ltb_spec (p / 60000) 10); [ reflexivity | lia ].
Qed.

Example time_label_example :
  update_time_label 61500 3599999 = "01:01 / 59:59" /\
  update_time_label 0 0 = "00:00 / 00:00" /\
  format_time 6000000 = "100:00" /\ format_time (-1) = "-1:59".
Proof. vm_compute. repeat split; reflexivity. Qed.

(** * Starting and ending a conversion *)

Module ConversionFacts.

Lemma set_console_output_same a : set_console_output (console_output a ++ []) a = a.
Proof. destruct a. cbn. rewrite app_nil_r. reflexivity. Qed.

(** The builder changes nothing but the console. *)
Lemma build_ffmpeg_command_state env a :
  snd (build_ffmpeg_command env a)
  = set_console_output (console_output a ++ builder_log env a) a.
Proof.
  unfold build_ffmpeg_command, builder_log, bind, get.
  destruct (current_source a) as [source|];
    [ | cbn; symmetry; apply set_console_output_same ].
  cbn [ret]. unfold input_args.
  assert (Hafter : forall cmd,
    snd (build_after_input env source (is_device source) cmd a) =
    set_console_output
      (console_output a
       ++ (if is_device source
           then ["Note: Device recording limited to 30 seconds"] else [])
       ++ match output_path a with
          | JStr folder =>
              match path_exists env (output_file env a source folder) with
              | Ok true => [("Warning: Output file will be overwritten: "
                             ++ output_file env a source folder)%string]
              | _ => []
              end
          | _ => []
          end) a).
  { intros cmd.
    unfold build_after_input, output_file, bind, get, ret, raise, lift, when, log_console,
      modify.
    destruct (any _), (lower (currentText (video_codec_combo a)) =? "vp9")%string,
      (0 <? value (bitrate_spin a)),
      (lower (currentText (audio_codec_combo a)) =? "opus")%string,
      (is_device source);
      cbn [negb output_path set_console_output console_output];
      destruct (output_path a);
      cbn [snd app];
      try match goal with
          | |- context [path_exists env ?f] => destruct (path_exists env f) as [[|]|e]
          end;
      cbn [snd app console_output set_console_output]; rewrite <- ?app_assoc, ?app_nil_r;
      try reflexivity; destruct a; reflexivity. }
  destruct (startswith (sys_platform env) "linux" && startswith source "/dev/");
    [ apply Hafter | ].
  destruct (startswith (sys_platform env) "win" && startswith source "video=");
    [ apply Hafter | ].
  unfold lift. destruct (path_exists env source) as [[|]|e]; cbn [negb];
    [ apply Hafter | reflexivity | ].
  cbn [snd]. symmetry. apply set_console_output_same.
Qed.

Lemma deliver_progress env output : forall a,
  deliver_all (map (fun line => progress (str_strip env line)) output) a
  = (Ok tt, set_console_output (console_output a ++ map (str_strip env) output) a).
Proof.
  induction output as [|line output IH]; intros a.
  - cbn. rewrite set_console_output_same. reflexivity.
  - cbn [map deliver_all deliver]. unfold bind, log_console, modify at 1.
    rewrite IH. cbn [console_output set_console_output]. rewrite <- app_assoc. reflexivity.
Qed.

Lemma deliver_all_app ss1 ss2 a s1 :
  deliver_all ss1 a = (Ok tt, s1) -> deliver_all (ss1 ++ ss2) a = deliver_all ss2 s1.
Proof.
  revert a. induction ss1 as [|s ss1 IH]; intros a H.
  - cbn in H. injection H as <-. reflexivity.
  - cbn [app deliver_all] in *. unfold bind in *.
    destruct (deliver s a) as [[[]|e] a1]; [ | discriminate ].
    now apply IH.
Qed.

End ConversionFacts.

Import ConversionFacts.

(** X2: [build_ffmpeg_command] changes nothing in the window but the
    console, to which it appends at most the note on the 30 second limit of
    a device recording and the warning that the output file exists (or the
    "File not found" error); the spin boxes, the source, the output folder
    and the conversion state are as before, whether it returns or raises. *)
Theorem builder_only_writes_console :
  forall env a,
    let a' := snd (build_ffmpeg_command env a) in
    a' = set_console_output (console_output a ++ builder_log env a) a /\
    (List.length (builder_log env a) <= 2)%nat /\
    (forall source input folder,
       current_source a = Some source -> input_args env source = Some input ->
       output_path a = JStr folder ->
       (In "Note: Device recording limited to 30 seconds" (builder_log env a)
        <-> is_device source = true) /\
       (In ("Warning: Output file will be overwritten: "
            ++ output_file env a source folder)%string (builder_log env a)
        <-> path_exists env (output_file env a source folder) = Ok true)).
Proof.
  intros env a a'. split; [ apply build_ffmpeg_command_state | split ].
  - unfold builder_log.
    destruct (current_source a) as [source|]; [ | cbn; lia ].
    destruct (input_args env source);
      [ | destruct (path_exists env source); cbn; lia ].
    destruct (is_device source), (output_path a); cbn; try lia;
      match goal with
      | |- context [path_exists env ?f] => destruct (path_exists env f) as [[|]|e]
      end;
      cbn; lia.
  - intros source input folder Hs Hi Ho. unfold builder_log. rewrite Hs, Hi, Ho.
    destruct (is_device source),
      (path_exists env (output_file env a source folder)) as [[|]|e];
      cbn [app In]; split; split; intros H;
      try reflexivity; try discriminate; auto;
      repeat (destruct H as [H|H]; try discriminate H; try contradiction);
      contradiction.
Qed.

(** X3: [start_conversion] starts a conversion exactly when the builder
    returns a command.  Without a source it only logs an error.  With one,
    and a string as output folder: when the input is a file whose existence
    check answers no, it logs "File not found" and leaves the conversion
    state untouched; when that check raises, the exception escapes and
    nothing has changed; when there is an input and the existence check
    of the output file answers, the thread gets the built command, the
    window is marked as converting and the console ends with "Starting
    conversion..." and the command joined with blanks; when that check
    raises, the exception escapes, the console holds at most the note of
    the builder and no conversion is started. *)
Theorem start_conversion_runs_built_command :
  forall env a,
    let a' := snd (start_conversion env a) in
    (current_source a = None \/ current_source a = Some "" ->
     fst (start_conversion env a) = Ok tt /\
     a' = set_console_output (console_output a ++ ["Error: No source selected"]) a) /\
    (forall source folder,
       current_source a = Some source -> source <> "" -> output_path a = JStr folder ->
       match input_args env source with
       | None =>
           match path_exists env source with
           | Ok _ =>
               fst (start_conversion env a) = Ok tt /\
               a' = set_console_output
                      (console_output a ++ [("Error: File not found: " ++ source)%string]) a
           | Raise e => start_conversion env a = (Raise e, a)
           end
       | Some input =>
           let cmd := ["ffmpeg"; "-y"] ++ input ++ options a (is_device source)
                      ++ [output_file env a source folder] in
           match path_exists env (output_file env a source folder) with
           | Ok _ =>
               fst (start_conversion env a) = Ok tt /\
               fst (build_ffmpeg_command env a) = Ok (Some cmd) /\
               a' = set_conversion_thread (Some cmd)
                      (set_is_converting true
                         (set_console_output
                            (console_output a ++ builder_log env a
                             ++ ["Starting conversion...";
                                 ("Command: " ++ String.concat " " cmd)%string]) a))
           | Raise e =>
               fst (start_conversion env a) = Raise e /\
               a' = set_console_output
                      (console_output a
                       ++ (if is_device source
                           then ["Note: Device recording limited to 30 seconds"]
                           else [])) a
           end
       end).
Proof.
  intros env a a'. subst a'. split.
  - intros [H|H]; unfold start_conversion, bind, get; rewrite H; split; reflexivity.
  - intros source folder Hs Hne Ho.
    pose proof (build_ffmpeg_command_result env a) as R. rewrite Hs, Ho in R.
    pose proof (build_ffmpeg_command_state env a) as St.
    unfold builder_log in St. rewrite Hs, Ho in St.
    unfold start_conversion, bind, get. rewrite Hs.
    destruct source as [|c source]; [ congruence | ].
    destruct (input_args env (String c source)) as [input|] eqn:Hi.
    + destruct (path_exists env (output_file env a (String c source) folder))
        as [found|e] eqn:He.
      * destruct (build_ffmpeg_command env a) as [r s1]. cbn [fst snd] in R, St.
        subst r s1.
        cbn -[String.concat options output_file builder_log].
        split; [ reflexivity | split; [ reflexivity | ] ].
        unfold log_console, modify, builder_log. rewrite Hs, Hi, Ho, He.
        cbn -[String.concat options output_file].
        rewrite <- !app_assoc. reflexivity.
      * destruct (build_ffmpeg_command env a) as [r s1]. cbn [fst snd] in R, St.
        subst r s1. cbn [fst snd]. rewrite app_nil_r. split; reflexivity.
    + destruct (path_exists env (String c source)) as [found|e] eqn:He.
      * destruct (build_ffmpeg_command env a) as [r s1]. cbn [fst snd] in R, St.
        subst r s1. cbn. split; reflexivity.
      * destruct (build_ffmpeg_command env a) as [r s1]. cbn [fst snd] in R, St.
        subst r s1. cbn [fst snd]. rewrite set_console_output_same. reflexivity.
Qed.

(** X4: once the signals of a conversion thread are delivered, the console
    shows the text of every signal in order (the stripped lines of the
    encoder, then the final message) and the window is no longer marked as
    converting, however the process ended; nothing else changes and no slot
    raises. *)
Theorem conversion_run_ends_idle :
  forall env p a,
    let signals := ConversionThread_run env p in
    deliver_all signals a
    = (Ok tt, set_is_converting false
                (set_console_output (console_output a ++ map signal_text signals) a)) /\
    is_converting (snd (deliver_all signals a)) = false /\
    (exists output success message,
       signals = map (fun line => progress (str_strip env line)) output
                 ++ [finished success message] /\
       map signal_text signals = map (str_strip env) output ++ [message]).
Proof.
  intros env p a signals.
  assert (Hshape : exists output success message,
            signals = map (fun line => progress (str_strip env line)) output
                      ++ [finished success message]).
  { unfold signals, ConversionThread_run, report.
    destruct p as [output e|output c]; [ eexists _, _, _; reflexivity | ].
    destruct (c =? 0); [ eexists _, _, _; reflexivity | ].
    destruct (c =? -15); eexists _, _, _; reflexivity. }
  destruct Hshape as (output & success & message & E).
  assert (Htext : map signal_text signals = map (str_strip env) output ++ [message]).
  { rewrite E, map_app, map_map. reflexivity. }
  assert (Hrun : deliver_all signals a
    = (Ok tt, set_is_converting false
                (set_console_output (console_output a ++ map signal_text signals) a))).
  { rewrite Htext, E.
    rewrite (deliver_all_app _ _ _ _ (deliver_progress env output a)).
    cbn. rewrite <- app_assoc. reflexivity. }
  split; [ exact Hrun | split ].
  - rewrite Hrun. reflexivity.
  - exists output, success, message. split; assumption.
Qed.

Example conversion_run_example :
  let a := set_is_converting true example_app in
  let a' := snd (deliver_all (ConversionThread_run example_env
                                (Exits ["frame=1"; "frame=2"] 1)) a) in
  console_output a' = ["frame=1"; "frame=2"; "Conversion failed with code 1"] /\
  is_converting a' = false.
Proof. vm_compute. split; reflexivity. Qed.

(** * More on the built command *)

Module CommandFacts.

(** The values of a flag among the options, segment by segment, for a flag
    that is none of the option values. *)
Lemma options_values_split a dev flag :
  (crop_filter (value (crop_top_spin a)) (value (crop_bottom_spin a))
               (value (crop_left_spin a)) (value (crop_right_spin a)) =? flag)%string = false ->
  ("2" =? flag)%string = false -> ("libvpx" =? flag)%string = false ->
  (str_of_int (value (bitrate_spin a)) ++ "k" =? flag)%string = false ->
  (str_of_int (value (quality_spin a)) =? flag)%string = false ->
  ("0" =? flag)%string = false -> ("128k" =? flag)%string = false ->
  ("webm" =? flag)%string = false ->
  values_of flag (options a dev)
  = values_of flag (crop_args a) ++ values_of flag (video_args a)
    ++ values_of flag (rate_args a) ++ values_of flag (audio_args a)
    ++ values_of flag ["-f"; "webm"] ++ values_of flag (duration_args dev).
Proof.
  intros Hc H2 Hl Hb Hq H0 H128 Hw. unfold options.
  assert (E : forall rest,
            values_of flag (crop_args a ++ rest)
            = values_of flag (crop_args a) ++ values_of flag rest).
  { intros rest. unfold crop_args.
    destruct (any _); [ apply values_of_app; exact Hc | reflexivity ]. }
  rewrite E. clear E. f_equal.
  rewrite (values_of_app flag (video_args a)).
  2:{ unfold video_args. destruct (is_vp9 a); assumption. }
  f_equal.
  rewrite (values_of_app flag (rate_args a)).
  2:{ unfold rate_args. destruct (0 <? value (bitrate_spin a)); [ exact Hb | ].
      destruct (is_vp9 a); assumption. }
  f_equal.
  rewrite (values_of_app flag (audio_args a)).
  2:{ unfold audio_args.
      destruct (lower (currentText (audio_codec_combo a)) =? "opus")%string; exact H128. }
  f_equal.
  apply (values_of_app flag ["-f"; "webm"]). exact Hw.
Qed.

Ltac value_tests a :=
  first [ reflexivity
        | apply eqb_last_char; rewrite last_char_app; discriminate
        | apply eqb_numeric; [ apply numeric_str_of_int | reflexivity ] ].

(** The values of the codec, container and duration flags. *)
Lemma options_fixed_values a dev :
  values_of "-c:v" (options a dev) = [if is_vp9 a then "libvpx-vp9" else "libvpx"] /\
  values_of "-c:a" (options a dev)
    = [if (lower (currentText (audio_codec_combo a)) =? "opus")%string
       then "libopus" else "libvorbis"] /\
  values_of "-b:a" (options a dev) = ["128k"] /\
  values_of "-f" (options a dev) = ["webm"] /\
  values_of "-t" (options a dev) = (if dev then ["30"] else []) /\
  values_of "-row-mt" (options a dev) = (if is_vp9 a then ["1"] else []) /\
  values_of "-tile-columns" (options a dev) = (if is_vp9 a then ["2"] else []).
Proof.
  repeat split; rewrite options_values_split by value_tests a;
    unfold crop_args, video_args, rate_args, audio_args, duration_args;
    destruct (any _), (is_vp9 a), (0 <? value (bitrate_spin a)),
      (lower (currentText (audio_codec_combo a)) =? "opus")%string, dev;
    cbn [app values_of];
    repeat match goal with
           | |- context [(?s =? ?f)%string] =>
               let H := fresh in
               assert (H : (s =? f)%string = false) by value_tests a;
               rewrite H; clear H
           end;
    reflexivity.
Qed.

End CommandFacts.

Import CommandFacts.

(** X5: every built command names one video and one audio encoder and the
    WebM container: [-c:v libvpx-vp9] with [-row-mt 1 -tile-columns 2] when
    the video codec box reads VP9 in any letter case and [-c:v libvpx]
    otherwise, [-c:a libopus] for Opus and [-c:a libvorbis] otherwise, the
    audio bitrate [128k] and [-f webm]; a recording from a device, and only
    a recording from a device, is limited by [-t 30] and is written to
    [capture_cropped.webm] in the output folder, while a file is written to
    its own stem followed by [_cropped.webm]. *)
Theorem built_command_codecs_and_limit :
  forall env a cmd s',
    build_ffmpeg_command env a = (Ok (Some cmd), s') ->
    exists source input folder,
      current_source a = Some source /\ input_args env source = Some input /\
      output_path a = JStr folder /\
      cmd = ["ffmpeg"; "-y"] ++ input ++ options a (is_device source)
            ++ [output_file env a source folder] /\
      let opts := options a (is_device source) in
      values_of "-c:v" opts = [if is_vp9 a then "libvpx-vp9" else "libvpx"] /\
      values_of "-row-mt" opts = (if is_vp9 a then ["1"] else []) /\
      values_of "-tile-columns" opts = (if is_vp9 a then ["2"] else []) /\
      is_vp9 a = (lower (currentText (video_codec_combo a)) =? "vp9")%string /\
      values_of "-c:a" opts
        = [if (lower (currentText (audio_codec_combo a)) =? "opus")%string
           then "libopus" else "libvorbis"] /\
      values_of "-b:a" opts = ["128k"] /\
      values_of "-f" opts = ["webm"] /\
      values_of "-t" opts = (if is_device source then ["30"] else []) /\
      output_file env a source folder
      = path_join env folder
          ((if is_device source then "capture" else path_stem env source)
           ++ "_cropped.webm")%string /\
      last cmd "" = output_file env a source folder.
Proof.
  intros env a cmd s' H.
  destruct (build_some env a cmd s' H) as (source & input & folder & Hs & Hi & Ho & Hc).
  exists source, input, folder.
  destruct (options_fixed_values a (is_device source)) as (V1 & V2 & V3 & V4 & V5 & V6 & V7).
  repeat (split; [ assumption || reflexivity | ]).
  split.
  - unfold output_file. destruct (is_device source); reflexivity.
  - rewrite Hc. rewrite !app_assoc. apply last_last.
Qed.

Lemma built_command_codecs_and_limit_witness :
  exists source input folder,
    current_source example_app = Some source /\
    input_args example_env source = Some input /\
    output_path example_app = JStr folder /\
    example_cmd = ["ffmpeg"; "-y"] ++ input ++ options example_app (is_device source)
                  ++ [output_file example_env example_app source folder] /\
    let opts := options example_app (is_device source) in
    values_of "-c:v" opts = [if is_vp9 example_app then "libvpx-vp9" else "libvpx"] /\
    values_of "-row-mt" opts = (if is_vp9 example_app then ["1"] else []) /\
    values_of "-tile-columns" opts = (if is_vp9 example_app then ["2"] else []) /\
    is_vp9 example_app
    = (lower (currentText (video_codec_combo example_app)) =? "vp9")%string /\
    values_of "-c:a" opts
      = [if (lower (currentText (audio_codec_combo example_app)) =? "opus")%string
         then "libopus" else "libvorbis"] /\
    values_of "-b:a" opts = ["128k"] /\
    values_of "-f" opts = ["webm"] /\
    values_of "-t" opts = (if is_device source then ["30"] else []) /\
    output_file example_env example_app source folder
    = path_join example_env folder
        ((if is_device source then "capture" else path_stem example_env source)
         ++ "_cropped.webm")%string /\
    last example_cmd "" = output_file example_env example_app source folder.
Proof.
  apply (built_command_codecs_and_limit example_env example_app example_cmd
           (snd (build_ffmpeg_command example_env example_app))).
  vm_compute. reflexivity.
Defined.

(** * More on the settings store *)

(** X6: a settings file that is missing changes nothing and logs nothing; one
    that cannot be read, cannot be parsed, or holds anything but a JSON
    object changes nothing else than the console, which gets one line
    "Error loading settings: ..." with the text of the exception (OSError,
    JSONDecodeError, AttributeError); [load_settings] itself never raises. *)
Theorem load_settings_reports_unusable_file :
  forall env a,
    let failed e :=
      (Ok tt, set_console_output
                (console_output a ++ [("Error loading settings: " ++ exn_str env e)%string]) a) in
    fst (load_settings env a) = Ok tt /\
    (settings_file a = None -> load_settings env a = (Ok tt, a)) /\
    (settings_file a = Some Unreadable -> load_settings env a = failed OSError) /\
    (settings_file a = Some Unparsable -> load_settings env a = failed JSONDecodeError) /\
    (forall j, settings_file a = Some (Document j) ->
               (forall doc, j <> JObj doc) -> load_settings env a = failed AttributeError).
Proof.
  intros env a failed. split; [ apply load_settings_ok | ].
  unfold failed, load_settings, try_except, load_settings_body, bind, get.
  repeat split.
  - intros ->. reflexivity.
  - intros ->. reflexivity.
  - intros ->. reflexivity.
  - intros j -> Hj. destruct j as [| | | | | |doc]; try reflexivity.
    exfalso. now apply (Hj doc).
Qed.

(** X7: loading is not atomic.  When the crop distances, the output folder
    and the quality of the document are applied and the bitrate is not an
    integer that fits a C int, the load stops there: the earlier values stay
    loaded, the bitrate and the source are left as they were, "Settings
    loaded" is not logged and the console gets the error line instead. *)
Theorem load_stops_at_ill_typed_bitrate :
  forall env a doc t b l r q e,
    settings_file a = Some (Document (JObj doc)) ->
    as_c_int (field doc "crop_top" (JInt 0)) = Ok t ->
    as_c_int (field doc "crop_bottom" (JInt 0)) = Ok b ->
    as_c_int (field doc "crop_left" (JInt 0)) = Ok l ->
    as_c_int (field doc "crop_right" (JInt 0)) = Ok r ->
    as_c_int (field doc "quality" (JInt 30)) = Ok q ->
    as_c_int (field doc "bitrate" (JInt 0)) = Raise e ->
    let a' := snd (load_settings env a) in
    fst (load_settings env a) = Ok tt /\
    crop_top_spin a' = spin_set t (crop_top_spin a) /\
    crop_bottom_spin a' = spin_set b (crop_bottom_spin a) /\
    crop_left_spin a' = spin_set l (crop_left_spin a) /\
    crop_right_spin a' = spin_set r (crop_right_spin a) /\
    output_path a' = field doc "output_path" (JStr (home env)) /\
    quality_spin a' = spin_set q (quality_spin a) /\
    bitrate_spin a' = bitrate_spin a /\
    current_source a' = current_source a /\
    is_device_source a' = is_device_source a /\
    source_combo a' = source_combo a /\
    console_output a'
    = console_output a ++ [("Error loading settings: " ++ exn_str env e)%string] /\
    (e = TypeError \/ e = OverflowError).
Proof.
  intros env a doc t b l r q e Hfile Ht Hb Hl Hr Hq Hbr a'.
  split; [ apply load_settings_ok | ].
  assert (He : e = TypeError \/ e = OverflowError).
  { unfold as_c_int in Hbr. destruct (field doc "bitrate" (JInt 0)); try discriminate;
      try (injection Hbr as <-; now left).
    destruct ((- 2 ^ 31 <=? z) && (z <? 2 ^ 31)); [ discriminate | ].
    injection Hbr as <-. now right. }
  assert (Hbody : load_settings_body env a
    = (Raise e,
       let s1 := set_crop_top_spin (spin_set t (crop_top_spin a)) a in
       let s1 := set_crop_overlay
                   (overlay_after (value (crop_top_spin a)) (value (crop_top_spin s1)) s1) s1 in
       let s2 := set_crop_bottom_spin (spin_set b (crop_bottom_spin s1)) s1 in
       let s2 := set_crop_overlay
                   (overlay_after (value (crop_bottom_spin s1)) (value (crop_bottom_spin s2)) s2)
                   s2 in
       let s3 := set_crop_left_spin (spin_set l (crop_left_spin s2)) s2 in
       let s3 := set_crop_overlay
                   (overlay_after (value (crop_left_spin s2)) (value (crop_left_spin s3)) s3)
                   s3 in
       let s4 := set_crop_right_spin (spin_set r (crop_right_spin s3)) s3 in
       let s4 := set_crop_overlay
                   (overlay_after (value (crop_right_spin s3)) (value (crop_right_spin s4)) s4)
                   s4 in
       let s5 := set_output_path (field doc "output_path" (JStr (home env))) s4 in
       set_quality_spin (spin_set q (quality_spin s5)) s5)).
  { unfold load_settings_body.
    run_step. rewrite Hfile. run_step.
    rewrite !dict_get_obj.
    do 13 run_step.
    unfold bitrate_spin_setValue, setValue. unfold bind at 1. unfold lift. rewrite Hbr.
    reflexivity. }
  subst a'. unfold load_settings, try_except. rewrite Hbody.
  cbn -[spin_set overlay_after field].
  repeat split; try reflexivity. exact He.
Qed.

Lemma load_stops_at_ill_typed_bitrate_witness :
  let env := example_env in
  let doc := [("crop_top", JInt 10); ("bitrate", JStr "2000");
              ("source", JStr "/videos/in.mp4")] in
  let a := init_ui env (Some (Document (JObj doc))) in
  let a' := snd (load_settings env a) in
  fst (load_settings env a) = Ok tt /\
  crop_top_spin a' = spin_set 10 (crop_top_spin a) /\
  crop_bottom_spin a' = spin_set 0 (crop_bottom_spin a) /\
  crop_left_spin a' = spin_set 0 (crop_left_spin a) /\
  crop_right_spin a' = spin_set 0 (crop_right_spin a) /\
  output_path a' = field doc "output_path" (JStr (home env)) /\
  quality_spin a' = spin_set 30 (quality_spin a) /\
  bitrate_spin a' = bitrate_spin a /\
  current_source a' = current_source a /\
  is_device_source a' = is_device_source a /\
  source_combo a' = source_combo a /\
  console_output a'
  = console_output a ++ [("Error loading settings: " ++ exn_str env TypeError)%string] /\
  (TypeError = TypeError \/ TypeError = OverflowError).
Proof.
  intros env doc a.
  apply (load_stops_at_ill_typed_bitrate env a doc 10 0 0 0 30 TypeError); reflexivity.
Defined.

(** X8: [save_settings] never raises.  When the file is written it holds
    afterwards the eight keys with the current values and the console gets
    "Settings saved".  When the save fails the console gets "Error saving
    settings: ..." instead and no other attribute changes; the file is as
    it was only if it could not be opened: a write that fails after [open]
    has truncated the file leaves what was written so far, whatever the
    file held before, and a start-up that cannot parse that file logs an
    error and keeps the defaults. *)
Theorem save_settings_writes_or_reports :
  forall env a,
    let failed file :=
      set_console_output
        (console_output a ++ [("Error saving settings: " ++ exn_str env OSError)%string])
        (set_settings_file file a) in
    fst (save_settings env a) = Ok tt /\
    (settings_writable env = true ->
     snd (save_settings env a)
     = set_console_output (console_output a ++ ["Settings saved"])
         (set_settings_file (Some (Document (settings_dict a))) a)) /\
    (settings_writable env = false -> settings_failure env = NotOpened ->
     snd (save_settings env a) = failed (settings_file a)) /\
    (forall content,
       settings_writable env = false -> settings_failure env = Torn content ->
       snd (save_settings env a) = failed (Some content) /\
       (content = Unparsable ->
        load_settings env (init_ui env (settings_file (snd (save_settings env a))))
        = (Ok tt,
           set_console_output
             [("Error loading settings: " ++ exn_str env JSONDecodeError)%string]
             (init_ui env (Some Unparsable))))) /\
    (exists doc, settings_dict a = JObj doc /\
       map fst doc = ["crop_top"; "crop_bottom"; "crop_left"; "crop_right";
                      "output_path"; "source"; "quality"; "bitrate"] /\
       field doc "crop_top" JNull = JInt (value (crop_top_spin a)) /\
       field doc "crop_bottom" JNull = JInt (value (crop_bottom_spin a)) /\
       field doc "crop_left" JNull = JInt (value (crop_left_spin a)) /\
       field doc "crop_right" JNull = JInt (value (crop_right_spin a)) /\
       field doc "output_path" JNull = output_path a /\
       field doc "source" JNull
       = match current_source a with Some s => JStr s | None => JNull end /\
       field doc "quality" JNull = JInt (value (quality_spin a)) /\
       field doc "bitrate" JNull = JInt (value (bitrate_spin a))).
Proof.
  intros env a failed.
  split; [ apply save_settings_ok | split; [ | split; [ | split ] ] ].
  - intros Hw. rewrite (save_settings_run env a Hw). reflexivity.
  - intros Hw Hf. unfold failed, save_settings, try_except, save_settings_body, bind, get,
      raise.
    rewrite Hw, Hf. cbn [snd log_console modify]. destruct a; reflexivity.
  - intros content Hw Hf.
    assert (E : snd (save_settings env a) = failed (Some content)).
    { unfold failed, save_settings, try_except, save_settings_body, bind, get, raise.
      rewrite Hw, Hf. reflexivity. }
    split; [ exact E | ].
    intros ->. rewrite E. reflexivity.
  - eexists. split; [ reflexivity | ]. repeat split; reflexivity.
Qed.

Example torn_save_example :
  let env := mkEnv "linux" (fun _ => Ok false) (fun _ => "in") (fun _ => "in.mp4")
                   (fun a b => (a ++ "/" ++ b)%string) "/home/user"
                   (fun _ => "No space left on device") (fun s => s)
                   false (Torn Unparsable) 800 450 in
  let a := set_settings_file (Some (Document (settings_dict example_app))) example_app in
  let a' := snd (save_settings env a) in
  settings_file a' = Some Unparsable /\
  console_output a' = ["Error saving settings: No space left on device"] /\
  value (crop_top_spin (snd (load_settings env (init_ui env (settings_file a'))))) = 0.
Proof. vm_compute. repeat split; reflexivity. Qed.

Module StartupLoadFacts.

(** The load of [__init__] finds the source combo box empty and leaves it
    and the device flag alone. *)
Lemma startup_load_flag :
  forall env disk,
    let a := snd (load_settings env (init_ui env disk)) in
    source_combo a = new_combo /\ is_device_source a = false.
Proof.
  intros env disk a.
  set (P := fun s : App =>
    settings_file s = disk /\ source_combo s = new_combo /\ is_device_source s = false).
  assert (H : P a); [ | exact (proj2 H) ].
  apply (load_settings_preserves env P disk);
    [ .. | unfold P; repeat split; reflexivity ].
  all: try (intros s [H _]; exact H).
  all: try (intros ? ? ? ? ? H; exact H).
  all: try (intros ? ? ? H; exact H).
  all: try (intros ? ? H; exact H).
  intros doc Hdoc s (Hf & Hc & Hd).
  unfold restore_source.
  destruct (field doc "source" JNull) as [| | | |saved| |];
    cbn [truthy];
    try (repeat split; assumption);
    try (match goal with |- context [if ?c then _ else _] => destruct c end;
         cbn; repeat split; assumption).
  destruct (String.eqb_spec saved "") as [->|Hne]; cbn [negb];
    [ repeat split; assumption | ].
  unfold bind, ret, get, modify, lift. cbn [fst snd].
  destruct (is_device saved).
  - cbn [source_combo set_source_signals_blocked]. rewrite Hc. cbn.
    repeat split; assumption.
  - destruct (path_exists env saved) as [[|]|e];
      [ | cbn; repeat split; assumption | cbn; repeat split; assumption ].
    cbn. rewrite Hc. repeat split; assumption || reflexivity.
Qed.

End StartupLoadFacts.

Import StartupLoadFacts.

(** X9: when [__init__] loads the settings the source combo box has no item
    yet.  So whatever the settings file holds, the load leaves the combo box
    empty and the device flag unset, and the only source it can restore is
    a file that exists: never a device, never the empty string. *)
Theorem startup_load_restores_existing_file_only :
  forall env disk,
    let a := snd (load_settings env (init_ui env disk)) in
    source_combo a = new_combo /\
    is_device_source a = false /\
    (current_source a = None \/
     exists saved, current_source a = Some saved /\ saved <> "" /\
                   is_device saved = false /\ path_exists env saved = Ok true /\
                   exists doc, disk = Some (Document (JObj doc)) /\
                               field doc "source" JNull = JStr saved).
Proof.
  intros env disk a.
  set (P := fun s : App =>
    settings_file s = disk /\ source_combo s = new_combo /\ is_device_source s = false /\
    (current_source s = None \/
     exists saved, current_source s = Some saved /\ saved <> "" /\
                   is_device saved = false /\ path_exists env saved = Ok true /\
                   exists doc, disk = Some (Document (JObj doc)) /\
                               field doc "source" JNull = JStr saved)).
  assert (H : P a); [ | exact (proj2 H) ].
  apply (load_settings_preserves env P disk);
    [ .. | unfold P; repeat split; try reflexivity; now left ].
  all: try (intros s [H _]; exact H).
  all: try (intros ? ? ? ? ? H; exact H).
  all: try (intros ? ? ? H; exact H).
  all: try (intros ? ? H; exact H).
  intros doc Hdoc s (Hf & Hc & Hd & Hs).
  unfold restore_source.
  destruct (field doc "source" JNull) as [| | | |saved| |] eqn:Hsrc;
    cbn [truthy];
    try (repeat split; assumption);
    try (match goal with |- context [if ?c then _ else _] => destruct c end;
         cbn; repeat split; assumption).
  destruct (String.eqb_spec saved "") as [->|Hne]; cbn [negb];
    [ repeat split; assumption | ].
  unfold bind, ret, get, modify, lift. cbn [fst snd].
  destruct (is_device saved) eqn:Hdev.
  - cbn [source_combo set_source_signals_blocked]. rewrite Hc. cbn.
    repeat split; assumption.
  - destruct (path_exists env saved) as [[|]|e] eqn:Hex;
      [ | cbn; repeat split; assumption | cbn; repeat split; assumption ].
    cbn. rewrite Hc. repeat split; try assumption; try reflexivity.
    right. exists saved. repeat split; try assumption. exists doc. split; assumption.
Qed.

(** * Accuracy of the overlay mapping *)

Module AccuracyFacts.
Local Open Scope Q_scope.

Lemma round_lower n d :
  (0 < d)%Z -> (0 <= n)%Z ->
  Qratio n d * (1 - (1 # 9007199254740992)) <= F2Q (round n d).
Proof.
  intros Hd Hn.
  destruct (round_cases n d Hd) as [[Hn1 R1]|[[Hn1 R1]|[Hn1 _]]]; [ | | lia ].
  - subst n. rewrite R1, F2Q_zero, Qratio_0. lra.
  - exact (rounds_lower _ _ R1).
Qed.

Lemma of_int_lower z :
  (0 <= z)%Z -> inject_Z z * (1 - (1 # 9007199254740992)) <= F2Q (of_int z).
Proof.
  intros H. unfold of_int. rewrite <- Qratio_1. apply round_lower; lia.
Qed.

Lemma mul_lower x y :
  0 <= F2Q x -> 0 <= F2Q y ->
  F2Q x * F2Q y * (1 - (1 # 9007199254740992)) <= F2Q (mul x y).
Proof.
  intros Hx Hy. destruct (mul_ratio x y) as (Hd & Hv & E). rewrite E, <- Hv.
  apply round_lower; [ exact Hd | ].
  apply (Qratio_nonneg_num _ _ Hd). rewrite Hv. now apply Qmult_le_0_compat.
Qed.

(** Truncation of a non-negative float leaves less than one. *)
Lemma trunc_above f : 0 <= F2Q f -> F2Q f < inject_Z (trunc f) + 1.
Proof.
  intros H. unfold trunc.
  destruct (ratio_of_spec f) as [Hd Hv].
  destruct (ratio_of f) as [n d]; cbn [fst snd] in *.
  assert (Hn : (0 <= n)%Z) by (apply (Qratio_nonneg_num _ _ Hd); rewrite Hv; exact H).
  rewrite Z.quot_div_nonneg by lia. rewrite (Zdiv_Qdiv n d).
  fold (Qratio n d). rewrite <- Hv.
  pose proof (Qlt_floor (Qratio n d)) as Hf. rewrite inject_Z_plus in Hf. exact Hf.
Qed.

(** The value of the float product [d * (p / o)] between the exact
    [d * p / o] shrunk and stretched by three roundings. *)
Lemma product_bounds d p o :
  (0 <= d)%Z -> (0 <= p)%Z -> (0 < o)%Z ->
  let T := F2Q (mul (of_int d) (truediv p o)) in
  let c0 := 1 - (1 # 9007199254740992) in
  let c1 := 1 + (1 # 9007199254740992) in
  0 <= T /\
  inject_Z (d * p) * (c0 * c0 * c0) <= T * inject_Z o /\
  T * inject_Z o <= inject_Z (d * p) * (c1 * c1 * c1).
Proof.
  intros Hd Hp Ho T c0 c1.
  assert (Hc0 : 0 <= c0) by (unfold c0; lra).
  assert (Hc1 : 0 <= c1) by (unfold c1; lra).
  set (S := F2Q (truediv p o)). set (D := F2Q (of_int d)).
  set (X := Qratio p o).
  assert (HS0 : 0 <= S) by (now apply truediv_nonneg).
  assert (HD0 : 0 <= D) by (now apply of_int_nonneg).
  assert (HSu : S <= X * c1).
  { unfold S. rewrite truediv_pos_den by exact Ho. now apply round_upper. }
  assert (HSl : X * c0 <= S).
  { unfold S. rewrite truediv_pos_den by exact Ho. now apply round_lower. }
  assert (HDu : D <= inject_Z d * c1) by (now apply of_int_upper).
  assert (HDl : inject_Z d * c0 <= D) by (now apply of_int_lower).
  assert (HX0 : 0 <= X).
  { destruct (Z.eq_dec p 0) as [->|Hnz]; unfold X.
    - rewrite Qratio_0. lra.
    - apply Qlt_le_weak, Qratio_pos; lia. }
  assert (Hd0 : 0 <= inject_Z d) by (change 0 with (inject_Z 0); now rewrite <- Zle_Qle).
  assert (Ho0 : 0 < inject_Z o) by (now apply inject_Z_pos).
  assert (HXo : X * inject_Z o == inject_Z p).
  { unfold X, Qratio. field. lra. }
  pose proof (mul_nonneg (of_int d) (truediv p o) HD0 HS0) as HT0.
  pose proof (mul_upper (of_int d) (truediv p o) HD0 HS0) as HTu.
  pose proof (mul_lower (of_int d) (truediv p o) HD0 HS0) as HTl.
  fold T D S c1 c0 in HT0, HTu, HTl.
  split; [ exact HT0 | ].
  assert (Hdp : inject_Z (d * p) == inject_Z d * (X * inject_Z o)).
  { rewrite inject_Z_mult, HXo. reflexivity. }
  assert (Hxc0 : 0 <= X * c0) by (now apply Qmult_le_0_compat).
  assert (Hdc0 : 0 <= inject_Z d * c0) by (now apply Qmult_le_0_compat).
  split.
  - assert (H1 : (inject_Z d * c0) * (X * c0) <= D * S)
      by (apply Qmult_le_compat_nonneg; split; assumption).
    assert (H2 : (inject_Z d * c0) * (X * c0) * c0 <= D * S * c0)
      by (apply Qmult_le_compat_r; assumption).
    assert (H3 : (inject_Z d * c0) * (X * c0) * c0 * inject_Z o <= T * inject_Z o).
    { apply Qmult_le_compat_r; [ | lra ]. lra. }
    rewrite Hdp. eapply Qle_trans; [ | exact H3 ]. apply Qle_lteq; right; ring.
  - assert (H1 : D * S <= (inject_Z d * c1) * (X * c1))
      by (apply Qmult_le_compat_nonneg; split; assumption).
    assert (H2 : D * S * c1 <= (inject_Z d * c1) * (X * c1) * c1)
      by (apply Qmult_le_compat_r; assumption).
    assert (H3 : T * inject_Z o <= (inject_Z d * c1) * (X * c1) * c1 * inject_Z o).
    { apply Qmult_le_compat_r; [ | lra ]. lra. }
    rewrite Hdp. eapply Qle_trans; [ exact H3 | ]. apply Qle_lteq; right; ring.
Qed.

End AccuracyFacts.

Import AccuracyFacts.

(** X10: the float arithmetic of [paintEvent] is exact up to one pixel.  For
    a crop distance [d], a widget extent [p] and a positive original extent
    [o] with [d * p < 2^50] (any spin box value with any Qt extent), the
    mapped offset [int(d * (p / o))] never exceeds the exact
    [d * p // o], falls short of it by at most one, and equals it whenever
    [d * p] is not a multiple of [o]. *)
Theorem overlay_offset_within_one_pixel :
  forall d p o,
    0 <= d -> 0 <= p -> 0 < o -> d * p < 2 ^ 50 ->
    exists s,
      scale_factor p o = Ok s /\
      d * p / o - 1 <= offset d s <= d * p / o /\
      ((d * p) mod o <> 0 -> offset d s = d * p / o) /\
      top_pos d s = offset d s /\ left_pos d s = offset d s.
Proof.
  intros d p o Hd Hp Ho Hsmall.
  exists (PyFloat (truediv p o)).
  split.
  { rewrite scale_factor_ok. destruct (Z.ltb_spec 0 o); [ reflexivity | lia ]. }
  unfold top_pos, left_pos.
  assert (Main : d * p / o - 1 <= offset d (PyFloat (truediv p o)) <= d * p / o /\
                 ((d * p) mod o <> 0 -> offset d (PyFloat (truediv p o)) = d * p / o));
    [ | tauto ].
  unfold offset; cbn [py_mul py_int].
  destruct (product_bounds d p o Hd Hp Ho) as (HT0 & HTl & HTu).
  pose proof (trunc_floor _ HT0) as [Hz Hfl].
  pose proof (trunc_above _ HT0) as Hab.
  set (T := F2Q (mul (of_int d) (truediv p o))) in *.
  set (z := trunc (mul (of_int d) (truediv p o))) in *.
  set (N := d * p) in *.
  assert (HN0 : 0 <= N) by (unfold N; nia).
  pose proof (Z.div_mod N o ltac:(lia)) as Hdm.
  pose proof (Z.mod_pos_bound N o Ho) as Hm.
  set (k := N / o) in *. set (m := N mod o) in *.
  clearbody k m N T z.
  assert (Ho0 : (0 < inject_Z o)%Q) by (now apply inject_Z_pos).
  assert (HNq : (0 <= inject_Z N)%Q)
    by (change 0%Q with (inject_Z 0); now rewrite <- Zle_Qle).
  assert (HNs : (inject_Z N <= 1125899906842623)%Q).
  { assert (H : N <= 1125899906842623) by (change (2 ^ 50) with 1125899906842624 in Hsmall; lia).
    rewrite Zle_Qle in H. exact H. }
  assert (HNeq : (inject_Z N == inject_Z k * inject_Z o + inject_Z m)%Q).
  { rewrite <- inject_Z_mult, <- inject_Z_plus.
    replace (k * o + m) with N by lia. reflexivity. }
  assert (Hm0 : (0 <= inject_Z m)%Q)
    by (change 0%Q with (inject_Z 0); rewrite <- Zle_Qle; lia).
  assert (Hm1 : (inject_Z m + 1 <= inject_Z o)%Q).
  { assert (H : m + 1 <= o) by lia. rewrite Zle_Qle, inject_Z_plus in H. exact H. }
  (* z <= T < z + 1, in units of 1/o *)
  assert (Hzo1 : (inject_Z z * inject_Z o <= T * inject_Z o)%Q)
    by (apply Qmult_le_compat_r; [ exact Hfl | lra ]).
  assert (Hzo2 : (T * inject_Z o < (inject_Z z + 1) * inject_Z o)%Q)
    by (apply Qmult_lt_compat_r; [ exact Ho0 | exact Hab ]).
  assert (Hup : (T * inject_Z o < inject_Z N + 1)%Q) by lra.
  assert (Hlo : (inject_Z N - 1 < T * inject_Z o)%Q) by lra.
  (* upper bound *)
  assert (Hle : z <= k).
  { destruct (Z_le_gt_dec z k) as [H|H]; [ exact H | exfalso ].
    assert (H1 : k + 1 <= z) by lia.
    rewrite Zle_Qle, inject_Z_plus in H1. change (inject_Z 1) with 1%Q in H1.
    assert (H2 : ((inject_Z k + 1) * inject_Z o <= inject_Z z * inject_Z o)%Q)
      by (apply Qmult_le_compat_r; [ exact H1 | lra ]).
    lra. }
  (* lower bound *)
  assert (Hge : k - 1 <= z).
  { destruct (Z_le_gt_dec (k - 1) z) as [H|H]; [ exact H | exfalso ].
    assert (H1 : z + 1 <= k - 1) by lia.
    rewrite Zle_Qle in H1. unfold Z.sub in H1. rewrite !inject_Z_plus in H1.
    change (inject_Z 1) with 1%Q in H1. change (inject_Z (-1)) with (-1)%Q in H1.
    assert (H2 : ((inject_Z z + 1) * inject_Z o <= (inject_Z k + -1) * inject_Z o)%Q)
      by (apply Qmult_le_compat_r; [ exact H1 | lra ]).
    assert (H3 : (1 <= inject_Z o)%Q) by lra.
    lra. }
  split; [ lia | ].
  intros Hmod.
  destruct (Z_le_gt_dec k z) as [H|H]; [ lia | exfalso ].
  assert (H1 : z + 1 <= k) by lia.
  rewrite Zle_Qle, inject_Z_plus in H1. change (inject_Z 1) with 1%Q in H1.
  assert (H2 : ((inject_Z z + 1) * inject_Z o <= inject_Z k * inject_Z o)%Q)
    by (apply Qmult_le_compat_r; [ exact H1 | lra ]).
  assert (H3 : (1 <= inject_Z m)%Q).
  { assert (H3 : 1 <= m) by lia. rewrite Zle_Qle in H3. exact H3. }
  lra.
Qed.

Lemma overlay_offset_within_one_pixel_witness :
  exists s,
    scale_factor 1 49 = Ok s /\
    49 * 1 / 49 - 1 <= offset 49 s <= 49 * 1 / 49 /\
    ((49 * 1) mod 49 <> 0 -> offset 49 s = 49 * 1 / 49) /\
    top_pos 49 s = offset 49 s /\ left_pos 49 s = offset 49 s.
Proof.
  apply (overlay_offset_within_one_pixel 49 1 49); lia.
Defined.

(** The shortfall happens: a full-height crop of a 49 pixel original on a
    one pixel preview is mapped to 0, not to 1. *)
Example overlay_offset_shortfall :
  offset 49 (PyFloat (truediv 1 49)) = 0 /\ 49 * 1 / 49 = 1 /\
  offset 1333 (PyFloat (truediv 799 1920)) = 1333 * 799 / 1920.
Proof. vm_compute. repeat split; reflexivity. Qed.

(** X11: when the crop leaves part of the original frame (the resolution
    and the size of the widget being Qt ints), painting returns and the
    guide lines stay on the overlay and in order: the top line is not below the bottom
    line, the left line is not right of the right line, and every drawn
    guide line has its end points inside the surface. *)
Theorem guide_lines_stay_inside :
  forall top bottom left right W H w h,
    0 <= top -> 0 <= bottom -> 0 <= left -> 0 <= right ->
    top + bottom < H -> left + right < W ->
    qt_int W -> qt_int H -> qt_int w -> qt_int h -> 0 <= w -> 0 <= h ->
    let self := mkOverlay top bottom left right W H w h in
    exists sx sy ops,
      scale_factor w W = Ok sx /\ scale_factor h H = Ok sy /\
      repaint self = Ok ops /\
      0 <= top_pos top sy <= bottom_pos h bottom sy /\ bottom_pos h bottom sy <= h /\
      0 <= left_pos left sx <= right_pos w right sx /\ right_pos w right sx <= w /\
      (forall ln, In ln (guide_lines ops) ->
         0 <= lx1 ln <= w /\ 0 <= lx2 ln <= w /\ 0 <= ly1 ln <= h /\ 0 <= ly2 ln <= h).
Proof.
  intros top bottom left right W H w h Ht Hb Hl Hr HtbH HlrW [_ HW] [_ HH] [_ Qw] [_ Qh]
    Hw Hh self.
  pose proof (scale_factor_ok w W) as Hx. pose proof (scale_factor_ok h H) as Hy.
  destruct (Z.ltb_spec 0 W) as [HWpos|]; [ | lia ].
  destruct (Z.ltb_spec 0 H) as [HHpos|]; [ | lia ].
  destruct (offsets_fit top bottom h H Ht Hb HtbH HH Hh) as (Hy1 & Hy2 & Hy3).
  destruct (offsets_fit left right w W Hl Hr HlrW HW Hw) as (Hx1 & Hx2 & Hx3).
  exists (PyFloat (truediv w W)), (PyFloat (truediv h H)). eexists.
  split; [ exact Hx | split; [ exact Hy | ] ].
  split.
  { rewrite (repaint_eq self _ _ Hx Hy).
    rewrite paint_calls_accepted; [ reflexivity | .. ];
      unfold self; cbn [crop_top crop_bottom crop_left crop_right width height]; lia. }
  unfold paint_calls, top_pos, bottom_pos, left_pos, right_pos.
  unfold self; cbn [crop_top crop_bottom crop_left crop_right width height].
  generalize dependent (offset top (PyFloat (truediv h H))).
  generalize dependent (offset bottom (PyFloat (truediv h H))).
  generalize dependent (offset left (PyFloat (truediv w W))).
  generalize dependent (offset right (PyFloat (truediv w W))).
  intros ro Hx2 lo Hx1 Hx3 bo Hy2 to Hy1 Hy3.
  repeat (split; [ lia | ]).
  intros ln Hin.
  destruct (0 <? top), (0 <? bottom), (0 <? left), (0 <? right);
    cbn [guide_lines flat_map app In] in Hin;
    repeat (destruct Hin as [<-|Hin]; [ cbn [lx1 lx2 ly1 ly2]; lia | ]);
    contradiction.
Qed.

Lemma guide_lines_stay_inside_witness :
  let self := mkOverlay 10 5 20 0 640 480 320 240 in
  exists sx sy ops,
    scale_factor 320 640 = Ok sx /\ scale_factor 240 480 = Ok sy /\
    repaint self = Ok ops /\
    0 <= top_pos 10 sy <= bottom_pos 240 5 sy /\ bottom_pos 240 5 sy <= 240 /\
    0 <= left_pos 20 sx <= right_pos 320 0 sx /\ right_pos 320 0 sx <= 320 /\
    (forall ln, In ln (guide_lines ops) ->
       0 <= lx1 ln <= 320 /\ 0 <= lx2 ln <= 320 /\ 0 <= ly1 ln <= 240 /\ 0 <= ly2 ln <= 240).
Proof.
  apply (guide_lines_stay_inside 10 5 20 0 640 480 320 240); unfold qt_int; lia.
Defined.

(** * The window and its events *)

Module WindowFacts.

Lemma in_app_run {A} (m : M App A) w :
  in_app m w = (fst (m (base w)), set_base (snd (m (base w))) w).
Proof. unfold in_app. destruct (m (base w)); reflexivity. Qed.

Lemma in_app_preserves {A} (Q : QImage -> App -> Prop) (m : M App A) :
  (forall px, preserves (Q px) m) ->
  preserves (fun w => Q (preview_pixmap w) (base w)) (in_app m).
Proof.
  intros H w Hw. rewrite in_app_run. exact (H (preview_pixmap w) (base w) Hw).
Qed.

Lemma spin_set_same z sb : value (spin_set z sb) = value sb -> spin_set z sb = sb.
Proof. destruct sb as [mn mx v]. unfold spin_set; cbn. intros ->. reflexivity. Qed.

Section Attributes.
Context (env : Env) (R : QComboBox -> json -> Prop) (px : QImage).

Lemma log_console_attributes msg : preserves (attributes_ok env R px) (log_console msg).
Proof. intros a H. exact H. Qed.

(** Editing a crop spin box: the overlay follows. *)
Ltac edit_crop :=
  let E := fresh "E" in
  intros z a ((Hb & Hs & Hc & Hd & He) & Hg & HR);
  unfold editValue, bind, get, modify, ret, update_crop_overlay;
  cbn -[spin_set Z.eqb];
  match goal with |- context [?x =? ?y] => destruct (Z.eqb_spec x y) as [E|E] end;
  [ apply spin_set_same in E; rewrite E;
    exact (conj (conj Hb (conj Hs (conj Hc (conj Hd He)))) (conj Hg HR))
  | clear E; cbn [snd modify];
    destruct Hb as (B1 & B2 & B3 & B4 & B5 & B6);
    split; [ split; [ | split ] | split ];
    [ unfold widget_bounds; cbn -[spin_set spin_ok];
      refine (conj _ (conj _ (conj _ (conj _ (conj _ _)))));
      first [ assumption | apply spin_set_ok; assumption ]
    | unfold overlay_synced; cbn -[spin_set]; repeat split; left; split; reflexivity
    | repeat split; assumption
    | exact Hg
    | exact HR ] ].

Lemma edit_crop_top_attributes :
  forall z, preserves (attributes_ok env R px)
                      (editValue crop_top_spin set_crop_top_spin update_crop_overlay z).
Proof. edit_crop. Qed.

Lemma edit_crop_bottom_attributes :
  forall z, preserves (attributes_ok env R px)
                      (editValue crop_bottom_spin set_crop_bottom_spin update_crop_overlay z).
Proof. edit_crop. Qed.

Lemma edit_crop_left_attributes :
  forall z, preserves (attributes_ok env R px)
                      (editValue crop_left_spin set_crop_left_spin update_crop_overlay z).
Proof. edit_crop. Qed.

Lemma edit_crop_right_attributes :
  forall z, preserves (attributes_ok env R px)
                      (editValue crop_right_spin set_crop_right_spin update_crop_overlay z).
Proof. edit_crop. Qed.


Ltac edit_rate :=
  intros z a ((Hb & Hs & Hc & Hd & He) & Hg & HR);
  unfold editValue, bind, get, modify, ret;
  cbn -[spin_set Z.eqb];
  match goal with |- context [?x =? ?y] => destruct (x =? y) end;
  cbn [snd];
  destruct Hb as (B1 & B2 & B3 & B4 & B5 & B6);
  (split; [ split; [ | split ] | split ];
   [ unfold widget_bounds; cbn -[spin_set spin_ok];
     refine (conj _ (conj _ (conj _ (conj _ (conj _ _)))));
     first [ assumption | apply spin_set_ok; assumption ]
   | exact Hs
   | repeat split; assumption
   | exact Hg
   | exact HR ]).

Lemma edit_quality_attributes :
  forall z, preserves (attributes_ok env R px)
                      (editValue quality_spin set_quality_spin (ret tt) z).
Proof. edit_rate. Qed.

Lemma edit_bitrate_attributes :
  forall z, preserves (attributes_ok env R px)
                      (editValue bitrate_spin set_bitrate_spin (ret tt) z).
Proof. edit_rate. Qed.

Lemma setValue_attributes spin set_spin slot v :
  (forall z, preserves (attributes_ok env R px) (editValue spin set_spin slot z)) ->
  preserves (attributes_ok env R px) (setValue spin set_spin slot v).
Proof.
  intros H. change (setValue spin set_spin slot v)
    with (bind (lift (as_c_int v)) (editValue spin set_spin slot)).
  apply preserves_bind; [ apply preserves_lift | exact H ].
Qed.

(** A frame of another size: the overlay gets the new resolution. *)
Lemma detect_resolution_attributes label image :
  preserves (attributes_ok env R px) (detect_resolution label image).
Proof.
  intros a ((Hb & Hs & Hc & Hd & He) & Hg & HR).
  unfold detect_resolution, bind, get.
  destruct (negb (image_width image =? original_video_width a)
            || negb (image_height image =? original_video_height a));
    [ | exact (conj (conj Hb (conj Hs (conj Hc (conj Hd He)))) (conj Hg HR)) ].
  cbn.
  split; [ split; [ exact Hb | split ] | split ].
  - unfold overlay_synced; cbn. repeat split. left. split; reflexivity.
  - repeat split; assumption.
  - exact Hg.
  - exact HR.
Qed.

Lemma start_conversion_attributes :
  preserves (attributes_ok env R px) (start_conversion env).
Proof.
  intros a H0. pose proof H0 as ((Hb & Hs & Hc & Hd & He) & Hg & HR).
  unfold start_conversion, bind, get.
  destruct (current_source a) as [[|c source]|]; try exact H0.
  pose proof (ConversionFacts.build_ffmpeg_command_state env a) as St.
  destruct (build_ffmpeg_command env a) as [[[[|tok cmd]|]|e] s1]; cbn [snd] in St; subst s1;
    try exact H0.
  unfold log_console, modify. cbn [fst snd].
  split; [ split; [ exact Hb | split; [ exact Hs | split ] ] | split ].
  - intros _. cbn [conversion_thread set_conversion_thread]. discriminate.
  - exact (proj2 (proj2 (proj2 (proj1 H0)))).
  - exact Hg.
  - exact HR.
Qed.

Lemma deliver_attributes s : preserves (attributes_ok env R px) (deliver s).
Proof.
  intros a ((Hb & Hs & Hc & Hd & He) & Hg & HR).
  destruct s as [line|success message]; cbn.
  - exact (conj (conj Hb (conj Hs (conj Hc (conj Hd He)))) (conj Hg HR)).
  - split; [ split; [ exact Hb | split; [ exact Hs | split ] ] | split ];
      [ intros H; cbn in H; discriminate H | split; assumption | exact Hg | exact HR ].
Qed.

Lemma reset_conversion_ui_attributes :
  preserves (attributes_ok env R px) reset_conversion_ui.
Proof.
  intros a ((Hb & Hs & Hc & Hd & He) & Hg & HR). cbn.
  split; [ split; [ exact Hb | split; [ exact Hs | split ] ] | split ];
    [ intros H; cbn in H; discriminate H | split; assumption | exact Hg | exact HR ].
Qed.

Lemma save_settings_attributes : preserves (attributes_ok env R px) (save_settings env).
Proof.
  intros a H. unfold save_settings, try_except, save_settings_body, bind, get, modify, raise.
  destruct (settings_writable env); [ exact H | ].
  destruct (settings_failure env); exact H.
Qed.

(** The source that becomes current is not the empty string. *)
Lemma select_source_attributes source b a :
  source <> "" -> attributes_ok env R px a ->
  attributes_ok env R px (set_is_device_source b (set_current_source (Some source) a)).
Proof.
  intros Hne ((Hb & Hs & Hc & Hd & He) & Hg & HR).
  split; [ split; [ exact Hb | split; [ exact Hs | split; [ exact Hc | split ] ] ] | split ].
  - intros _. discriminate.
  - cbn. intros E. injection E as E. contradiction.
  - exact Hg.
  - exact HR.
Qed.

Lemma set_current_source_attributes source a :
  source <> "" -> attributes_ok env R px a ->
  attributes_ok env R px (set_current_source (Some source) a).
Proof.
  intros Hne ((Hb & Hs & Hc & Hd & He) & Hg & HR).
  split; [ split; [ exact Hb | split; [ exact Hs | split; [ exact Hc | split ] ] ] | split ].
  - intros _. discriminate.
  - cbn. intros E. injection E as E. contradiction.
  - exact Hg.
  - exact HR.
Qed.

End Attributes.

(** Every step of [load_settings] keeps a property that no step breaks. *)
Lemma load_settings_steps env (P : App -> Prop) :
  (forall v, preserves P (crop_top_spin_setValue v)) ->
  (forall v, preserves P (crop_bottom_spin_setValue v)) ->
  (forall v, preserves P (crop_left_spin_setValue v)) ->
  (forall v, preserves P (crop_right_spin_setValue v)) ->
  (forall v, preserves P (quality_spin_setValue v)) ->
  (forall v, preserves P (bitrate_spin_setValue v)) ->
  (forall v s, P s -> P (set_output_path v s)) ->
  (forall c s, P s -> P (set_console_output c s)) ->
  (forall v, preserves P (restore_source env v)) ->
  preserves P (load_settings env).
Proof.
  intros H1 H2 H3 H4 H5 H6 Ho Hc Hr.
  unfold load_settings.
  apply preserves_try_except;
    [ | intros e; apply preserves_modify; intros s Hs; apply Hc, Hs ].
  unfold load_settings_body.
  apply preserves_bind; [ apply preserves_get | intros self ].
  destruct (settings_file self) as [content|]; [ | apply preserves_ret ].
  apply preserves_bind;
    [ destruct content; first [ apply preserves_raise | apply preserves_ret ] | intros settings ].
  repeat (apply preserves_bind; [ apply preserves_lift | intros ? ];
          apply preserves_bind;
          [ first [ apply H1 | apply H2 | apply H3 | apply H4 | apply H5 | apply H6
                  | apply preserves_modify; intros s Hs; apply Ho, Hs ]
          | intros _ ]).
  apply preserves_bind; [ apply preserves_lift | intros saved ].
  apply preserves_bind; [ apply Hr | intros _ ].
  apply preserves_modify; intros s Hs; apply Hc, Hs.
Qed.

(** While the source combo box is empty, restoring the source can only set a
    file as the current source. *)
Lemma restore_source_attributes_empty env px v :
  preserves (attributes_ok env (fun c _ => c = new_combo) px) (restore_source env v).
Proof.
  intros a ((Hb & Hs & Hc & Hd & He) & Hg & HR).
  assert (H0 : attributes_ok env (fun c _ => c = new_combo) px a)
    by exact (conj (conj Hb (conj Hs (conj Hc (conj Hd He)))) (conj Hg HR)).
  unfold restore_source.
  destruct (truthy v) eqn:Htr; [ | exact H0 ].
  destruct v as [| | | |saved| |]; try exact H0.
  cbn [truthy] in Htr. unfold bind, ret, get, lift, modify. cbn [fst snd].
  destruct (is_device saved).
  - cbn [source_combo set_source_signals_blocked]. rewrite HR. exact H0.
  - destruct (path_exists env saved) as [[|]|e]; [ | exact H0 | exact H0 ].
    cbn [fst snd].
    split; [ split; [ exact Hb | split; [ exact Hs | split; [ exact Hc | split ] ] ] | split ].
    + intros H; discriminate.
    + cbn. intros E. injection E as ->. discriminate.
    + exact Hg.
    + cbn. rewrite HR. reflexivity.
Qed.

Lemma load_settings_attributes_empty env px :
  preserves (attributes_ok env (fun c _ => c = new_combo) px) (load_settings env).
Proof.
  apply load_settings_steps.
  - intros v. apply setValue_attributes, edit_crop_top_attributes.
  - intros v. apply setValue_attributes, edit_crop_bottom_attributes.
  - intros v. apply setValue_attributes, edit_crop_left_attributes.
  - intros v. apply setValue_attributes, edit_crop_right_attributes.
  - intros v. apply setValue_attributes, edit_quality_attributes.
  - intros v. apply setValue_attributes, edit_bitrate_attributes.
  - intros v s H. exact H.
  - intros c s H. exact H.
  - intros v. apply restore_source_attributes_empty.
Qed.

Lemma init_ui_attributes env disk :
  attributes_ok env (fun c _ => c = new_combo) (mkImage 0 0) (init_ui env disk).
Proof.
  split; [ split; [ apply init_ui_bounds | split ] | split ].
  - unfold overlay_synced. cbn. repeat split. right. repeat split.
  - cbn. repeat split; intros; discriminate.
  - unfold geometry_ok. cbn. split; [ intros H; discriminate | left; split; reflexivity ].
  - reflexivity.
Qed.


Lemma in_app_modify f w : in_app (modify f) w = (Ok tt, set_base (f (base w)) w).
Proof. reflexivity. Qed.

Lemma isNull_false px :
  isNull px = false -> 0 < image_width px /\ 0 < image_height px.
Proof.
  unfold isNull. intros H. apply orb_false_elim in H. destruct H as [H1 H2].
  apply Z.leb_gt in H1. apply Z.leb_gt in H2. split; assumption.
Qed.

(** The overlay takes the size of a pixmap that has pixels. *)
Lemma setGeometry_attributes env (R : QComboBox -> json -> Prop) px px' a :
  isNull px' = false -> attributes_ok env R px a ->
  attributes_ok env R px'
    (set_crop_overlay (setGeometry (image_width px') (image_height px') (crop_overlay a)) a).
Proof.
  intros Hn ((Hb & Hs & Hc & Hd & He) & Hg & HR).
  split; [ split; [ exact Hb | split; [ exact Hs | repeat split; assumption ] ] | split ].
  - split; [ intros _; split; reflexivity | right; cbn; now apply isNull_false ].
  - exact HR.
Qed.

Section WindowSteps.
Context (env : Env) (probe : Probe) (R : QComboBox -> json -> Prop).

Local Notation "'wok'" := (window_attributes_ok env R).

Hypothesis R_index : forall i c o, R c o -> R (setCurrentIndex i c) o.
Hypothesis R_text : forall t c o, R c o -> R (setItemText 0 t c) o.
Hypothesis R_data : forall d c o, R c o -> R (setItemData 0 d c) o.
Hypothesis R_output : forall folder c o, R c o -> R c (JStr folder).

Lemma in_app_wok {A} (m : M App A) :
  (forall px, preserves (attributes_ok env R px) m) -> preserves wok (in_app m).
Proof. intros H. exact (in_app_preserves (attributes_ok env R) m H). Qed.

Lemma wok_unfold w :
  window_attributes_ok env R w = attributes_ok env R (preview_pixmap w) (base w).
Proof. reflexivity. Qed.

Lemma log_wok msg : preserves wok (in_app (log_console msg)).
Proof. apply in_app_wok. intros px. apply log_console_attributes. Qed.

Lemma stop_device_preview_wok : preserves wok stop_device_preview.
Proof.
  intros w H. unfold stop_device_preview, bind, get.
  destruct (preview_thread w); [ destruct (preview_isRunning w) | ]; exact H.
Qed.

Lemma start_device_preview_wok device : preserves wok (start_device_preview device).
Proof. intros w H. exact H. Qed.

Lemma load_video_wok file_path : preserves wok (load_video file_path).
Proof. intros w H. exact H. Qed.

Lemma update_overlay_geometry_wok : preserves wok update_overlay_geometry.
Proof.
  intros w H. unfold update_overlay_geometry, bind, get.
  destruct (isNull (preview_pixmap w)) eqn:Hn; [ exact H | ].
  rewrite in_app_modify. unfold window_attributes_ok. cbn [snd base preview_pixmap set_base].
  apply (setGeometry_attributes env R (preview_pixmap w) (preview_pixmap w)); assumption.
Qed.

Lemma show_image_wok image : preserves wok (show_image probe image).
Proof.
  intros w H. unfold window_attributes_ok in *.
  unfold show_image, update_overlay_geometry, bind, get, modify.
  cbn [fst snd preview_pixmap set_preview_pixmap].
  set (px' := image_scaled probe image (preview_label_size w)).
  destruct (isNull px') eqn:Hn.
  - cbn [snd ret base preview_pixmap set_preview_pixmap].
    destruct H as (Ha & (_ & Hg) & HR).
    split; [ exact Ha | split; [ split; [ rewrite Hn; discriminate | exact Hg ] | exact HR ] ].
  - unfold in_app. cbn [snd base preview_pixmap set_base set_preview_pixmap].
    apply (setGeometry_attributes env R (preview_pixmap w) px'); assumption.
Qed.

Lemma on_video_frame_wok frame : preserves wok (on_video_frame probe frame).
Proof.
  unfold on_video_frame.
  destruct (isValid frame); [ | apply preserves_ret ].
  destruct (isNull (toImage frame)); [ apply preserves_ret | ].
  apply preserves_bind; [ apply preserves_get | intros self ].
  apply preserves_bind; [ | intros _; apply show_image_wok ].
  unfold when. destruct (negb (is_device_source (base self))); [ | apply preserves_ret ].
  apply in_app_wok. intros px. apply detect_resolution_attributes.
Qed.

Lemma update_preview_frame_wok image : preserves wok (update_preview_frame probe image).
Proof.
  unfold update_preview_frame.
  apply preserves_bind; [ apply preserves_get | intros self ].
  apply preserves_bind; [ | intros _; apply show_image_wok ].
  unfold when. destruct (is_device_source (base self)); [ | apply preserves_ret ].
  apply in_app_wok. intros px. apply detect_resolution_attributes.
Qed.

Lemma on_source_changed_wok index : preserves wok (on_source_changed env index).
Proof.
  unfold on_source_changed.
  apply preserves_bind; [ apply stop_device_preview_wok | intros _ ].
  apply preserves_bind; [ apply preserves_get | intros self ].
  destruct (itemData (source_combo (base self)) index) as [source|]; [ | apply preserves_ret ].
  destruct (String.eqb_spec source "") as [|Hne]; cbn [negb]; [ apply preserves_ret | ].
  intros w H.
  rewrite (bind_ok _ _ _ _ _ (in_app_modify _ w)).
  rewrite (bind_ok _ _ _ _ _ (in_app_modify _ _)).
  match goal with
  | |- window_attributes_ok _ _ (snd (_ ?s)) =>
      assert (H1 : window_attributes_ok env R s)
        by exact (select_source_attributes env R (preview_pixmap w) source _ (base w) Hne H);
      revert H1; generalize s
  end.
  clear w H. intros w H.
  destruct (startswith source "video=" || startswith source "/dev/").
  - exact H.
  - unfold bind, lift. destruct (path_exists env source) as [[|]|e]; exact H.
Qed.

Lemma currentIndexChanged_wok index : preserves wok (currentIndexChanged env index).
Proof.
  unfold currentIndexChanged.
  apply preserves_bind; [ apply preserves_get | intros self ].
  destruct (source_signals_blocked (base self));
    [ apply preserves_ret | apply on_source_changed_wok ].
Qed.

Lemma source_combo_setCurrentIndex_wok i :
  preserves wok (source_combo_setCurrentIndex env i).
Proof.
  unfold source_combo_setCurrentIndex.
  apply preserves_bind; [ apply preserves_get | intros self ].
  apply preserves_bind.
  - apply in_app_wok. intros px. apply preserves_modify.
    intros a (Ha & Hg & HR). split; [ exact Ha | split; [ exact Hg | ] ].
    apply R_index, HR.
  - intros _. apply preserves_bind; [ apply preserves_get | intros self' ].
    destruct (_ =? _); [ apply preserves_ret | apply currentIndexChanged_wok ].
Qed.

Lemma browse_file_wok file_path : preserves wok (browse_file env file_path).
Proof.
  unfold browse_file.
  destruct (String.eqb_spec file_path "") as [|Hne]; cbn [negb]; [ apply preserves_ret | ].
  apply preserves_bind.
  { apply in_app_wok. intros px. apply preserves_modify. intros a H.
    now apply set_current_source_attributes. }
  intros _. apply preserves_bind.
  { apply in_app_wok. intros px. apply preserves_modify.
    intros a (Ha & Hg & HR). split; [ exact Ha | split; [ exact Hg | ] ].
    apply R_text, HR. }
  intros _. apply preserves_bind.
  { apply in_app_wok. intros px. apply preserves_modify.
    intros a (Ha & Hg & HR). split; [ exact Ha | split; [ exact Hg | ] ].
    apply R_data, HR. }
  intros _. apply preserves_bind;
    [ apply source_combo_setCurrentIndex_wok | intros _; apply load_video_wok ].
Qed.

Lemma select_output_path_wok folder : preserves wok (select_output_path folder).
Proof.
  unfold select_output_path.
  apply preserves_bind; [ apply preserves_get | intros self ].
  destruct (output_path (base self)); try apply preserves_raise.
  destruct (negb (folder =? "")%string); [ | apply preserves_ret ].
  intros w (Ha & Hg & HR).
  split; [ exact Ha | split; [ exact Hg | ] ].
  exact (R_output folder _ _ HR).
Qed.

Lemma toggle_playback_wok : preserves wok toggle_playback.
Proof.
  unfold toggle_playback.
  apply preserves_bind; [ apply preserves_get | intros self ].
  destruct (is_device_source (base self)); [ | apply preserves_ret ].
  destruct (preview_thread self); [ destruct (preview_isRunning self) | ];
    try apply stop_device_preview_wok;
    destruct (current_source (base self));
    first [ apply start_device_preview_wok | apply preserves_raise ].
Qed.

Lemma stop_conversion_wok : preserves wok stop_conversion.
Proof.
  unfold stop_conversion.
  apply preserves_bind; [ apply preserves_get | intros self ].
  destruct (conversion_thread (base self)); [ | apply preserves_ret ].
  destruct (conversion_isRunning self); [ | apply preserves_ret ].
  apply preserves_bind; [ apply log_wok | intros _ ].
  apply preserves_bind; [ apply log_wok | intros _ ].
  apply in_app_wok. intros px. apply reset_conversion_ui_attributes.
Qed.

Lemma toggle_conversion_wok : preserves wok (toggle_conversion env).
Proof.
  unfold toggle_conversion.
  apply preserves_bind; [ apply preserves_get | intros self ].
  destruct (is_converting (base self)); [ apply stop_conversion_wok | ].
  apply in_app_wok. intros px. apply start_conversion_attributes.
Qed.

Lemma closeEvent_wok : preserves wok (closeEvent env).
Proof.
  unfold closeEvent.
  apply preserves_bind; [ | intros _; apply stop_device_preview_wok ].
  apply in_app_wok. intros px. apply save_settings_attributes.
Qed.

Lemma handle_wok e : preserves wok (handle env probe e).
Proof.
  destruct e; cbn [handle].
  - apply in_app_wok. intros px. apply edit_crop_top_attributes.
  - apply in_app_wok. intros px. apply edit_crop_bottom_attributes.
  - apply in_app_wok. intros px. apply edit_crop_left_attributes.
  - apply in_app_wok. intros px. apply edit_crop_right_attributes.
  - apply in_app_wok. intros px. apply edit_quality_attributes.
  - apply in_app_wok. intros px. apply edit_bitrate_attributes.
  - intros w H. exact H.
  - intros w H. exact H.
  - apply source_combo_setCurrentIndex_wok.
  - apply browse_file_wok.
  - apply select_output_path_wok.
  - apply toggle_conversion_wok.
  - apply toggle_playback_wok.
  - apply on_video_frame_wok.
  - apply update_preview_frame_wok.
  - apply log_wok.
  - apply in_app_wok. intros px. apply deliver_attributes.
  - apply update_overlay_geometry_wok.
  - intros w H. exact H.
  - intros w H. exact H.
  - apply closeEvent_wok.
Qed.

End WindowSteps.

End WindowFacts.

Module StartFacts.
Import WindowFacts.

Lemma nr_ret {S A} (x : A) : never_raises (@ret S A x).
Proof. intros s. exists x. reflexivity. Qed.

Lemma nr_get {S} : never_raises (@get S).
Proof. intros s. exists s. reflexivity. Qed.

Lemma nr_modify {S} (f : S -> S) : never_raises (modify f).
Proof. intros s. exists tt. reflexivity. Qed.

Lemma nr_bind {S A B} (m : M S A) (k : A -> M S B) :
  never_raises m -> (forall x, never_raises (k x)) -> never_raises (bind m k).
Proof.
  intros Hm Hk s. unfold bind. destruct (Hm s) as [x Hx].
  destruct (m s) as [r s1]. cbn [fst] in Hx. subst r. apply Hk.
Qed.

Lemma nr_try_except {S A} (m : M S A) h :
  (forall e, never_raises (h e)) -> never_raises (try_except m h).
Proof.
  intros Hh s. unfold try_except. destruct (m s) as [[x|e] s1]; [ exists x; reflexivity | ].
  apply Hh.
Qed.

Lemma nr_in_app {A} (m : M App A) : never_raises m -> never_raises (in_app m).
Proof. intros H w. rewrite in_app_run. apply H. Qed.

Lemma nr_log msg : never_raises (log_console msg).
Proof. apply nr_modify. Qed.

Lemma nr_unit {S} (m : M S unit) s : never_raises m -> fst (m s) = Ok tt.
Proof. intros H. destruct (H s) as [[] E]. exact E. Qed.

(** Sequencing after a step that never raises. *)
Lemma post_bind {S A B} (P Q T : S -> Prop) (m : M S A) (k : A -> M S B) :
  never_raises m ->
  (forall s, P s -> Q (snd (m s))) ->
  (forall x s, Q s -> T (snd (k x s))) ->
  forall s, P s -> T (snd (bind m k s)).
Proof.
  intros Hn Hm Hk s Hs. unfold bind. specialize (Hm s Hs). destruct (Hn s) as [x Hx].
  destruct (m s) as [r s1]. cbn [fst snd] in *. subst r. apply Hk, Hm.
Qed.

(** Sequencing after a step that does not raise in the states at hand. *)
Lemma post_bind_at {S A B} (P Q T : S -> Prop) (m : M S A) (k : A -> M S B) :
  (forall s, P s -> exists x, fst (m s) = Ok x) ->
  (forall s, P s -> Q (snd (m s))) ->
  (forall x s, Q s -> T (snd (k x s))) ->
  forall s, P s -> T (snd (bind m k s)).
Proof.
  intros Hn Hm Hk s Hs. unfold bind. specialize (Hm s Hs). destruct (Hn s Hs) as [x Hx].
  destruct (m s) as [r s1]. cbn [fst snd] in *. subst r. apply Hk, Hm.
Qed.

Lemma nr_lift_ok {S A} (x : A) : never_raises (@lift S A (Ok x)).
Proof. intros s. exists x. reflexivity. Qed.

Ltac nr :=
  repeat first
    [ apply nr_ret | apply nr_get | apply nr_modify | apply nr_log | apply nr_lift_ok
    | apply nr_in_app
    | apply nr_bind; [ | intros ? ]
    | apply nr_try_except; intros ?
    | progress cbv zeta
    | match goal with
      | |- never_raises (if ?c then _ else _) => destruct c
      | |- never_raises (match ?x with _ => _ end) => destruct x
      | |- never_raises (when ?c _) => unfold when
      end ].

Section Never.
Context (env : Env) (probe : Probe).

Lemma nr_editValue spin set_spin slot z :
  never_raises slot -> never_raises (editValue spin set_spin slot z).
Proof. intros H. unfold editValue. nr; exact H. Qed.

Lemma nr_update_crop_overlay : never_raises update_crop_overlay.
Proof. apply nr_modify. Qed.

Lemma nr_detect_resolution label image : never_raises (detect_resolution label image).
Proof. unfold detect_resolution, update_crop_overlay. nr. Qed.

Lemma nr_update_overlay_geometry : never_raises update_overlay_geometry.
Proof. unfold update_overlay_geometry. nr. Qed.

Lemma nr_show_image image : never_raises (show_image probe image).
Proof. unfold show_image. nr. Qed.

Lemma nr_on_video_frame frame : never_raises (on_video_frame probe frame).
Proof.
  unfold on_video_frame. nr; first [ apply nr_detect_resolution | apply nr_show_image ].
Qed.

Lemma nr_update_preview_frame image : never_raises (update_preview_frame probe image).
Proof.
  unfold update_preview_frame. nr; first [ apply nr_detect_resolution | apply nr_show_image ].
Qed.

Lemma nr_stop_device_preview : never_raises stop_device_preview.
Proof. unfold stop_device_preview. nr. Qed.

Lemma nr_start_device_preview device : never_raises (start_device_preview device).
Proof. unfold start_device_preview. nr. Qed.

Lemma nr_load_video file_path : never_raises (load_video file_path).
Proof. unfold load_video. nr. Qed.

(** Stopping the preview leaves the source list alone. *)
Lemma stop_device_preview_run w :
  exists w1, stop_device_preview w = (Ok tt, w1) /\
             source_combo (base w1) = source_combo (base w) /\
             source_signals_blocked (base w1) = source_signals_blocked (base w).
Proof.
  unfold stop_device_preview, bind, get. cbn [fst snd].
  destruct (preview_thread w); [ destruct (preview_isRunning w) | ];
    eexists; split; try reflexivity; split; reflexivity.
Qed.

(** [on_source_changed] returns unless the existence check of the selected
    file raises. *)
Lemma on_source_changed_returns index w :
  (forall source, itemData (source_combo (base w)) index = Some source ->
                  is_device source = false ->
                  exists found, path_exists env source = Ok found) ->
  fst (on_source_changed env index w) = Ok tt.
Proof.
  intros H. unfold on_source_changed.
  destruct (stop_device_preview_run w) as (w1 & E & Hc & _).
  rewrite (bind_ok _ _ _ _ _ E). unfold bind at 1. cbn [get]. rewrite Hc.
  destruct (itemData (source_combo (base w)) index) as [source|]; [ | reflexivity ].
  destruct (String.eqb_spec source "") as [|Hne]; cbn [negb]; [ reflexivity | ].
  specialize (H source eq_refl). unfold is_device in H.
  apply nr_unit.
  apply nr_bind; [ nr | intros _ ]. cbv zeta.
  apply nr_bind; [ nr | intros _ ].
  destruct (startswith source "video=" || startswith source "/dev/").
  - nr; apply nr_start_device_preview.
  - destruct (H eq_refl) as [found Ef]. rewrite Ef. nr; apply nr_load_video.
Qed.

Lemma currentIndexChanged_returns index w :
  (forall source, itemData (source_combo (base w)) index = Some source ->
                  is_device source = false ->
                  exists found, path_exists env source = Ok found) ->
  fst (currentIndexChanged env index w) = Ok tt.
Proof.
  intros H. unfold currentIndexChanged, bind. cbn [get].
  destruct (source_signals_blocked (base w)); [ reflexivity | ].
  now apply on_source_changed_returns.
Qed.

(** Clearing the source list and adding an entry without data or with a
    device return whatever the existence checks do. *)
Lemma source_combo_clear_returns w : fst (source_combo_clear env w) = Ok tt.
Proof.
  unfold source_combo_clear, bind at 1. cbn [get].
  rewrite (bind_ok _ _ _ _ _ (in_app_modify _ w)).
  destruct (_ =? _); [ reflexivity | ].
  apply currentIndexChanged_returns. intros source Hs. discriminate Hs.
Qed.

Lemma source_combo_addItem_returns text data w :
  (forall source, data = Some source -> is_device source = false ->
                  exists found, path_exists env source = Ok found) ->
  fst (source_combo_addItem env text data w) = Ok tt.
Proof.
  intros H. unfold source_combo_addItem, bind at 1. cbn [get].
  rewrite (bind_ok _ _ _ _ _ (in_app_modify _ w)).
  unfold bind at 1. cbn [get base set_base source_combo set_source_combo].
  destruct (Z.eqb_spec (currentIndex (addItem text data (source_combo (base w))))
                       (currentIndex (source_combo (base w)))) as [|Hi];
    [ reflexivity | ].
  apply currentIndexChanged_returns.
  cbn [base set_base source_combo set_source_combo].
  unfold addItem in *. cbn [currentIndex] in *.
  destruct (items (source_combo (base w))) as [|it its]; [ | congruence ].
  intros source Hs. apply H. exact Hs.
Qed.

Lemma nr_source_combo_clear : never_raises (source_combo_clear env).
Proof. intros w. exists tt. apply source_combo_clear_returns. Qed.

Section Answering.
Hypothesis Hpaths : paths_answer env.

Lemma nr_on_source_changed index : never_raises (on_source_changed env index).
Proof.
  intros w. exists tt. apply on_source_changed_returns. intros source _ _. apply Hpaths.
Qed.

Lemma nr_currentIndexChanged index : never_raises (currentIndexChanged env index).
Proof.
  unfold currentIndexChanged. apply nr_bind; [ apply nr_get | intros self ].
  destruct (source_signals_blocked (base self));
    [ apply nr_ret | apply nr_on_source_changed ].
Qed.

Lemma nr_source_combo_setCurrentIndex i : never_raises (source_combo_setCurrentIndex env i).
Proof.
  unfold source_combo_setCurrentIndex.
  apply nr_bind; [ apply nr_get | intros self ]. cbv zeta.
  apply nr_bind; [ apply nr_in_app, nr_modify | intros _ ].
  apply nr_bind; [ apply nr_get | intros self' ]. cbv zeta.
  destruct (_ =? _); [ apply nr_ret | apply nr_currentIndexChanged ].
Qed.

Lemma nr_browse_file file_path : never_raises (browse_file env file_path).
Proof.
  unfold browse_file.
  destruct (negb (file_path =? "")%string); [ | apply nr_ret ].
  do 3 (apply nr_bind; [ apply nr_in_app, nr_modify | intros _ ]).
  apply nr_bind; [ apply nr_source_combo_setCurrentIndex | intros _; apply nr_load_video ].
Qed.

End Answering.

Lemma nr_deliver s : never_raises (deliver s).
Proof. destruct s; cbn [deliver]; unfold conversion_finished, reset_conversion_ui; nr. Qed.

Lemma nr_save_settings : never_raises (save_settings env).
Proof. intros a. exists tt. apply save_settings_ok. Qed.

Lemma nr_load_settings : never_raises (load_settings env).
Proof. intros a. exists tt. apply load_settings_ok. Qed.

Lemma nr_stop_conversion : never_raises stop_conversion.
Proof. unfold stop_conversion, reset_conversion_ui. nr. Qed.

Lemma nr_closeEvent : never_raises (closeEvent env).
Proof.
  unfold closeEvent. apply nr_bind; [ apply nr_in_app, nr_save_settings | intros _ ].
  apply nr_stop_device_preview.
Qed.

Lemma device_data_returns prefix name :
  prefix = "/dev/" \/ prefix = "video=" ->
  forall source, Some (prefix ++ name)%string = Some source -> is_device source = false ->
                 exists found, path_exists env source = Ok found.
Proof.
  intros Hp source E Hd. injection E as <-. exfalso. unfold is_device, startswith in Hd.
  destruct Hp as [->| ->]; cbn in Hd; destruct name; discriminate Hd.
Qed.

Lemma nr_detect_linux_loop names : never_raises (detect_linux_loop env probe names).
Proof.
  induction names as [|n names IH]; cbn [detect_linux_loop]; [ apply nr_ret | ].
  apply nr_bind; [ | intros _ ].
  { intros w. exists tt. apply source_combo_addItem_returns.
    apply device_data_returns. now left. }
  apply nr_bind; [ apply nr_in_app, nr_log | intros _ ]. exact IH.
Qed.

Lemma nr_detect_windows_loop lines : never_raises (detect_windows_loop env lines).
Proof.
  induction lines as [|l lines IH]; cbn [detect_windows_loop]; [ apply nr_ret | ].
  apply nr_bind; [ | intros _; exact IH ].
  destruct (contains "DirectShow video devices" l); [ apply nr_ret | ].
  destruct (search_quoted l) as [device_name|]; [ | apply nr_ret ].
  destruct (contains "video" (lower l)); [ | apply nr_ret ].
  apply nr_bind; [ | intros _; apply nr_in_app, nr_log ].
  intros w. exists tt. apply source_combo_addItem_returns.
  apply device_data_returns. now right.
Qed.

Lemma nr_detect_sources : never_raises (detect_sources env probe).
Proof.
  unfold detect_sources, detect_linux_devices, detect_windows_devices.
  apply nr_bind; [ apply nr_source_combo_clear | intros _ ].
  apply nr_bind; [ apply nr_in_app, nr_log | intros _ ].
  apply nr_bind; [ | intros _ ].
  { intros w. exists tt. apply source_combo_addItem_returns. intros source E. discriminate E. }
  nr.
Qed.

Lemma nr_CropCastApp_init : never_raises (CropCastApp_init env probe).
Proof.
  unfold CropCastApp_init.
  apply nr_bind; [ apply nr_in_app, nr_load_settings | intros _; apply nr_detect_sources ].
Qed.

End Never.


Lemma attributes_ok_weaken env (R R' : QComboBox -> json -> Prop) px a :
  (forall c o, R c o -> R' c o) -> attributes_ok env R px a -> attributes_ok env R' px a.
Proof. intros H (Ha & Hg & HR). split; [ exact Ha | split; [ exact Hg | apply H, HR ] ]. Qed.

Lemma startswith_dev n : startswith ("/dev/" ++ n) "/dev/" = true.
Proof. unfold startswith. cbn. destruct n; reflexivity. Qed.

Lemma startswith_video n : startswith ("video=" ++ n) "video=" = true.
Proof. unfold startswith. cbn. destruct n; reflexivity. Qed.

Section Detect.
Context (env : Env) (probe : Probe) (O : json -> Prop).

(** Clearing the source list. *)
Lemma source_combo_clear_post (Rc : QComboBox -> Prop) w :
  window_attributes_ok env (fun c o => Rc c /\ O o) w ->
  window_attributes_ok env (fun c o => c = new_combo /\ O o)
    (snd (source_combo_clear env w)).
Proof.
  intros (Ha & Hg & _ & HO). unfold source_combo_clear, bind, get.
  rewrite in_app_modify.
  assert (H1 : window_attributes_ok env (fun c o => c = new_combo /\ O o)
                 (set_base (set_source_combo new_combo (base w)) w)).
  { split; [ exact Ha | split; [ exact Hg | split; [ reflexivity | exact HO ] ] ]. }
  destruct (_ =? _); [ exact H1 | ].
  apply currentIndexChanged_wok, H1.
Qed.

(** Adding an item to the source list. *)
Lemma source_combo_addItem_post (Rc Rc' : QComboBox -> Prop) text data w :
  (forall c, Rc c -> Rc' (addItem text data c)) ->
  window_attributes_ok env (fun c o => Rc c /\ O o) w ->
  window_attributes_ok env (fun c o => Rc' c /\ O o)
    (snd (source_combo_addItem env text data w)).
Proof.
  intros Hadd (Ha & Hg & HR & HO). unfold source_combo_addItem, bind, get.
  rewrite in_app_modify.
  assert (H1 : window_attributes_ok env (fun c o => Rc' c /\ O o)
                 (set_base (set_source_combo (addItem text data (source_combo (base w)))
                                             (base w)) w)).
  { split; [ exact Ha | split; [ exact Hg | split; [ apply Hadd, HR | exact HO ] ] ]. }
  cbn [fst snd]. destruct (_ =? _); [ exact H1 | ].
  apply currentIndexChanged_wok, H1.
Qed.

Lemma addItem_detected text d c :
  captured env d = true ->
  source_list_detected env c -> source_list_detected env (addItem text (Some d) c).
Proof.
  intros Hd (rest & -> & Hrest). exists (rest ++ [(text, Some d)]). split; [ reflexivity | ].
  apply Forall_app. split; [ exact Hrest | ].
  constructor; [ | constructor ]. exists d. split; [ reflexivity | exact Hd ].
Qed.

Lemma log_post (R : QComboBox -> json -> Prop) msg w :
  window_attributes_ok env R w ->
  window_attributes_ok env R (snd (in_app (log_console msg) w)).
Proof. intros H. exact H. Qed.

Lemma detect_linux_loop_post names :
  startswith (sys_platform env) "linux" = true ->
  forall w,
    window_attributes_ok env (fun c o => source_list_detected env c /\ O o) w ->
    window_attributes_ok env (fun c o => source_list_detected env c /\ O o)
      (snd (detect_linux_loop env probe names w)).
Proof.
  intros Hp. induction names as [|n names IH]; intros w H; [ exact H | ].
  cbn [detect_linux_loop].
  revert w H. apply post_bind with
    (Q := window_attributes_ok env (fun c o => source_list_detected env c /\ O o)).
  - intros w. exists tt. apply source_combo_addItem_returns.
    apply device_data_returns. now left.
  - intros w H. apply (source_combo_addItem_post (source_list_detected env)); [ | exact H ].
    intros c. apply addItem_detected. unfold captured.
    rewrite Hp, startswith_dev. reflexivity.
  - intros _. apply post_bind with
      (Q := window_attributes_ok env (fun c o => source_list_detected env c /\ O o)).
    + apply nr_in_app, nr_log.
    + intros w H. exact H.
    + intros _. exact IH.
Qed.

Lemma detect_windows_loop_post lines :
  startswith (sys_platform env) "win" = true ->
  forall w,
    window_attributes_ok env (fun c o => source_list_detected env c /\ O o) w ->
    window_attributes_ok env (fun c o => source_list_detected env c /\ O o)
      (snd (detect_windows_loop env lines w)).
Proof.
  intros Hp. induction lines as [|l lines IH]; intros w H; [ exact H | ].
  cbn [detect_windows_loop].
  revert w H. apply post_bind with
    (Q := window_attributes_ok env (fun c o => source_list_detected env c /\ O o)).
  - destruct (contains "DirectShow video devices" l); [ apply nr_ret | ].
    destruct (search_quoted l) as [device_name|]; [ | apply nr_ret ].
    destruct (contains "video" (lower l)); [ | apply nr_ret ].
    apply nr_bind; [ | intros _; apply nr_in_app, nr_log ].
    intros w. exists tt. apply source_combo_addItem_returns.
    apply device_data_returns. now right.
  - intros w H.
    destruct (contains "DirectShow video devices" l); [ exact H | ].
    destruct (search_quoted l) as [device_name|]; [ | exact H ].
    destruct (contains "video" (lower l)); [ | exact H ].
    revert w H. apply post_bind with
      (Q := window_attributes_ok env (fun c o => source_list_detected env c /\ O o)).
    + intros w'. exists tt. apply source_combo_addItem_returns.
      apply device_data_returns. now right.
    + intros w H. apply (source_combo_addItem_post (source_list_detected env)); [ | exact H ].
      intros c. apply addItem_detected. unfold captured.
      rewrite Hp, startswith_video. apply orb_true_r.
    + intros _ w H. exact H.
  - intros _. exact IH.
Qed.

Lemma detect_sources_post (Rc : QComboBox -> Prop) w :
  window_attributes_ok env (fun c o => Rc c /\ O o) w ->
  window_attributes_ok env (fun c o => source_list_detected env c /\ O o)
    (snd (detect_sources env probe w)).
Proof.
  unfold detect_sources. revert w.
  apply post_bind with
    (Q := window_attributes_ok env (fun c o => c = new_combo /\ O o)).
  { apply nr_source_combo_clear. }
  { intros w. apply source_combo_clear_post. }
  intros _. apply post_bind with
    (Q := window_attributes_ok env (fun c o => c = new_combo /\ O o)).
  { apply nr_in_app, nr_log. }
  { intros w H. exact H. }
  intros _. apply post_bind with
    (Q := window_attributes_ok env (fun c o => source_list_detected env c /\ O o)).
  { intros w. exists tt. apply source_combo_addItem_returns. intros source E. discriminate E. }
  { intros w H. apply (source_combo_addItem_post (fun c => c = new_combo)); [ | exact H ].
    intros c ->. exists []. split; [ reflexivity | constructor ]. }
  intros _ w H.
  destruct (startswith (sys_platform env) "linux") eqn:Hl.
  - revert w H. unfold detect_linux_devices. apply preserves_try_except.
    + apply preserves_bind; [ apply preserves_lift | intros names ].
      intros w H. now apply detect_linux_loop_post.
    + intros e w H. exact H.
  - destruct (startswith (sys_platform env) "win") eqn:Hw; [ | exact H ].
    revert w H. unfold detect_windows_devices. apply preserves_try_except.
    + apply preserves_bind; [ apply preserves_lift | intros stderr ].
      intros w H. now apply detect_windows_loop_post.
    + intros e w H. exact H.
Qed.

End Detect.

(** The output folder after the start-up load. *)
Lemma load_string_path env disk :
  string_output env disk ->
  exists folder, output_path (snd (load_settings env (init_ui env disk))) = JStr folder.
Proof.
  intros Hd.
  assert (H : settings_file (snd (load_settings env (init_ui env disk))) = disk /\
              exists folder,
                output_path (snd (load_settings env (init_ui env disk))) = JStr folder);
    [ | exact (proj2 H) ].
  apply (load_settings_preserves env
           (fun s => settings_file s = disk /\ exists folder, output_path s = JStr folder)
           disk); [ .. | split; [ reflexivity | eexists; reflexivity ] ].
  all: try (intros s [H _]; exact H).
  all: try (intros doc Hc; apply restore_source_preserves; intros c s H; exact H).
  all: try (intros ? ? ? ? ? H; exact H).
  all: try (intros ? ? H; exact H).
  intros doc s Hdoc [Hf _]. split; [ exact Hf | ].
  subst disk. exact Hd.
Qed.

Lemma started_attributes env probe disk (O : json -> Prop) :
  O (output_path (snd (load_settings env (init_ui env disk)))) ->
  window_attributes_ok env (fun c o => source_list_detected env c /\ O o)
    (started env probe disk).
Proof.
  intros HO. unfold started, CropCastApp_init.
  apply post_bind with
    (P := fun w => w = new_window env disk)
    (Q := window_attributes_ok env (fun c o => c = new_combo /\ O o));
    [ apply nr_in_app, nr_load_settings | | | reflexivity ].
  - intros w ->. rewrite in_app_run. cbn [snd].
    pose proof (load_settings_attributes_empty env (mkImage 0 0) (init_ui env disk)
                  (init_ui_attributes env disk)) as (Ha & Hg & HR).
    split; [ exact Ha | split; [ exact Hg | split; [ exact HR | exact HO ] ] ].
  - intros _ w. apply detect_sources_post.
Qed.

Lemma source_list_detected_ok env c : source_list_detected env c -> source_list_ok env c.
Proof. intros (rest & -> & H). exists ("Select a file...", None), rest. now split. Qed.

Lemma source_list_ok_index env i c : source_list_ok env c -> source_list_ok env (setCurrentIndex i c).
Proof. intros H. exact H. Qed.

Lemma source_list_ok_update env f c :
  source_list_ok env c -> source_list_ok env (update_item 0 f c).
Proof.
  intros (first & rest & E & H). unfold update_item. cbn [Z.ltb Z.compare Z.to_nat].
  exists (f first), rest. cbn [items]. rewrite E. split; [ reflexivity | exact H ].
Qed.

Lemma replay_attributes env probe (R : QComboBox -> json -> Prop) :
  (forall i c o, R c o -> R (setCurrentIndex i c) o) ->
  (forall t c o, R c o -> R (setItemText 0 t c) o) ->
  (forall d c o, R c o -> R (setItemData 0 d c) o) ->
  (forall folder c o, R c o -> R c (JStr folder)) ->
  forall events w,
    window_attributes_ok env R w ->
    window_attributes_ok env R (replay env probe events w).
Proof.
  intros H1 H2 H3 H4 events. induction events as [|e events IH]; intros w H; [ exact H | ].
  cbn [replay fold_left]. apply IH. now apply handle_wok.
Qed.

(** Every window that the events can reach keeps the invariant, together
    with any property [O] of the output folder that holds for strings. *)
Lemma reachable_attributes env probe disk (O : json -> Prop) events :
  (forall folder, O (JStr folder)) ->
  O (output_path (snd (load_settings env (init_ui env disk)))) ->
  window_attributes_ok env (fun c o => source_list_ok env c /\ O o)
    (replay env probe events (started env probe disk)).
Proof.
  intros Hstr HO. apply replay_attributes.
  - intros i c o [H1 H2]. split; [ exact H1 | exact H2 ].
  - intros t c o [H1 H2]. split; [ now apply source_list_ok_update | exact H2 ].
  - intros d c o [H1 H2]. split; [ now apply source_list_ok_update | exact H2 ].
  - intros folder c o [H1 _]. split; [ exact H1 | apply Hstr ].
  - apply (attributes_ok_weaken env (fun c o => source_list_detected env c /\ O o)).
    + intros c o [H1 H2]. split; [ now apply source_list_detected_ok | exact H2 ].
    + now apply started_attributes.
Qed.

End StartFacts.

Import WindowFacts StartFacts.

Lemma synced_repaint a :
  overlay_synced a -> repaint (crop_overlay a) = repaint (expected_overlay a).
Proof.
  intros (E1 & E2 & E3 & E4 & [[E5 E6]|(Z1 & Z2 & Z3 & Z4)]).
  - f_equal. unfold expected_overlay. rewrite <- E1, <- E2, <- E3, <- E4, <- E5, <- E6.
    destruct (crop_overlay a); reflexivity.
  - rewrite (repaint_eq _ _ _ (scale_factor_ok _ _) (scale_factor_ok _ _)).
    rewrite (repaint_eq (expected_overlay a) _ _ (scale_factor_ok _ _) (scale_factor_ok _ _)).
    unfold paint_calls, expected_overlay;
      cbn [crop_top crop_bottom crop_left crop_right width height].
    rewrite E1, E2, E3, E4, Z1, Z2, Z3, Z4. reflexivity.
Qed.

Lemma captured_is_device env d : captured env d = true -> is_device d = true.
Proof.
  unfold captured, is_device. intros H.
  destruct (startswith d "video="), (startswith d "/dev/"); try reflexivity.
  rewrite !andb_false_r in H. discriminate.
Qed.

Lemma device_items_captured env c i d :
  source_list_ok env c -> 1 <= i -> itemData c i = Some d -> captured env d = true.
Proof.
  intros (first & rest & E & Hrest) Hi Hd. unfold itemData, item_at in Hd. rewrite E in Hd.
  destruct (Z.ltb_spec i 0); [ lia | ].
  destruct (Z.to_nat i) as [|n] eqn:En; [ lia | ]. cbn [nth_error] in Hd.
  destruct (nth_error rest n) as [[t d']|] eqn:Hn; [ | discriminate ].
  subst d'. apply nth_error_In in Hn.
  rewrite Forall_forall in Hrest. destruct (Hrest _ Hn) as (d' & Hd' & Hc).
  cbn [snd] in Hd'. injection Hd' as ->. exact Hc.
Qed.

(** X12: whatever the settings file holds, whatever the device probe answers
    and whatever events follow, the window stays consistent: the six spin
    boxes stay in their ranges; the overlay holds the crop distances of the
    spin boxes and paints exactly what these distances and the detected
    resolution prescribe; a window marked as converting has a conversion
    thread; the device flag is only set with a current source, which is
    never the empty string; the source list starts with the file entry and
    every further entry is a device that the builder captures on the running
    platform; and the overlay has the size of the pixmap on the preview
    label. *)
Theorem reachable_window_is_consistent :
  forall env probe disk events,
    let w := replay env probe events (started env probe disk) in
    let a := base w in
    widget_bounds a /\
    crop_top (crop_overlay a) = value (crop_top_spin a) /\
    crop_bottom (crop_overlay a) = value (crop_bottom_spin a) /\
    crop_left (crop_overlay a) = value (crop_left_spin a) /\
    crop_right (crop_overlay a) = value (crop_right_spin a) /\
    repaint (crop_overlay a) = repaint (expected_overlay a) /\
    (is_converting a = true -> exists cmd, conversion_thread a = Some cmd) /\
    (is_device_source a = true -> exists source, current_source a = Some source) /\
    current_source a <> Some "" /\
    (exists first rest,
       items (source_combo a) = first :: rest /\ Forall (device_item env) rest) /\
    (forall i d, 1 <= i -> itemData (source_combo a) i = Some d ->
       captured env d = true /\ is_device d = true /\
       exists fmt, input_args env d = Some ["-f"; fmt; "-i"; d]) /\
    (isNull (preview_pixmap w) = false ->
     width (crop_overlay a) = image_width (preview_pixmap w) /\
     height (crop_overlay a) = image_height (preview_pixmap w)) /\
    window_ok env w.
Proof.
  intros env probe disk events w a.
  pose proof (reachable_attributes env probe disk (fun _ => True) events
                (fun _ => I) I) as H.
  fold w in H. subst a. clearbody w.
  pose proof H as ((Hb & Hs & Hc & Hd & He) & (Hg & _) & (HR & _)).
  split; [ exact Hb | ].
  pose proof Hs as (E1 & E2 & E3 & E4 & _).
  repeat (split; [ assumption | ]).
  split; [ now apply synced_repaint | ].
  split.
  { intros Hconv. specialize (Hc Hconv).
    destruct (conversion_thread (base w)) as [cmd|]; [ now exists cmd | congruence ]. }
  split.
  { intros Hdev. specialize (Hd Hdev).
    destruct (current_source (base w)) as [s|]; [ now exists s | congruence ]. }
  split; [ exact He | ].
  split; [ exact HR | ].
  split.
  { intros i d Hi Hdata.
    pose proof (device_items_captured env _ i d HR Hi Hdata) as Hcap.
    split; [ exact Hcap | split; [ now apply (captured_is_device env) | ] ].
    unfold captured in Hcap. unfold input_args.
    destruct (startswith (sys_platform env) "linux" && startswith d "/dev/");
      [ eexists; reflexivity | ].
    cbn [orb] in Hcap. rewrite Hcap. eexists; reflexivity. }
  split; [ exact Hg | ].
  split; [ exact (conj Hb (conj Hs (conj Hc (conj Hd He)))) | ].
  split; [ exact (proj1 (proj2 H)) | exact HR ].
Qed.

Lemma reachable_items_captured env probe disk events i d :
  1 <= i ->
  itemData (source_combo (base (replay env probe events (started env probe disk)))) i
  = Some d ->
  captured env d = true /\ is_device d = true.
Proof.
  intros Hi Hd.
  pose proof (reachable_attributes env probe disk (fun _ => True) events
                (fun _ => I) I) as (_ & _ & (HR & _)).
  pose proof (device_items_captured env _ i d HR Hi Hd) as Hcap.
  split; [ exact Hcap | now apply (captured_is_device env) ].
Qed.

(** X13: when the settings file cannot give the output folder a value that is
    not a string, a handler of the window returns normally, whatever events
    came before, provided the existence checks it makes answer: the handlers
    of a source change, of the file dialog and of the convert button call
    [Path.exists], which raises for a path the system refuses; every other
    handler returns whatever the file system does. *)
Theorem handlers_never_raise :
  forall env probe disk events e,
    string_output env disk ->
    (checks_path e = true -> paths_answer env) ->
    fst (handle env probe e (replay env probe events (started env probe disk))) = Ok tt.
Proof.
  intros env probe disk events e Hdisk Hpaths.
  pose proof (reachable_attributes env probe disk
                (fun o => exists folder, o = JStr folder) events
                (fun folder => ex_intro _ folder eq_refl)
                (load_string_path env disk Hdisk)) as H.
  set (w := replay env probe events (started env probe disk)) in *.
  destruct H as ((Hb & Hs & Hc & Hd & He) & Hg & (HR & folder & Ho)).
  destruct e; cbn [handle checks_path] in *.
  - apply nr_unit, nr_in_app, nr_editValue, nr_update_crop_overlay.
  - apply nr_unit, nr_in_app, nr_editValue, nr_update_crop_overlay.
  - apply nr_unit, nr_in_app, nr_editValue, nr_update_crop_overlay.
  - apply nr_unit, nr_in_app, nr_editValue, nr_update_crop_overlay.
  - apply nr_unit, nr_in_app, nr_editValue, nr_ret.
  - apply nr_unit, nr_in_app, nr_editValue, nr_ret.
  - reflexivity.
  - reflexivity.
  - apply nr_unit, (nr_source_combo_setCurrentIndex env (Hpaths eq_refl)).
  - apply nr_unit, (nr_browse_file env (Hpaths eq_refl)).
  - unfold select_output_path, bind, get. rewrite Ho.
    destruct (negb (folder0 =? "")%string); reflexivity.
  - unfold toggle_conversion, bind, get.
    destruct (is_converting (base w)); [ apply nr_unit, nr_stop_conversion | ].
    rewrite in_app_run. cbn [fst].
    apply (start_conversion_never_raises env (base w) folder (Hpaths eq_refl) Ho).
  - unfold toggle_playback, bind, get.
    destruct (is_device_source (base w)) eqn:Hdev; [ | reflexivity ].
    specialize (Hd eq_refl).
    destruct (current_source (base w)) as [source|]; [ | congruence ].
    destruct (preview_thread w); [ destruct (preview_isRunning w) | ];
      first [ apply nr_unit, nr_stop_device_preview
            | apply nr_unit, nr_start_device_preview ].
  - apply nr_unit, nr_on_video_frame.
  - apply nr_unit, nr_update_preview_frame.
  - reflexivity.
  - apply nr_unit, nr_in_app, nr_deliver.
  - apply nr_unit, nr_update_overlay_geometry.
  - reflexivity.
  - reflexivity.
  - apply nr_unit, nr_closeEvent.
Qed.

Lemma handlers_never_raise_witness :
  fst (handle example_env
         (mkProbe (Ok ["video0"]) (fun _ => Raise OSError) (fun _ => None)
                  (Raise OSError) (fun i _ => i))
         ConvertClicked
         (replay example_env
            (mkProbe (Ok ["video0"]) (fun _ => Raise OSError) (fun _ => None)
                     (Raise OSError) (fun i _ => i))
            [SourceActivated 1; CropTopEdited 12; OutputClicked "/out"]
            (started example_env
               (mkProbe (Ok ["video0"]) (fun _ => Raise OSError) (fun _ => None)
                        (Raise OSError) (fun i _ => i))
               (Some (Document (JObj [("output_path", JStr "/videos")]))))))
  = Ok tt.
Proof.
  apply (handlers_never_raise example_env _
           (Some (Document (JObj [("output_path", JStr "/videos")])))
           [SourceActivated 1; CropTopEdited 12; OutputClicked "/out"]
           ConvertClicked).
  - exists "/videos". reflexivity.
  - intros _ p. eexists. reflexivity.
Defined.

(** The condition on the existence checks is needed: with a file system
    that refuses every path, the convert button raises for a file chosen in
    the dialog, and the window stays as it was. *)
Example convert_raises_when_check_raises :
  let env := mkEnv "linux" (fun _ => Raise OSError)
                   (fun _ => "in") (fun _ => "in.mp4")
                   (fun a b => (a ++ "/" ++ b)%string) "/home/user"
                   (fun _ => "error") (fun s => s) true NotOpened 800 450 in
  let probe := mkProbe (Ok []) (fun _ => Raise OSError) (fun _ => None)
                       (Raise OSError) (fun i _ => i) in
  let w := replay env probe [BrowseClicked "/videos/in.mp4"] (started env probe None) in
  current_source (base w) = Some "/videos/in.mp4" /\
  handle env probe ConvertClicked w = (Raise OSError, w).
Proof. vm_compute. split; reflexivity. Qed.
Module DetectFacts.
Import WindowFacts StartFacts.

Lemma until_quote_no_quote s : forall t, until_quote s = Some t -> has_quote t = false.
Proof.
  induction s as [|c s IH]; intros t H; cbn [until_quote] in H; [ discriminate | ].
  destruct (is_quote c) eqn:Hq; [ injection H as <-; reflexivity | ].
  destruct (until_quote s) as [t'|]; [ | discriminate ].
  injection H as <-. cbn [has_quote]. rewrite Hq. now apply IH.
Qed.

Lemma search_quoted_name s : forall name,
  search_quoted s = Some name -> name <> "" /\ has_quote name = false.
Proof.
  induction s as [|c s IH]; intros name H; cbn [search_quoted] in H; [ discriminate | ].
  destruct (is_quote c); [ | now apply IH ].
  destruct (until_quote s) as [[|d t]|] eqn:Hu; try (now apply IH).
  injection H as <-. split; [ discriminate | ].
  exact (until_quote_no_quote s _ Hu).
Qed.

Section Startup.
Context (env : Env) (probe : Probe).

(** Adding an item to a source list whose first item is current raises no
    signal. *)
Lemma addItem_quiet text data first rest a th pr cr px sz c :
  source_combo_addItem env text data
    (mkWindow (set_console_output c (set_source_combo (mkCombo (first :: rest) 0) a))
              th pr cr px sz)
  = (Ok tt,
     mkWindow (set_console_output c
                 (set_source_combo (mkCombo (first :: rest ++ [(text, data)]) 0) a))
              th pr cr px sz).
Proof. reflexivity. Qed.

Lemma log_run msg a th pr cr px sz c cb :
  in_app (log_console msg)
    (mkWindow (set_console_output c (set_source_combo cb a)) th pr cr px sz)
  = (Ok tt, mkWindow (set_console_output (c ++ [msg]) (set_source_combo cb a))
                     th pr cr px sz).
Proof. reflexivity. Qed.

Lemma detect_linux_loop_run names : forall first rest a th pr cr px sz c,
  exists devices log,
    detect_linux_loop env probe names
      (mkWindow (set_console_output c (set_source_combo (mkCombo (first :: rest) 0) a))
                th pr cr px sz)
    = (Ok tt,
       mkWindow (set_console_output (c ++ log)
                   (set_source_combo (mkCombo (first :: rest ++ devices) 0) a))
                th pr cr px sz) /\
    map snd devices = map (fun n => Some ("/dev/" ++ n)%string) names /\
    List.length log = List.length names.
Proof.
  induction names as [|n names IH]; intros first rest a th pr cr px sz c.
  - exists [], []. cbn. rewrite !app_nil_r. repeat split; reflexivity.
  - cbn [detect_linux_loop].
    unfold bind at 1. rewrite addItem_quiet. unfold bind at 1. rewrite log_run.
    match goal with
    | |- context [detect_linux_loop env probe names
                    (mkWindow (set_console_output ?c'
                                 (set_source_combo (mkCombo (first :: ?rest') 0) a))
                              th pr cr px sz)] =>
        destruct (IH first rest' a th pr cr px sz c') as (devices & log & E & Hd & Hl)
    end.
    eexists (_ :: devices), (_ :: log). rewrite E.
    split; [ rewrite <- !app_assoc; reflexivity | ].
    split; [ cbn [map snd]; rewrite Hd; reflexivity | cbn [List.length]; now rewrite Hl ].
Qed.

Lemma detect_windows_loop_run lines : forall first rest a th pr cr px sz c,
  exists devices log,
    detect_windows_loop env lines
      (mkWindow (set_console_output c (set_source_combo (mkCombo (first :: rest) 0) a))
                th pr cr px sz)
    = (Ok tt,
       mkWindow (set_console_output (c ++ log)
                   (set_source_combo (mkCombo (first :: rest ++ devices) 0) a))
                th pr cr px sz) /\
    Forall dshow_entry devices /\
    log = map (fun it => ("Found device: " ++ fst it)%string) devices /\
    (List.length devices <= List.length lines)%nat.
Proof.
  induction lines as [|l lines IH]; intros first rest a th pr cr px sz c.
  - exists [], []. cbn. rewrite !app_nil_r. repeat split; [ constructor | lia ].
  - cbn [detect_windows_loop].
    assert (Hskip : forall m : M Window unit,
              m (mkWindow (set_console_output c
                             (set_source_combo (mkCombo (first :: rest) 0) a))
                          th pr cr px sz)
              = (Ok tt, mkWindow (set_console_output c
                                    (set_source_combo (mkCombo (first :: rest) 0) a))
                                 th pr cr px sz) ->
              exists devices log,
                bind m (fun _ => detect_windows_loop env lines)
                  (mkWindow (set_console_output c
                               (set_source_combo (mkCombo (first :: rest) 0) a))
                            th pr cr px sz)
                = (Ok tt,
                   mkWindow (set_console_output (c ++ log)
                               (set_source_combo (mkCombo (first :: rest ++ devices) 0) a))
                            th pr cr px sz) /\
                Forall dshow_entry devices /\
                log = map (fun it => ("Found device: " ++ fst it)%string) devices /\
                (List.length devices <= S (List.length lines))%nat).
    { intros m Hm. rewrite (bind_ok _ _ _ _ _ Hm).
      destruct (IH first rest a th pr cr px sz c) as (devices & log & E & Hd & Hl & Hn).
      exists devices, log. repeat split; try assumption. lia. }
    destruct (contains "DirectShow video devices" l); [ now apply Hskip | ].
    destruct (search_quoted l) as [name|] eqn:Hs; [ | now apply Hskip ].
    destruct (contains "video" (lower l)); [ | now apply Hskip ].
    clear Hskip.
    unfold bind at 1. unfold bind at 1.
    rewrite addItem_quiet. rewrite log_run.
    destruct (IH first (rest ++ [(name, Some ("video=" ++ name)%string)]) a th pr cr px sz
                 (c ++ [("Found device: " ++ name)%string]))
      as (devices & log & E & Hd & Hl & Hn).
    exists ((name, Some ("video=" ++ name)%string) :: devices),
           (("Found device: " ++ name)%string :: log).
    rewrite E. split; [ rewrite <- !app_assoc; reflexivity | ].
    split; [ | split; [ cbn [map fst]; now rewrite Hl | cbn [List.length]; lia ] ].
    constructor; [ | exact Hd ].
    exists name. split; [ reflexivity | ]. now apply search_quoted_name with (s := l).
Qed.

End Startup.

End DetectFacts.

Import DetectFacts.

(** X14: what [__init__] leaves behind.  After the settings are loaded,
    [detect_sources] changes nothing but the source list and the console:
    the list is the entry "Select a file..." (current, without data)
    followed by the detected devices, each of which the builder captures on
    the running platform.  On Linux the devices are the entries of
    [/dev/video*] in order, with the path as data; on Windows each device
    is a non-empty quoted name without a double quote, with [video=<name>]
    as data; a failing probe leaves no device and one error line; on any
    other platform there is no device.  A file restored from the settings
    is the current source although the list still shows "Select a
    file...". *)
Theorem startup_source_list :
  forall env probe disk,
    let loaded := snd (load_settings env (init_ui env disk)) in
    let w := started env probe disk in
    exists devices log,
      w = mkWindow
            (set_console_output
               (console_output loaded ++ "Detecting video sources..." :: log)
               (set_source_combo
                  (mkCombo (("Select a file...", None) :: devices) 0) loaded))
            None false false (mkImage 0 0) (preview_width env, preview_height env) /\
      fst (CropCastApp_init env probe (new_window env disk)) = Ok tt /\
      currentText (source_combo (base w)) = "Select a file..." /\
      current_source (base w) = current_source loaded /\
      is_device_source (base w) = false /\
      Forall (device_item env) devices /\
      (startswith (sys_platform env) "linux" = true ->
       match dev_video probe with
       | Ok names =>
           map snd devices = map (fun n => Some ("/dev/" ++ n)%string) names /\
           List.length log = List.length names
       | Raise e =>
           devices = [] /\
           log = [("Error detecting Linux devices: " ++ exn_str env e)%string]
       end) /\
      (startswith (sys_platform env) "linux" = false ->
       startswith (sys_platform env) "win" = true ->
       match ffmpeg_list_devices probe with
       | Ok stderr =>
           Forall dshow_entry devices /\
           log = map (fun it => ("Found device: " ++ fst it)%string) devices /\
           (List.length devices <= List.length (split_lines stderr))%nat
       | Raise e =>
           devices = [] /\
           log = [("Error detecting Windows devices: " ++ exn_str env e)%string]
       end) /\
      (startswith (sys_platform env) "linux" = false ->
       startswith (sys_platform env) "win" = false -> devices = [] /\ log = []).
Proof.
  intros env probe disk loaded w.
  destruct (startup_load_flag env disk) as (Hcombo & Hflag).
  fold loaded in Hcombo, Hflag.
  pose proof (started_attributes env probe disk (fun _ => True) I) as Hinv. fold w in Hinv.
  assert (Hrun : exists devices log,
    CropCastApp_init env probe (new_window env disk)
    = (Ok tt,
       mkWindow
         (set_console_output
            (console_output loaded ++ "Detecting video sources..." :: log)
            (set_source_combo
               (mkCombo (("Select a file...", None) :: devices) 0) loaded))
         None false false (mkImage 0 0) (preview_width env, preview_height env)) /\
    (startswith (sys_platform env) "linux" = true ->
     match dev_video probe with
     | Ok names =>
         map snd devices = map (fun n => Some ("/dev/" ++ n)%string) names /\
         List.length log = List.length names
     | Raise e =>
         devices = [] /\
         log = [("Error detecting Linux devices: " ++ exn_str env e)%string]
     end) /\
    (startswith (sys_platform env) "linux" = false ->
     startswith (sys_platform env) "win" = true ->
     match ffmpeg_list_devices probe with
     | Ok stderr =>
         Forall dshow_entry devices /\
         log = map (fun it => ("Found device: " ++ fst it)%string) devices /\
         (List.length devices <= List.length (split_lines stderr))%nat
     | Raise e =>
         devices = [] /\
         log = [("Error detecting Windows devices: " ++ exn_str env e)%string]
     end) /\
    (startswith (sys_platform env) "linux" = false ->
     startswith (sys_platform env) "win" = false -> devices = [] /\ log = [])).
  { unfold CropCastApp_init, new_window.
    assert (S0 : in_app (load_settings env)
                   (mkWindow (init_ui env disk) None false false (mkImage 0 0)
                             (preview_width env, preview_height env))
                 = (Ok tt, mkWindow loaded None false false (mkImage 0 0)
                                    (preview_width env, preview_height env))).
    { rewrite in_app_run. cbn [base]. rewrite load_settings_ok. reflexivity. }
    rewrite (bind_ok _ _ _ _ _ S0). clear S0.
    unfold detect_sources.
    assert (S1 : source_combo_clear env
                   (mkWindow loaded None false false (mkImage 0 0)
                             (preview_width env, preview_height env))
                 = (Ok tt, mkWindow (set_source_combo new_combo loaded) None false false
                                    (mkImage 0 0) (preview_width env, preview_height env))).
    { unfold source_combo_clear, bind, get. cbn [base]. rewrite Hcombo. reflexivity. }
    rewrite (bind_ok _ _ _ _ _ S1). clear S1.
    assert (S2 : in_app (log_console "Detecting video sources...")
                   (mkWindow (set_source_combo new_combo loaded) None false false
                             (mkImage 0 0) (preview_width env, preview_height env))
                 = (Ok tt,
                    mkWindow (set_console_output
                                (console_output loaded ++ ["Detecting video sources..."])
                                (set_source_combo new_combo loaded))
                             None false false (mkImage 0 0)
                             (preview_width env, preview_height env))) by reflexivity.
    rewrite (bind_ok _ _ _ _ _ S2). clear S2.
    assert (S3 : source_combo_addItem env "Select a file..." None
                   (mkWindow (set_console_output
                                (console_output loaded ++ ["Detecting video sources..."])
                                (set_source_combo new_combo loaded))
                             None false false (mkImage 0 0)
                             (preview_width env, preview_height env))
                 = (Ok tt,
                    mkWindow (set_console_output
                                (console_output loaded ++ ["Detecting video sources..."])
                                (set_source_combo
                                   (mkCombo [("Select a file...", None)] 0) loaded))
                             None false false (mkImage 0 0)
                             (preview_width env, preview_height env))).
    { unfold source_combo_addItem, currentIndexChanged, bind, get.
      cbn [base set_base source_combo set_source_combo set_console_output
           source_signals_blocked in_app modify fst snd addItem new_combo items
           currentIndex Z.eqb].
      destruct (source_signals_blocked loaded); reflexivity. }
    rewrite (bind_ok _ _ _ _ _ S3). clear S3.
    destruct (startswith (sys_platform env) "linux") eqn:Hl;
      [ | destruct (startswith (sys_platform env) "win") eqn:Hw ].
    - unfold detect_linux_devices, try_except, bind, lift.
      destruct (dev_video probe) as [names|e].
      + destruct (detect_linux_loop_run env probe names ("Select a file...", None) [] loaded
                    None false false (mkImage 0 0) (preview_width env, preview_height env)
                    (console_output loaded ++ ["Detecting video sources..."]))
          as (devices & log & E & Hd & Hlen).
        exists devices, log. rewrite E. cbn [app]. rewrite <- app_assoc. cbn [app].
        split; [ reflexivity | ].
        split; [ intros _; split; assumption | split; intros; discriminate ].
      + exists [], [("Error detecting Linux devices: " ++ exn_str env e)%string].
        cbn [fst snd]. unfold in_app, log_console, modify.
        cbn [base console_output set_console_output set_base].
        rewrite <- app_assoc. cbn [app].
        split; [ reflexivity | ].
        split; [ intros _; split; reflexivity | split; intros; discriminate ].
    - unfold detect_windows_devices, try_except, bind, lift.
      destruct (ffmpeg_list_devices probe) as [stderr|e].
      + destruct (detect_windows_loop_run env (split_lines stderr)
                    ("Select a file...", None) [] loaded
                    None false false (mkImage 0 0) (preview_width env, preview_height env)
                    (console_output loaded ++ ["Detecting video sources..."]))
          as (devices & log & E & Hd & Hlog & Hlen).
        exists devices, log. rewrite E. cbn [app]. rewrite <- app_assoc. cbn [app].
        split; [ reflexivity | ].
        split; [ intros; discriminate | ].
        split; [ intros _ _; repeat split; assumption | intros; discriminate ].
      + exists [], [("Error detecting Windows devices: " ++ exn_str env e)%string].
        cbn [fst snd]. unfold in_app, log_console, modify.
        cbn [base console_output set_console_output set_base].
        rewrite <- app_assoc. cbn [app].
        split; [ reflexivity | ].
        split; [ intros; discriminate | ].
        split; [ intros _ _; split; reflexivity | intros; discriminate ].
    - exists [], []. cbn [ret].
      split; [ reflexivity | ].
      split; [ intros; discriminate | ].
      split; [ intros; discriminate | intros _ _; split; reflexivity ]. }
  destruct Hrun as (devices & log & E & H1 & H2 & H3).
  exists devices, log.
  assert (Ew : w = mkWindow
            (set_console_output
               (console_output loaded ++ "Detecting video sources..." :: log)
               (set_source_combo
                  (mkCombo (("Select a file...", None) :: devices) 0) loaded))
            None false false (mkImage 0 0) (preview_width env, preview_height env)).
  { unfold w, started. rewrite E. reflexivity. }
  split; [ exact Ew | ].
  split; [ rewrite E; reflexivity | ].
  split; [ rewrite Ew; reflexivity | ].
  split; [ rewrite Ew; reflexivity | ].
  split; [ rewrite Ew; exact Hflag | ].
  split; [ | split; [ exact H1 | split; [ exact H2 | exact H3 ] ] ].
  destruct Hinv as (_ & _ & (rest & Hrest & Hdev) & _).
  rewrite Ew in Hrest. cbn [base source_combo set_console_output set_source_combo] in Hrest.
  injection Hrest as ->. exact Hdev.
Qed.

Module SelectFacts.
Import WindowFacts StartFacts.

Lemma dev_not_video d : startswith d "/dev/" = true -> startswith d "video=" = false.
Proof.
  unfold startswith. destruct d as [|c d]; [ discriminate | ]. cbn [prefix].
  destruct (Ascii.ascii_dec "/" c) as [<-|]; intros H; [ reflexivity | discriminate H ].
Qed.

Lemma platform_not_both p : startswith p "linux" = true -> startswith p "win" = false.
Proof.
  unfold startswith. destruct p as [|c p]; [ discriminate | ]. cbn [prefix].
  destruct (Ascii.ascii_dec "l" c) as [<-|]; intros H; [ reflexivity | discriminate H ].
Qed.

Lemma startswith_nonempty d p : p <> "" -> startswith d p = true -> d <> "".
Proof. intros Hp H ->. destruct p; [ congruence | discriminate ]. Qed.

Lemma itemData_in_range c i d :
  itemData c i = Some d -> (0 <=? i) && (i <? count c) = true.
Proof.
  unfold itemData, item_at, count. destruct (Z.ltb_spec i 0); [ discriminate | ].
  destruct (nth_error (items c) (Z.to_nat i)) eqn:Hn; [ | discriminate ]. intros _.
  assert (Hlt : (Z.to_nat i < List.length (items c))%nat)
    by (apply nth_error_Some; congruence).
  apply andb_true_intro. split; [ apply Z.leb_le | apply Z.ltb_lt ]; lia.
Qed.

(** The signal of the source list for an entry that holds a device. *)
Lemma on_source_changed_device env i d w :
  itemData (source_combo (base w)) i = Some d -> is_device d = true ->
  exists c,
    snd (on_source_changed env i w)
    = mkWindow
        (set_console_output
           (c ++ [("Selected device: " ++ currentText (source_combo (base w)))%string;
                  "Starting device preview..."])
           (set_is_device_source true (set_current_source (Some d) (base w))))
        (Some (mkPreviewThread d (startswith d "video=")))
        (preview_isRunning w) (conversion_isRunning w) (preview_pixmap w)
        (preview_label_size w).
Proof.
  intros Hdata Hdev.
  assert (Hne : (d =? "")%string = false).
  { destruct d; [ discriminate Hdev | reflexivity ]. }
  unfold is_device in Hdev.
  unfold on_source_changed.
  match goal with |- context [bind stop_device_preview ?k] => set (K := k) end.
  assert (Hgo : forall w0 : Window,
            source_combo (base w0) = source_combo (base w) ->
            snd (K tt w0)
            = mkWindow
                (set_console_output
                   (console_output (base w0)
                    ++ [("Selected device: "
                         ++ currentText (source_combo (base w)))%string;
                        "Starting device preview..."])
                   (set_is_device_source true (set_current_source (Some d) (base w0))))
                (Some (mkPreviewThread d (startswith d "video=")))
                (preview_isRunning w0) (conversion_isRunning w0) (preview_pixmap w0)
                (preview_label_size w0)).
  { intros w0 Hc. unfold K. unfold bind at 1. cbn [get fst snd].
    rewrite Hc, Hdata, Hne. cbn [negb].
    rewrite (bind_ok _ _ _ _ _ (in_app_modify _ w0)). cbv zeta.
    rewrite (bind_ok _ _ _ _ _ (in_app_modify _ _)).
    rewrite Hdev. unfold bind at 1. cbn [get fst snd].
    unfold start_device_preview, bind, in_app, log_console, modify.
    cbn [fst snd base set_base set_preview_thread set_current_source set_is_device_source
         set_console_output console_output source_combo is_device_source current_source
         preview_thread preview_isRunning conversion_isRunning preview_pixmap
         preview_label_size].
    rewrite Hc, <- app_assoc. reflexivity. }
  clearbody K.
  unfold bind at 1. unfold stop_device_preview, bind at 1, get.
  cbn [fst snd].
  destruct (preview_thread w) eqn:Hth; [ destruct (preview_isRunning w) eqn:Hrun | ].
  - cbv beta iota zeta delta [bind modify in_app log_console].
    rewrite Hgo by reflexivity. clear Hgo Hdata.
    destruct w as [a th run crun px sz]. cbn in Hrun. subst run. destruct a.
    eexists (_ ++ [_]). reflexivity.
  - cbn [ret fst snd]. rewrite Hgo by reflexivity. rewrite Hrun. eexists. reflexivity.
  - cbn [ret fst snd]. rewrite Hgo by reflexivity. eexists. reflexivity.
Qed.

(** ** The blocked signals of the source list

    Only [load_settings] blocks the signals of the source list: no handler
    and no step of [detect_sources] changes whether they are blocked, and
    [load_settings] leaves them blocked only when an existence check
    raises. *)

Section Signals.
Context (env : Env) (probe : Probe).

Local Notation "'quiet' b" := (fun a : App => source_signals_blocked a = b)
  (at level 10, b at level 9).
Local Notation "'wquiet' b" := (fun w : Window => source_signals_blocked (base w) = b)
  (at level 10, b at level 9).

Ltac head_of t :=
  lazymatch t with
  | ?f _ => head_of f
  | _ => t
  end.

Ltac keep_step b :=
  first
    [ apply preserves_ret | apply preserves_raise | apply preserves_get
    | apply preserves_lift
    | apply preserves_modify;
      let s := fresh "s" in let H := fresh "H" in intros s H; exact H
    | apply (in_app_preserves (fun _ a => source_signals_blocked a = b))
    | apply preserves_bind; [ | intros ? ]
    | apply preserves_try_except; [ | intros ? ]
    | match goal with
      | |- preserves _ (match ?x with _ => _ end) => destruct x
      | |- forall _, _ => intro
      | |- preserves _ (let _ := _ in _) => cbv zeta
      | |- preserves _ ?m => let h := head_of m in progress unfold h
      end ].

Lemma handle_keeps_signals b e : preserves (wquiet b) (handle env probe e).
Proof. destruct e; cbn [handle]; repeat keep_step b. Qed.

Lemma replay_keeps_signals events : forall w,
  source_signals_blocked (base (replay env probe events w))
  = source_signals_blocked (base w).
Proof.
  induction events as [|e events IH]; intros w; [ reflexivity | ].
  unfold replay in *. cbn [fold_left]. rewrite IH.
  exact (handle_keeps_signals _ e w eq_refl).
Qed.

Lemma source_combo_addItem_keeps_signals b text data :
  preserves (wquiet b) (source_combo_addItem env text data).
Proof. repeat keep_step b. Qed.

Lemma detect_linux_loop_keeps_signals b names :
  preserves (wquiet b) (detect_linux_loop env probe names).
Proof.
  induction names as [|n names IH]; cbn [detect_linux_loop]; [ apply preserves_ret | ].
  apply preserves_bind; [ apply source_combo_addItem_keeps_signals | intros _ ].
  apply preserves_bind; [ | intros _; exact IH ].
  repeat keep_step b.
Qed.

Lemma detect_windows_loop_keeps_signals b lines :
  preserves (wquiet b) (detect_windows_loop env lines).
Proof.
  induction lines as [|l lines IH]; cbn [detect_windows_loop]; [ apply preserves_ret | ].
  apply preserves_bind; [ | intros _; exact IH ].
  destruct (contains "DirectShow video devices" l); [ apply preserves_ret | ].
  destruct (search_quoted l); [ | apply preserves_ret ].
  destruct (contains "video" (lower l)); [ | apply preserves_ret ].
  apply preserves_bind; [ apply source_combo_addItem_keeps_signals | intros _ ].
  repeat keep_step b.
Qed.

Lemma detect_sources_keeps_signals b : preserves (wquiet b) (detect_sources env probe).
Proof.
  unfold detect_sources.
  apply preserves_bind; [ repeat keep_step b | intros _ ].
  apply preserves_bind; [ repeat keep_step b | intros _ ].
  apply preserves_bind; [ apply source_combo_addItem_keeps_signals | intros _ ].
  destruct (startswith (sys_platform env) "linux");
    [ | destruct (startswith (sys_platform env) "win"); [ | apply preserves_ret ] ].
  - unfold detect_linux_devices.
    apply preserves_try_except; [ | intros e; repeat keep_step b ].
    apply preserves_bind; [ apply preserves_lift | intros names ].
    apply detect_linux_loop_keeps_signals.
  - unfold detect_windows_devices.
    apply preserves_try_except; [ | intros e; repeat keep_step b ].
    apply preserves_bind; [ apply preserves_lift | intros stderr ].
    apply detect_windows_loop_keeps_signals.
Qed.

(** When every existence check answers, [load_settings] unblocks what it
    blocked. *)
Lemma restore_source_unblocks v :
  paths_answer env -> preserves (quiet false) (restore_source env v).
Proof.
  intros Hpaths a Ha. unfold restore_source.
  destruct (truthy v); [ | exact Ha ].
  destruct v as [| | | |saved| |]; try exact Ha.
  unfold bind, ret, get, lift, modify. cbn [fst snd].
  destruct (is_device saved).
  - destruct (find_data saved _ 0); reflexivity.
  - destruct (Hpaths saved) as [found ->]. destruct found; reflexivity.
Qed.

Lemma load_settings_unblocks :
  paths_answer env -> preserves (quiet false) (load_settings env).
Proof.
  intros Hpaths. apply load_settings_steps;
    try solve [ intros v s H; exact H ];
    try solve [ intros v; unfold crop_top_spin_setValue, crop_bottom_spin_setValue,
                  crop_left_spin_setValue, crop_right_spin_setValue,
                  quality_spin_setValue, bitrate_spin_setValue;
                repeat keep_step false ].
  intros v. now apply restore_source_unblocks.
Qed.

Lemma started_signals disk :
  paths_answer env -> source_signals_blocked (base (started env probe disk)) = false.
Proof.
  intros Hpaths. unfold started, CropCastApp_init.
  apply (preserves_bind (wquiet false)).
  - apply (in_app_preserves (fun _ a => source_signals_blocked a = false)).
    intros _. now apply load_settings_unblocks.
  - intros _. apply detect_sources_keeps_signals.
  - reflexivity.
Qed.

End Signals.

End SelectFacts.

Import SelectFacts.

(** X15: choosing a detected device in the source list, while the signals
    of the list are not blocked, makes it the current source, sets the
    device flag and starts a preview thread whose capture format is the one
    the builder will use for the conversion: both read the device with
    [-f v4l2 -i <path>] on Linux and with [-f dshow -i video=<name>] on
    Windows; the builder then returns this command when the existence check
    of the output file answers and raises what the check raises otherwise.
    The signals are not blocked when every existence check answers.  While
    they are blocked, which is how [load_settings] leaves the list when the
    existence check of the saved source raises, the choice only moves the
    current index: no source is selected and no preview starts. *)
Theorem selected_device_previews_as_it_converts :
  forall env probe disk events i d,
    let w := replay env probe events (started env probe disk) in
    1 <= i -> itemData (source_combo (base w)) i = Some d ->
    currentIndex (source_combo (base w)) <> i ->
    let w' := snd (handle env probe (SourceActivated i) w) in
    (paths_answer env -> source_signals_blocked (base w) = false) /\
    (source_signals_blocked (base w) = true ->
     w' = set_base (set_source_combo (setCurrentIndex i (source_combo (base w)))
                                     (base w)) w) /\
    (source_signals_blocked (base w) = false ->
     current_source (base w') = Some d /\
     is_device_source (base w') = true /\
     currentIndex (source_combo (base w')) = i /\
     last (console_output (base w')) "" = "Starting device preview..." /\
     exists fmt,
       (fmt = "v4l2" \/ fmt = "dshow") /\
       input_args env d = Some ["-f"; fmt; "-i"; d] /\
       preview_thread w' = Some (mkPreviewThread d (startswith d "video=")) /\
       preview_cmd d (startswith d "video=")
       = ["ffmpeg"; "-f"; fmt; "-i"; d; "-f"; "rawvideo"; "-pix_fmt"; "rgb24";
          "-s"; "640x480"; "-r"; "15"; "pipe:1"] /\
       (forall folder, output_path (base w') = JStr folder ->
          match path_exists env (output_file env (base w') d folder) with
          | Ok _ =>
              fst (build_ffmpeg_command env (base w'))
              = Ok (Some (["ffmpeg"; "-y"] ++ ["-f"; fmt; "-i"; d]
                          ++ options (base w') true
                          ++ [output_file env (base w') d folder]))
          | Raise e => fst (build_ffmpeg_command env (base w')) = Raise e
          end)).
Proof.
  intros env probe disk events i d w Hi Hdata Hcur w'.
  destruct (reachable_items_captured env probe disk events i d Hi Hdata)
    as (Hcap & Hdev).
  fold w in Hcap, Hdev.
  pose proof (itemData_in_range _ _ _ Hdata) as Hrange.
  assert (Hci : currentIndex (setCurrentIndex i (source_combo (base w))) = i)
    by (unfold setCurrentIndex; rewrite Hrange; reflexivity).
  assert (Hrun : w' = snd (currentIndexChanged env i
                   (set_base (set_source_combo (setCurrentIndex i (source_combo (base w)))
                                               (base w)) w))).
  { unfold w'. cbn [handle]. unfold source_combo_setCurrentIndex, bind at 1 2 3, get.
    rewrite in_app_modify. cbn [fst snd base set_base source_combo set_source_combo].
    rewrite !Hci.
    destruct (Z.eqb_spec i (currentIndex (source_combo (base w)))) as [E|_];
      [ congruence | reflexivity ]. }
  split.
  { intros Hpaths. unfold w. rewrite replay_keeps_signals. now apply started_signals. }
  split.
  { intros Hblocked. rewrite Hrun. unfold currentIndexChanged, bind, get.
    cbn [fst snd base set_base source_signals_blocked set_source_combo].
    rewrite Hblocked. reflexivity. }
  intros Hblocked.
  assert (Hstep : exists c,
    w' = mkWindow
           (set_console_output
              (c ++ ["Starting device preview..."])
              (set_is_device_source true
                 (set_current_source (Some d)
                    (set_source_combo (setCurrentIndex i (source_combo (base w)))
                                      (base w)))))
           (Some (mkPreviewThread d (startswith d "video=")))
           (preview_isRunning w) (conversion_isRunning w) (preview_pixmap w)
           (preview_label_size w)).
  { rewrite Hrun. unfold currentIndexChanged, bind at 1, get.
    cbn [fst snd base set_base source_signals_blocked set_source_combo].
    rewrite Hblocked.
    destruct (on_source_changed_device env i d
                (set_base (set_source_combo (setCurrentIndex i (source_combo (base w)))
                                            (base w)) w) Hdata Hdev) as (c & E).
    rewrite E. eexists (c ++ [_]). rewrite <- app_assoc. reflexivity. }
  clear Hrun. destruct Hstep as (c & E). rewrite E. clear E.
  cbn [base current_source is_device_source source_combo console_output
       set_console_output set_is_device_source set_current_source set_source_combo
       preview_thread output_path].
  split; [ reflexivity | split; [ reflexivity | ] ].
  split; [ exact Hci | ].
  split; [ apply last_last | ].
  assert (Hfmt : exists fmt,
            (fmt = "v4l2" \/ fmt = "dshow") /\
            input_args env d = Some ["-f"; fmt; "-i"; d] /\
            preview_cmd d (startswith d "video=")
            = ["ffmpeg"; "-f"; fmt; "-i"; d; "-f"; "rawvideo"; "-pix_fmt"; "rgb24";
               "-s"; "640x480"; "-r"; "15"; "pipe:1"]).
  { unfold captured in Hcap. unfold input_args, preview_cmd.
    destruct (startswith (sys_platform env) "linux" && startswith d "/dev/") eqn:Hl.
    - apply andb_prop in Hl. destruct Hl as [_ Hl]. rewrite (dev_not_video d Hl).
      exists "v4l2". repeat split; auto.
    - cbn [orb] in Hcap. rewrite Hcap. apply andb_prop in Hcap. destruct Hcap as [_ Hv].
      rewrite Hv. exists "dshow". repeat split; auto. }
  destruct Hfmt as (fmt & Hf & Hin & Hcmd).
  exists fmt. repeat (split; [ assumption || reflexivity | ]).
  intros folder Ho.
  rewrite build_ffmpeg_command_result.
  cbn [current_source set_console_output set_is_device_source set_current_source
       set_source_combo output_path].
  rewrite Hin, Ho, Hdev.
  destruct (path_exists env _) as [found|e]; reflexivity.
Qed.

Lemma selected_device_previews_as_it_converts_witness :
  current_source
    (base (snd (handle example_env
                  (mkProbe (Ok ["video0"]) (fun _ => Raise OSError) (fun _ => None)
                           (Raise OSError) (fun i _ => i))
                  (SourceActivated 1)
                  (replay example_env
                     (mkProbe (Ok ["video0"]) (fun _ => Raise OSError) (fun _ => None)
                              (Raise OSError) (fun i _ => i))
                     []
                     (started example_env
                        (mkProbe (Ok ["video0"]) (fun _ => Raise OSError) (fun _ => None)
                                 (Raise OSError) (fun i _ => i))
                        None)))))
  = Some "/dev/video0".
Proof.
  refine (proj1 (proj2 (proj2 (selected_device_previews_as_it_converts example_env
                   (mkProbe (Ok ["video0"]) (fun _ => Raise OSError) (fun _ => None)
                            (Raise OSError) (fun i _ => i))
                   None [] 1 "/dev/video0" _ _ _)) _)).
  - lia.
  - vm_compute. reflexivity.
  - vm_compute. discriminate.
  - vm_compute. reflexivity.
Defined.

(** A settings file whose source is a path that the system refuses leaves
    the signals of the source list blocked: the device chosen afterwards
    becomes the current entry of the list, but not the current source. *)
Example refused_saved_source_blocks_selection :
  let env := mkEnv "linux" (fun p => if (p =? "/too/long")%string then Raise OSError
                                     else Ok false)
                   (fun _ => "in") (fun _ => "in.mp4")
                   (fun a b => (a ++ "/" ++ b)%string) "/home/user"
                   (fun _ => "error") (fun s => s) true NotOpened 800 450 in
  let probe := mkProbe (Ok ["video0"]) (fun _ => Raise OSError) (fun _ => None)
                       (Raise OSError) (fun i _ => i) in
  let w := started env probe (Some (Document (JObj [("source", JStr "/too/long")]))) in
  let w' := snd (handle env probe (SourceActivated 1) w) in
  source_signals_blocked (base w) = true /\
  console_output (base w)
  = ["Error loading settings: error"; "Detecting video sources...";
     "Found device: video0"] /\
  itemData (source_combo (base w)) 1 = Some "/dev/video0" /\
  fst (handle env probe (SourceActivated 1) w) = Ok tt /\
  currentIndex (source_combo (base w')) = 1 /\
  current_source (base w') = None /\
  preview_thread w' = None.
Proof. vm_compute. repeat split. Qed.
Module FrameFacts.
Import WindowFacts StartFacts.

Lemma detect_resolution_run label image a :
  let a' := snd (detect_resolution label image a) in
  original_video_width a' = image_width image /\
  original_video_height a' = image_height image /\
  is_device_source a' = is_device_source a /\
  console_output a'
  = console_output a
    ++ (if same_resolution image a then [] else [resolution_line label image]).
Proof.
  unfold detect_resolution, same_resolution, bind, get. cbn [fst snd].
  destruct (Z.eqb_spec (image_width image) (original_video_width a)) as [Ew|Ew];
    destruct (Z.eqb_spec (image_height image) (original_video_height a)) as [Eh|Eh];
    cbn [negb orb andb ret modify log_console update_crop_overlay fst snd];
    repeat split; try reflexivity; try congruence; symmetry; apply app_nil_r.
Qed.

Lemma detect_resolution_overlay label image a :
  same_resolution image a = false ->
  crop_overlay (snd (detect_resolution label image a))
  = mkOverlay (value (crop_top_spin a)) (value (crop_bottom_spin a))
              (value (crop_left_spin a)) (value (crop_right_spin a))
              (image_width image) (image_height image)
              (width (crop_overlay a)) (height (crop_overlay a)).
Proof.
  unfold detect_resolution, same_resolution, bind, get. cbn [fst snd].
  rewrite <- negb_andb. intros ->. reflexivity.
Qed.

Lemma detect_resolution_same label image a :
  same_resolution image a = true -> detect_resolution label image a = (Ok tt, a).
Proof.
  unfold detect_resolution, same_resolution, bind, get. cbn [fst snd].
  rewrite <- negb_andb. intros ->. reflexivity.
Qed.

Section Frames.
Context (env : Env) (probe : Probe).

(** Showing an image changes the pixmap and the geometry of the overlay
    only. *)
Lemma show_image_run image w :
  let w' := snd (show_image probe image w) in
  preview_pixmap w' = image_scaled probe image (preview_label_size w) /\
  preview_label_size w' = preview_label_size w /\
  preview_thread w' = preview_thread w /\
  original_video_width (base w') = original_video_width (base w) /\
  original_video_height (base w') = original_video_height (base w) /\
  is_device_source (base w') = is_device_source (base w) /\
  console_output (base w') = console_output (base w) /\
  crop_overlay (base w')
  = (if isNull (image_scaled probe image (preview_label_size w))
     then crop_overlay (base w)
     else setGeometry (image_width (image_scaled probe image (preview_label_size w)))
                      (image_height (image_scaled probe image (preview_label_size w)))
                      (crop_overlay (base w))).
Proof.
  unfold show_image, update_overlay_geometry, bind, get, modify. cbn [fst snd].
  cbn [preview_pixmap set_preview_pixmap].
  destruct (isNull (image_scaled probe image (preview_label_size w)));
    repeat split; reflexivity.
Qed.

Lemma update_preview_frame_twice image w :
  snd (update_preview_frame probe image (snd (update_preview_frame probe image w)))
  = snd (update_preview_frame probe image w).
Proof.
  destruct w as [a th run crun px sz].
  destruct a as [t b l r q br sc vc ac cs op dev ow oh ov co ic ct sf].
  unfold update_preview_frame, show_image, update_overlay_geometry, when, in_app,
    detect_resolution, update_crop_overlay, log_console, bind, get, modify, ret.
  cbn.
  destruct dev; cbn;
    [ destruct (Z.eqb_spec (image_width image) ow);
      destruct (Z.eqb_spec (image_height image) oh); cbn | ];
    destruct (isNull (image_scaled probe image sz)) eqn:Hnull; try subst;
    repeat (cbn; rewrite ?Z.eqb_refl, ?Hnull); reflexivity.
Qed.

Lemma on_video_frame_twice frame w :
  snd (on_video_frame probe frame (snd (on_video_frame probe frame w)))
  = snd (on_video_frame probe frame w).
Proof.
  destruct frame as [valid image]. unfold on_video_frame. cbn [isValid toImage].
  destruct valid; [ | reflexivity ].
  destruct (isNull image); [ reflexivity | ].
  destruct w as [a th run crun px sz].
  destruct a as [t b l r q br sc vc ac cs op dev ow oh ov co ic ct sf].
  unfold show_image, update_overlay_geometry, when, in_app,
    detect_resolution, update_crop_overlay, log_console, bind, get, modify, ret.
  cbn.
  destruct dev; cbn;
    [ | destruct (Z.eqb_spec (image_width image) ow);
        destruct (Z.eqb_spec (image_height image) oh); cbn ];
    destruct (isNull (image_scaled probe image sz)) eqn:Hnull; try subst;
    repeat (cbn; rewrite ?Z.eqb_refl, ?Hnull); reflexivity.
Qed.

(** What a frame does when its handler detects the resolution, and when it
    does not. *)
Lemma frame_detected label image w :
  let w' := snd (show_image probe image
                   (snd (in_app (detect_resolution label image) w))) in
  original_video_width (base w') = image_width image /\
  original_video_height (base w') = image_height image /\
  console_output (base w')
  = console_output (base w)
    ++ (if same_resolution image (base w) then [] else [resolution_line label image]) /\
  preview_pixmap w' = image_scaled probe image (preview_label_size w).
Proof.
  intros w'.
  destruct (show_image_run image (snd (in_app (detect_resolution label image) w)))
    as (Hp & _ & _ & Hw & Hh & _ & Hc & _).
  destruct (detect_resolution_run label image (base w)) as (Dw & Dh & _ & Dc).
  fold w' in Hp, Hw, Hh, Hc.
  unfold in_app in Hp, Hw, Hh, Hc.
  destruct (detect_resolution label image (base w)) as [r a'].
  cbn [fst snd base set_base preview_label_size] in *.
  rewrite Hw, Hh, Hc, Hp. repeat split; assumption.
Qed.

Lemma frame_shown image w :
  let w' := snd (show_image probe image w) in
  original_video_width (base w') = original_video_width (base w) /\
  original_video_height (base w') = original_video_height (base w) /\
  console_output (base w') = console_output (base w).
Proof.
  intros w'. destruct (show_image_run image w) as (_ & _ & _ & Hw & Hh & _ & Hc & _).
  repeat split; assumption.
Qed.

Lemma update_preview_frame_device image w :
  is_device_source (base w) = true ->
  snd (update_preview_frame probe image w)
  = snd (show_image probe image (snd (in_app (detect_resolution "Device" image) w))).
Proof.
  intros H. unfold update_preview_frame, bind at 1 2. cbn [get fst snd]. rewrite H.
  cbn [when]. destruct (in_app (detect_resolution "Device" image) w) as [[[]|e] s] eqn:E;
    [ reflexivity | ].
  exfalso. revert E. unfold in_app, detect_resolution, bind, get. cbn [fst snd].
  destruct (negb _ || negb _); cbn; discriminate.
Qed.

Lemma replay_frames image n w :
  replay env probe (repeat (FrameReady image) (S n)) w
  = snd (update_preview_frame probe image w).
Proof.
  induction n as [|n IH]; [ reflexivity | ].
  change (repeat (FrameReady image) (S (S n)))
    with (FrameReady image :: repeat (FrameReady image) (S n)).
  unfold replay in *. cbn [fold_left handle] in *.
  change (fold_left (fun w0 e => snd (handle env probe e w0))
            (repeat (FrameReady image) n)
            (snd (update_preview_frame probe image
                    (snd (update_preview_frame probe image w))))
          = snd (update_preview_frame probe image w)).
  rewrite update_preview_frame_twice. exact IH.
Qed.

End Frames.

(** The signals of a capture: one frame of 640 by 480 pixels for every
    leading full read. *)
Lemma capture_loop_frames lengths :
  let signals := capture_loop lengths in
  signals = repeat (frameReady (mkImage 640 480)) (List.length signals) /\
  firstn (List.length signals) lengths = repeat frame_size (List.length signals) /\
  nth_error lengths (List.length signals) <> Some frame_size.
Proof.
  induction lengths as [|n rest IH]; cbn [capture_loop].
  - repeat split; discriminate.
  - destruct (Z.eqb_spec n frame_size) as [->|Hn]; cbn [negb].
    + destruct IH as (A & B & C). cbn [List.length repeat firstn nth_error].
      repeat split; [ f_equal; exact A | f_equal; exact B | exact C ].
    + repeat split. cbn [List.length nth_error]. congruence.
Qed.

End FrameFacts.

Import FrameFacts.

(** X16: a frame that is delivered a second time changes nothing, for the
    frames of the media player and for those of a capture device; a frame of
    the media player does not touch the detected resolution or the console
    while a device is the source, and a frame of a device does not while a
    file is. *)
Theorem frames_are_detected_once :
  forall probe frame image w,
    snd (on_video_frame probe frame (snd (on_video_frame probe frame w)))
    = snd (on_video_frame probe frame w) /\
    snd (update_preview_frame probe image (snd (update_preview_frame probe image w)))
    = snd (update_preview_frame probe image w) /\
    (is_device_source (base w) = true ->
     let w' := snd (on_video_frame probe frame w) in
     original_video_width (base w') = original_video_width (base w) /\
     original_video_height (base w') = original_video_height (base w) /\
     console_output (base w') = console_output (base w)) /\
    (is_device_source (base w) = false ->
     let w' := snd (update_preview_frame probe image w) in
     original_video_width (base w') = original_video_width (base w) /\
     original_video_height (base w') = original_video_height (base w) /\
     console_output (base w') = console_output (base w)).
Proof.
  intros probe frame image w.
  split; [ apply on_video_frame_twice | ].
  split; [ apply update_preview_frame_twice | ].
  split; intros Hd w'; subst w'.
  - unfold on_video_frame. destruct (isValid frame); [ | repeat split ].
    destruct (isNull (toImage frame)); [ repeat split | ].
    match goal with
    | |- context [snd (?m w)] =>
        replace (snd (m w)) with (snd (show_image probe (toImage frame) w))
          by (unfold bind; cbn [get fst snd]; rewrite Hd; reflexivity)
    end.
    apply frame_shown.
  - replace (snd (update_preview_frame probe image w))
      with (snd (show_image probe image w))
      by (unfold update_preview_frame, bind; cbn [get fst snd]; rewrite Hd; reflexivity).
    apply frame_shown.
Qed.

(** X17: the preview of a capture device, from the thread to the window.  A
    capture that cannot be started gives one error line on the console.
    Otherwise the thread emits one frame of 640 by 480 pixels for each
    leading read of 921600 bytes and ends at the first other read; with a
    device as the source, the first frame makes 640 by 480 the detected
    resolution, whatever the device delivers, with one console line when
    that is new, and no frame leaves the window as it was. *)
Theorem device_preview_detects_capture_size :
  forall env probe c w,
    is_device_source (base w) = true ->
    let signals := DevicePreviewThread_run env c in
    let w' := replay env probe (map preview_event signals) w in
    match c with
    | CannotStart e =>
        w' = set_base (set_console_output
                         (console_output (base w)
                          ++ [("Preview error: " ++ exn_str env e)%string])
                         (base w)) w
    | Reads lengths =>
        let n := List.length signals in
        signals = repeat (frameReady (mkImage 640 480)) n /\
        firstn n lengths = repeat 921600 n /\
        nth_error lengths n <> Some 921600 /\
        (n = 0%nat -> w' = w) /\
        (n <> 0%nat ->
         original_video_width (base w') = 640 /\
         original_video_height (base w') = 480 /\
         console_output (base w')
         = console_output (base w)
           ++ (if same_resolution (mkImage 640 480) (base w) then []
               else ["Device resolution: 640x480"]) /\
         preview_pixmap w' = image_scaled probe (mkImage 640 480) (preview_label_size w))
    end.
Proof.
  intros env probe c w Hd signals w'. destruct c as [e|lengths].
  - reflexivity.
  - intros n. destruct (capture_loop_frames lengths) as (A & B & C).
    cbn [DevicePreviewThread_run] in signals. fold signals in A, B, C. fold n in A, B, C.
    repeat (split; [ assumption | ]).
    assert (Hw : w' = replay env probe (repeat (FrameReady (mkImage 640 480)) n) w).
    { unfold w'. rewrite A. clear. induction n as [|n IH]; [ reflexivity | ].
      cbn [repeat map preview_event]. unfold replay in *. cbn [fold_left].
      generalize (snd (handle env probe (FrameReady (mkImage 640 480)) w)).
      clear IH w. induction n as [|n IH]; intros w; [ reflexivity | ].
      cbn [repeat map preview_event fold_left]. apply IH. }
    split.
    + intros Hn. rewrite Hw, Hn. reflexivity.
    + intros Hn. destruct n as [|m]; [ congruence | ].
      rewrite Hw, replay_frames, update_preview_frame_device by assumption.
      apply (frame_detected probe "Device" (mkImage 640 480) w).
Qed.

Lemma device_preview_detects_capture_size_witness :
  original_video_width
    (base (replay example_env
             (mkProbe (Ok ["video0"]) (fun _ => Raise OSError) (fun _ => None)
                      (Raise OSError) (fun i _ => i))
             (map preview_event
                (DevicePreviewThread_run example_env (Reads [921600; 921600; 4096])))
             (set_base (set_is_device_source true example_app)
                (new_window example_env None))))
  = 640.
Proof.
  refine (proj1 (proj2 (proj2 (proj2 (proj2
            (device_preview_detects_capture_size example_env
               (mkProbe (Ok ["video0"]) (fun _ => Raise OSError) (fun _ => None)
                        (Raise OSError) (fun i _ => i))
               (Reads [921600; 921600; 4096])
               (set_base (set_is_device_source true example_app)
                  (new_window example_env None))
               _)))) _)).
  - reflexivity.
  - vm_compute. discriminate.
Defined.

